(** * CloudGPT RP: image-generation adapter and character-creation workflow

    A shallow embedding of [utils/image-generation.ts] ([generateImage],
    [base64ToFile]) and of [handleSubmit] in
    [components/CreateCharacterModal.tsx], with the properties the
    specification states about them.

    Conventions.  A JavaScript string is a [string]: a sequence of code
    units, here restricted to the range 0..255.  Asynchronous code is run
    to completion in program order ([await] is sequencing), with the
    effects it performs appended to an explicit log.  A JavaScript
    exception is a [Throw] completion. *)

From Stdlib Require Import ZArith QArith List String Ascii Bool Lia.
From stdpp Require Import base strings pretty gmap list.

Open Scope string_scope.

(** ** Strings *)

(** [WhiteSpace] and [LineTerminator] code units below 256, as used by
    [String.prototype.trim]: TAB, LF, VT, FF, CR, SP, NBSP. *)
Definition is_white_space (c : ascii) : bool :=
  let k := N_of_ascii c in
  ((k =? 9) || (k =? 10) || (k =? 11) || (k =? 12) || (k =? 13)
   || (k =? 32) || (k =? 160))%N.

Fixpoint trimStart (s : string) : string :=
  match s with
  | EmptyString => EmptyString
  | String c r => if is_white_space c then trimStart r else s
  end.

Fixpoint trimEnd (s : string) : string :=
  match s with
  | EmptyString => EmptyString
  | String c r =>
      match trimEnd r with
      | EmptyString => if is_white_space c then EmptyString else String c EmptyString
      | r' => String c r'
      end
  end.

(** [s.trim()] *)
Definition trim (s : string) : string := trimEnd (trimStart s).

(** Truthiness of a string: every string but the empty one. *)
Definition truthy_string (s : string) : bool :=
  match s with
  | EmptyString => false
  | String _ _ => true
  end.

(** [s] is a non-empty run of the character [c] up to the end of input:
    the regular expression [c+$] matches at the start of [s]. *)
Fixpoint run_to_end (c : ascii) (s : string) : bool :=
  match s with
  | EmptyString => false
  | String d EmptyString => Ascii.eqb d c
  | String d r => Ascii.eqb d c && run_to_end c r
  end.

(** [s.replace(/\/+$/, "")]: the leftmost position from which the rest of
    the input is a non-empty run of slashes is where the match starts; the
    match is replaced by the empty string. *)
Fixpoint strip_trailing_slashes (s : string) : string :=
  match s with
  | EmptyString => EmptyString
  | String c r =>
      if run_to_end "/" s then EmptyString else String c (strip_trailing_slashes r)
  end.

(** ** JavaScript values and completions *)

Unset Elimination Schemes.
Inductive JsVal : Type :=
| VUndefined
| VNull
| VBool (b : bool)
| VNum (q : Q)
| VStr (s : string)
| VArr (items : list JsVal)
| VObj (fields : list (string * JsVal)).
Set Elimination Schemes.

(** What is thrown: an error object with a name and a message, as the
    rejections of [fetch], of [response.json()] and of the stores, and the
    errors of the language itself, are. *)
Record JsError : Type := mkError { err_name : string; err_message : string }.

Inductive Completion (A : Type) : Type :=
| Normal (a : A)
| Throw (e : JsError).
Arguments Normal {A} a.
Arguments Throw {A} e.

(** ToBoolean *)
Definition truthy (v : JsVal) : bool :=
  match v with
  | VUndefined | VNull => false
  | VBool b => b
  | VNum q => negb (Qeq_bool q 0)
  | VStr s => truthy_string s
  | VArr _ | VObj _ => true
  end.

Definition nullish (v : JsVal) : bool :=
  match v with
  | VUndefined | VNull => true
  | _ => false
  end.

(** Own property of an object; [undefined] when there is none. *)
Fixpoint own_property (p : string) (fields : list (string * JsVal)) : JsVal :=
  match fields with
  | [] => VUndefined
  | (k, v) :: rest => if String.eqb k p then v else own_property p rest
  end.

(** The TypeError of a property read on [null] or [undefined] (wording of
    V8; nothing below depends on it). *)
Definition TypeError_read (v : JsVal) (p : string) : JsError :=
  mkError "TypeError"
    ("Cannot read properties of "
       ++ (match v with VNull => "null" | _ => "undefined" end)
       ++ " (reading '" ++ p ++ "')").

(** [v.p] for a property name [p] that no built-in prototype defines (the
    code reads [data], [url], [b64_json], [error] and [message]). *)
Definition get_prop (v : JsVal) (p : string) : Completion JsVal :=
  match v with
  | VUndefined | VNull => Throw (TypeError_read v p)
  | VObj fields => Normal (own_property p fields)
  | VBool _ | VNum _ | VStr _ | VArr _ => Normal VUndefined
  end.

(** [v[0]] *)
Definition get_index0 (v : JsVal) : Completion JsVal :=
  match v with
  | VUndefined | VNull => Throw (TypeError_read v "0")
  | VArr items => Normal (match items with [] => VUndefined | x :: _ => x end)
  | VStr s =>
      Normal (match s with
              | EmptyString => VUndefined
              | String c _ => VStr (String c EmptyString)
              end)
  | VObj fields => Normal (own_property "0" fields)
  | VBool _ | VNum _ => Normal VUndefined
  end.

(** [v.length] *)
Definition get_length (v : JsVal) : Completion JsVal :=
  match v with
  | VUndefined | VNull => Throw (TypeError_read v "length")
  | VArr items => Normal (VNum (inject_Z (Z.of_nat (List.length items))))
  | VStr s => Normal (VNum (inject_Z (Z.of_nat (String.length s))))
  | VObj fields => Normal (own_property "length" fields)
  | VBool _ | VNum _ => Normal VUndefined
  end.

(** ** The platform

    What the code takes from its host: the network behind [fetch], and two
    primitives of the language runtime that are left abstract:
    [JSON.stringify], and the numeric coercion of [v > 0] for a [v] that
    is a string, an array or an object (ToPrimitive and ToNumber, which
    may throw). *)

Record Request : Type := mkRequest {
  req_url : string;
  req_method : string;
  req_headers : list (string * string);
  req_body : string
}.

(** A response: its status and what [response.json()] settles to. *)
Record Response : Type := mkResponse {
  status : Z;
  json : Completion JsVal
}.

(** [response.ok]: the status is in the range 200..299. *)
Definition ok (r : Response) : bool := ((200 <=? status r) && (status r <=? 299))%Z.

Record Platform : Type := mkPlatform {
  network : Request -> Completion Response;
  JSON_stringify : JsVal -> string;
  coerced_gt_0 : JsVal -> Completion bool
}.

(** [v > 0] *)
Definition gt_0 (P : Platform) (v : JsVal) : Completion bool :=
  match v with
  | VUndefined => Normal false
  | VNull => Normal false
  | VBool b => Normal b
  | VNum q => Normal (if Qlt_le_dec 0 q then true else false)
  | VStr _ | VArr _ | VObj _ => coerced_gt_0 P v
  end.

(** ** Effects: a state and exception monad *)

Definition M (S A : Type) : Type := S -> Completion A * S.

Definition ret {S A : Type} (a : A) : M S A := fun s => (Normal a, s).

Definition throw {S A : Type} (e : JsError) : M S A := fun s => (Throw e, s).

Definition lift {S A : Type} (c : Completion A) : M S A := fun s => (c, s).

Definition bind {S A B : Type} (m : M S A) (k : A -> M S B) : M S B :=
  fun s =>
    match m s with
    | (Normal a, s') => k a s'
    | (Throw e, s') => (Throw e, s')
    end.

Notation "'let*' x ':=' m 'in' k" := (bind m (fun x => k))
  (at level 10, x name, m at level 100, k at level 200).
Notation "'run' m 'then' k" := (bind m (fun _ => k))
  (at level 10, m at level 100, k at level 200).

(** [try { body } catch (e) { handler e }] *)
Definition try_catch {S A : Type} (body : M S A) (handler : JsError -> M S A) : M S A :=
  fun s =>
    match body s with
    | (Normal a, s') => (Normal a, s')
    | (Throw e, s') => handler e s'
    end.

(** [try { body } finally { fin }] *)
Definition try_finally {S A : Type} (body : M S A) (fin : M S unit) : M S A :=
  fun s =>
    match body s with
    | (c, s') =>
        match fin s' with
        | (Normal _, s'') => (c, s'')
        | (Throw e, s'') => (Throw e, s'')
        end
    end.

(** Append an effect to the log. *)
Definition emit {E : Type} (e : E) : M (list E) unit := fun log => (Normal tt, (log ++ [e])%list).

(** ** [generateImage] (utils/image-generation.ts) *)

Inductive ImageSize : Type := S256x256 | S512x512 | S1024x1024 | S1024x1792 | S1792x1024.

Definition size_literal (z : ImageSize) : string :=
  match z with
  | S256x256 => "256x256"
  | S512x512 => "512x512"
  | S1024x1024 => "1024x1024"
  | S1024x1792 => "1024x1792"
  | S1792x1024 => "1792x1024"
  end.

Inductive ImageQuality : Type := Standard | Hd.

Definition quality_literal (q : ImageQuality) : string :=
  match q with
  | Standard => "standard"
  | Hd => "hd"
  end.

(** [interface ImageGenerationOptions]; an optional field that is left
    out is [None]. *)
Record ImageGenerationOptions : Type := mkOptions {
  o_prompt : string;
  o_apiKey : string;
  o_baseUrl : string;
  o_model : option string;
  o_size : option ImageSize;
  o_quality : option ImageQuality;
  o_n : option Q
}.

(** [interface ImageGenerationResult]; a field that the object literal
    does not carry is [None].  The fields copied out of a response body
    are whatever values the body holds. *)
Record ImageGenerationResult : Type := mkResult {
  success : bool;
  imageUrl : option JsVal;
  imageData : option JsVal;
  error : option JsVal
}.

Definition failure (msg : JsVal) : ImageGenerationResult :=
  {| success := false; imageUrl := None; imageData := None; error := Some msg |}.

(** What [generateImage] does to the outside world. *)
Inductive Effect : Type :=
| Fetch (r : Request)
| ConsoleError (label : string) (e : JsError).

(** [await fetch(url, init)] *)
Definition fetch (P : Platform) (r : Request) : M (list Effect) Response :=
  run emit (Fetch r) then lift (network P r).

Definition console_error (label : string) (e : JsError) : M (list Effect) unit :=
  emit (ConsoleError label e).

(** [baseUrl.replace(/\/+$/, "")] followed by the template literal. *)
Definition endpoint_of (baseUrl : string) : string :=
  let cleanBaseUrl := strip_trailing_slashes baseUrl in
  cleanBaseUrl ++ "/images/generations".

(** The object handed to [JSON.stringify]. *)
Definition request_payload (model prompt : string) (n : Q) (size : ImageSize)
    (quality : ImageQuality) : JsVal :=
  VObj [ ("model", VStr model);
         ("prompt", VStr (trim prompt));
         ("n", VNum n);
         ("size", VStr (size_literal size));
         ("quality", VStr (quality_literal quality));
         ("response_format", VStr "url") ].

Definition generation_request (P : Platform) (endpoint apiKey : string) (payload : JsVal)
    : Request :=
  {| req_url := endpoint;
     req_method := "POST";
     req_headers := [ ("Content-Type", "application/json");
                      ("Authorization", "Bearer " ++ apiKey) ];
     req_body := JSON_stringify P payload |}.

(** [data.data && data.data.length > 0 && data.data[0].p]: the value of
    the chain, whose truthiness decides the branch. *)
Definition first_item_chain (P : Platform) (data : JsVal) (p : string) : Completion JsVal :=
  match get_prop data "data" with
  | Throw e => Throw e
  | Normal d =>
      if negb (truthy d) then Normal d
      else match get_length d with
           | Throw e => Throw e
           | Normal len =>
               match gt_0 P len with
               | Throw e => Throw e
               | Normal false => Normal (VBool false)
               | Normal true =>
                   match get_index0 d with
                   | Throw e => Throw e
                   | Normal item => get_prop item p
                   end
               end
           end
  end.

(** [data.data[0].p] *)
Definition first_item_prop (data : JsVal) (p : string) : Completion JsVal :=
  match get_prop data "data" with
  | Throw e => Throw e
  | Normal d =>
      match get_index0 d with
      | Throw e => Throw e
      | Normal item => get_prop item p
      end
  end.

(** [errorData.error?.message] *)
Definition error_message_of (errorData : JsVal) : Completion JsVal :=
  match get_prop errorData "error" with
  | Throw e => Throw e
  | Normal err => if nullish err then Normal VUndefined else get_prop err "message"
  end.

(** The statements of the [try] block that follow the [fetch]. *)
Definition read_response (P : Platform) (response : Response)
    : M (list Effect) ImageGenerationResult :=
  if negb (ok response) then
    (* response.json().catch(() => ({})) *)
    let errorData := match json response with
                     | Normal v => v
                     | Throw _ => VObj []
                     end in
    let* message := lift (error_message_of errorData) in
    let errorMessage :=
      if truthy message then message
      else VStr ("API request failed with status " ++ pretty (status response)) in
    ret (failure errorMessage)
  else
    let* data := lift (json response) in
    let* has_url := lift (first_item_chain P data "url") in
    if truthy has_url then
      let* url := lift (first_item_prop data "url") in
      ret {| success := true; imageUrl := Some url; imageData := None; error := None |}
    else
      let* has_b64 := lift (first_item_chain P data "b64_json") in
      if truthy has_b64 then
        let* b64 := lift (first_item_prop data "b64_json") in
        ret {| success := true; imageUrl := None; imageData := Some b64; error := None |}
      else
        ret (failure (VStr "No image data in response")).

(** The body of the [try] block. *)
Definition generateImage_try (P : Platform) (prompt apiKey baseUrl model : string)
    (size : ImageSize) (quality : ImageQuality) (n : Q)
    : M (list Effect) ImageGenerationResult :=
  if negb (truthy_string prompt) || negb (truthy_string (trim prompt)) then
    ret (failure (VStr "Image prompt is required"))
  else if negb (truthy_string apiKey) || negb (truthy_string (trim apiKey)) then
    ret (failure (VStr "API key is required"))
  else if negb (truthy_string baseUrl) || negb (truthy_string (trim baseUrl)) then
    ret (failure (VStr "API base URL is required"))
  else
    let endpoint := endpoint_of baseUrl in
    let* response := fetch P (generation_request P endpoint apiKey
                                (request_payload model prompt n size quality)) in
    read_response P response.

(** The [catch] block. *)
Definition generateImage_catch (e : JsError) : M (list Effect) ImageGenerationResult :=
  run console_error "Image generation error:" e then
  ret (failure (VStr (if truthy_string (err_message e) then err_message e
                      else "Failed to generate image"))).

(** The destructuring with its defaults comes before the [try]; it reads
    the fields of [options], which is an object by its type. *)
Definition generateImage (P : Platform) (options : ImageGenerationOptions)
    : M (list Effect) ImageGenerationResult :=
  let prompt := o_prompt options in
  let apiKey := o_apiKey options in
  let baseUrl := o_baseUrl options in
  let model := default "dall-e-3" (o_model options) in
  let size := default S1024x1024 (o_size options) in
  let quality := default Standard (o_quality options) in
  let n := default (1 # 1)%Q (o_n options) in
  try_catch (generateImage_try P prompt apiKey baseUrl model size quality n)
            generateImage_catch.

(** ** [base64ToFile] (utils/image-generation.ts) *)

(** [\w]: a letter, a digit or the underscore. *)
Definition is_word_char (c : ascii) : bool :=
  let k := N_of_ascii c in
  (((65 <=? k) && (k <=? 90)) || ((97 <=? k) && (k <=? 122))
   || ((48 <=? k) && (k <=? 57)) || (k =? 95))%N.

(** [drop_prefix p s] is what follows [p] in [s] when [s] starts with [p]. *)
Fixpoint drop_prefix (p s : string) : option string :=
  match p, s with
  | EmptyString, _ => Some s
  | String a p', String b s' => if Ascii.eqb a b then drop_prefix p' s' else None
  | String _ _, EmptyString => None
  end.

(** The longest match of [\w*] at the start of [s] is skipped. *)
Fixpoint skip_word_chars (s : string) : string :=
  match s with
  | String c r => if is_word_char c then skip_word_chars r else s
  | EmptyString => EmptyString
  end.

(** [base64Data.replace(/^data:image\/\w+;base64,/, "")].  The pattern is
    anchored at the start of the input.  [\w+] is greedy, and giving back
    characters cannot help it: what follows it in the pattern is [;], which
    is not a word character. *)
Definition strip_data_url_prefix (base64Data : string) : string :=
  match drop_prefix "data:image/" base64Data with
  | Some (String c r) =>
      if is_word_char c then
        match drop_prefix ";base64," (skip_word_chars r) with
        | Some rest => rest
        | None => base64Data
        end
      else base64Data
  | _ => base64Data
  end.

(** *** [atob]: the forgiving-base64 decode of the HTML standard *)

Definition base64_alphabet : list ascii :=
  list_ascii_of_string "ABCDEFGHIJKLMNOPQRSTUVWXYZabcdefghijklmnopqrstuvwxyz0123456789+/".

(** The position of [c] in [alphabet], counted from [i]. *)
Fixpoint index_from (i : N) (c : ascii) (alphabet : list ascii) : option N :=
  match alphabet with
  | [] => None
  | a :: rest => if Ascii.eqb a c then Some i else index_from (N.succ i) c rest
  end.

Definition sextet_of_char (c : ascii) : option N := index_from 0 c base64_alphabet.

(** The six bits of a sextet, most significant first. *)
Definition bits_of_sextet (n : N) : list bool :=
  [N.testbit n 5; N.testbit n 4; N.testbit n 3; N.testbit n 2; N.testbit n 1; N.testbit n 0].

(** ASCII whitespace: TAB, LF, FF, CR, SP. *)
Definition is_ascii_whitespace (c : ascii) : bool :=
  let k := N_of_ascii c in
  ((k =? 9) || (k =? 10) || (k =? 12) || (k =? 13) || (k =? 32))%N.

(** One or two [=] at the end are removed. *)
Definition remove_padding (data : list ascii) : list ascii :=
  match rev data with
  | last :: r =>
      if Ascii.eqb last "=" then
        match r with
        | before :: r' => if Ascii.eqb before "=" then rev r' else rev r
        | [] => rev r
        end
      else data
  | [] => data
  end.

(** The bit buffer: six bits are appended for each character; [None] when
    a character is not in the alphabet. *)
Fixpoint bit_buffer (data : list ascii) : option (list bool) :=
  match data with
  | [] => Some []
  | c :: rest =>
      match sextet_of_char c, bit_buffer rest with
      | Some n, Some bits => Some (bits_of_sextet n ++ bits)%list
      | _, _ => None
      end
  end.

(** The buffer read as 8-bit big-endian numbers; the 4 or 2 bits that are
    left over at the end are discarded. *)
Fixpoint octets (bits : list bool) : list ascii :=
  match bits with
  | b7 :: b6 :: b5 :: b4 :: b3 :: b2 :: b1 :: b0 :: rest =>
      Ascii b0 b1 b2 b3 b4 b5 b6 b7 :: octets rest
  | _ => []
  end.

Definition InvalidCharacterError : JsError :=
  mkError "InvalidCharacterError" "The string to be decoded is not correctly encoded.".

(** [atob(s)]: a binary string, one character for each decoded byte. *)
Definition atob (s : string) : Completion string :=
  let data := filter (fun c => is_ascii_whitespace c = false) (list_ascii_of_string s) in
  let data := if (List.length data mod 4 =? 0)%nat then remove_padding data else data in
  if (List.length data mod 4 =? 1)%nat then Throw InvalidCharacterError
  else match bit_buffer data with
       | None => Throw InvalidCharacterError
       | Some bits => Normal (string_of_list_ascii (octets bits))
       end.

(** *** The conversion *)

(** [s.charCodeAt(i)]; [None] is NaN. *)
Definition charCodeAt (s : string) (i : nat) : option N :=
  match String.get i s with
  | Some c => Some (N_of_ascii c)
  | None => None
  end.

(** The conversion of a number that is stored into a [Uint8Array]. *)
Definition to_uint8 (v : option N) : N :=
  match v with
  | Some k => (k mod 256)%N
  | None => 0%N
  end.

(** A [File] (and the [Blob] in it): name, content type and bytes. *)
Record File : Type := mkFile {
  file_name : string;
  file_type : string;
  file_bytes : list N
}.

(** [new Uint8Array(len)] and the [for] loop that fills it. *)
Definition fill_bytes (binaryString : string) : list N :=
  let len := String.length binaryString in
  foldl (fun (bytes : list N) (i : nat) => <[ i := to_uint8 (charCodeAt binaryString i) ]> bytes)
        (replicate len 0%N) (seq 0 len).

(** [filename] is [None] when the argument is left out. *)
Definition base64ToFile (base64Data : string) (filename : option string) : Completion File :=
  let filename := default "generated-image.png" filename in
  let base64String := strip_data_url_prefix base64Data in
  match atob base64String with
  | Throw e => Throw e
  | Normal binaryString =>
      let bytes := fill_bytes binaryString in
      Normal {| file_name := filename; file_type := "image/png"; file_bytes := bytes |}
  end.

(** *** The reference encoder (RFC 4648, with padding)

    It is what the round trip of [base64ToFile] is stated against; it is no
    part of the program. *)

Definition bits_of_octet (c : ascii) : list bool :=
  let 'Ascii b0 b1 b2 b3 b4 b5 b6 b7 := c in [b7; b6; b5; b4; b3; b2; b1; b0].

Definition N_of_bit (b : bool) : N := if b then 1%N else 0%N.

Definition sextet_of_bits (b5 b4 b3 b2 b1 b0 : bool) : N :=
  (32 * N_of_bit b5 + 16 * N_of_bit b4 + 8 * N_of_bit b3
   + 4 * N_of_bit b2 + 2 * N_of_bit b1 + N_of_bit b0)%N.

Definition char_of_sextet (n : N) : ascii := nth (N.to_nat n) base64_alphabet "="%char.

(** Groups of six bits; a last group that is short is filled with zeros. *)
Fixpoint encode_bits (bits : list bool) : list ascii :=
  match bits with
  | b5 :: b4 :: b3 :: b2 :: b1 :: b0 :: rest =>
      char_of_sextet (sextet_of_bits b5 b4 b3 b2 b1 b0) :: encode_bits rest
  | [b5; b4; b3; b2] =>
      [char_of_sextet (sextet_of_bits b5 b4 b3 b2 false false)]
  | [b5; b4] =>
      [char_of_sextet (sextet_of_bits b5 b4 false false false false)]
  | _ => []
  end.

(** Three bytes give four characters; one or two bytes at the end give two
    or three characters and [=] up to four. *)
Fixpoint base64_encode_chars (bytes : list Byte.byte) : list ascii :=
  match bytes with
  | a :: b :: c :: rest =>
      (encode_bits (bits_of_octet (ascii_of_byte a) ++ bits_of_octet (ascii_of_byte b)
                      ++ bits_of_octet (ascii_of_byte c))
         ++ base64_encode_chars rest)%list
  | [a; b] =>
      (encode_bits (bits_of_octet (ascii_of_byte a) ++ bits_of_octet (ascii_of_byte b))
         ++ ["="%char])%list
  | [a] => (encode_bits (bits_of_octet (ascii_of_byte a)) ++ ["="%char; "="%char])%list
  | [] => []
  end.

Definition base64_encode (bytes : list Byte.byte) : string :=
  string_of_list_ascii (base64_encode_chars bytes).

(** A recognized prefix: [data:image/<type>;base64,] with a type that is a
    non-empty run of word characters. *)
Definition data_url_prefix (type : string) : string := "data:image/" ++ type ++ ";base64,".

Definition recognized_type (type : string) : bool :=
  truthy_string type && forallb is_word_char (list_ascii_of_string type).

(** ** The character card that [handleSubmit] builds *)

Module CharaCard.

(** Modelled from the spec: the [RawCharacterData] interface is not in the
    sources.  A character book is an optional structure whose [entries]
    field is an ordered sequence. *)
Record CharacterBook : Type := mkBook { entries : list JsVal }.

Record CharacterData : Type := mkData {
  name : string;
  description : string;
  personality : string;
  scenario : string;
  first_mes : string;
  mes_example : string;
  creator_notes : string;
  system_prompt : string;
  post_history_instructions : string;
  alternate_greetings : list string;
  character_book : option CharacterBook;
  tags : list string;
  creator : string;
  character_version : string;
  extensions : list (string * JsVal)
}.

Record RawCharacterData : Type := mkRaw {
  spec : string;
  spec_version : string;
  data : CharacterData;
  creatorcomment : string
}.

End CharaCard.

(** ** The stores *)

(** Modelled from the spec: a stored character is the raw data under its
    id, with the key of its avatar (the record type of
    lib/data/roleplay/character-record-operation is not in the sources). *)
Record CharacterRecord : Type := mkRecord {
  rec_id : string;
  rec_raw : CharaCard.RawCharacterData;
  rec_avatar : string
}.

Inductive ToastType : Type := ToastSuccess | ToastError | ToastWarning.

(** What [handleSubmit] does, in program order. *)
Inductive Action : Type :=
| PreventDefault
| ShowToast (message : string) (type : ToastType)
| SetIsLoading (b : bool)
| TrackButtonClick (action label : string)
| DateNow (t : Z)
| DynamicImport (path : string)
| CreateCharacter (id avatar : string)
| SetBlob (key : string)
| SetTimeout (ms : Z)
| LogError (label : string) (e : JsError).

(** The two stores and the log of what was done. *)
Record World : Type := mkWorld {
  records : gmap string CharacterRecord;
  blobs : gmap string File;
  trace : list Action
}.

(** What one invocation takes from its host: the reading of the clock, and
    for each asynchronous call that can fail whether it does ([Normal tt]
    when it does not). *)
Record Host : Type := mkHost {
  clock : Z;
  import_outcome : string -> Completion unit;
  record_store_outcome : Completion unit;
  blob_store_outcome : Completion unit
}.

Definition act (a : Action) : M World unit :=
  fun w => (Normal tt, {| records := records w; blobs := blobs w; trace := (trace w ++ [a])%list |}).

Definition DuplicateId (id : string) : JsError :=
  mkError "ValidationError" ("Character already exists: " ++ id).

(** Modelled from the spec: [LocalCharacterRecordOperations.createCharacter]
    of lib/data/roleplay/character-record-operation is not in the sources.
    It fails when the id already exists or the underlying store fails; the
    store does not validate the fields again; on success the record is
    stored under its id. *)
Definition createCharacter (H : Host) (id : string) (raw : CharaCard.RawCharacterData)
    (avatar : string) : M World unit :=
  run act (CreateCharacter id avatar) then
  fun w =>
    match records w !! id with
    | Some _ => throw (DuplicateId id) w
    | None =>
        match record_store_outcome H with
        | Throw e => throw e w
        | Normal _ =>
            (Normal tt,
             {| records := <[ id := mkRecord id raw avatar ]> (records w);
                blobs := blobs w;
                trace := trace w |})
        end
    end.

(** Modelled from the spec: [get] of the Character Record Store. *)
Definition get_character (id : string) (w : World) : option CharacterRecord :=
  records w !! id.

(** Modelled from the spec: [setBlob] of lib/data/local-storage is not in
    the sources.  A write under a key that exists overwrites silently; the
    write fails when the underlying store fails. *)
Definition setBlob (H : Host) (key : string) (file : File) : M World unit :=
  run act (SetBlob key) then
  fun w =>
    match blob_store_outcome H with
    | Throw e => throw e w
    | Normal _ =>
        (Normal tt,
         {| records := records w; blobs := <[ key := file ]> (blobs w); trace := trace w |})
    end.

(** [await import(path)] *)
Definition import_module (H : Host) (path : string) : M World unit :=
  run act (DynamicImport path) then lift (import_outcome H path).

(** ** [handleSubmit] (components/CreateCharacterModal.tsx) *)

(** The state of the form when it is submitted. *)
Record FormState : Type := mkForm {
  f_name : string;
  f_personality : string;
  f_scenario : string;
  f_firstMessage : string;
  f_creatorComment : string;
  f_description : string;
  f_avatarFile : option File
}.

(** [showToast(message, type)]; the type is ["error"] when left out. *)
Definition showToast (message : string) (type : option ToastType) : M World unit :=
  act (ShowToast message (default ToastError type)).

(** [`char_${Date.now()}`].  A time value is an integer of at most
    8.64e15 in absolute value; the template literal prints it in plain
    decimal. *)
Definition characterId_of (now : Z) : string := "char_" ++ pretty now.

(** [avatarFile ? `${characterId}.png` : "default-avatar.png"] *)
Definition imagePath_of (characterId : string) (avatarFile : option File) : string :=
  match avatarFile with
  | Some _ => characterId ++ ".png"
  | None => "default-avatar.png"
  end.

(** The object literal [rawCharacterData]. *)
Definition rawCharacterData_of (form : FormState) : CharaCard.RawCharacterData :=
  {| CharaCard.spec := "chara_card_v2";
     CharaCard.spec_version := "2.0";
     CharaCard.data :=
       {| CharaCard.name := trim (f_name form);
          CharaCard.description := trim (f_description form);
          CharaCard.personality := trim (f_personality form);
          CharaCard.scenario := trim (f_scenario form);
          CharaCard.first_mes :=
            (if truthy_string (trim (f_firstMessage form)) then trim (f_firstMessage form)
             else "Hello, I'm " ++ trim (f_name form) ++ ".");
          CharaCard.mes_example := "";
          CharaCard.creator_notes := trim (f_creatorComment form);
          CharaCard.system_prompt := "";
          CharaCard.post_history_instructions := "";
          CharaCard.alternate_greetings := [];
          CharaCard.character_book := None;
          CharaCard.tags := [];
          CharaCard.creator := "";
          CharaCard.character_version := "1.0";
          CharaCard.extensions := [] |};
     CharaCard.creatorcomment := trim (f_creatorComment form) |}.

(** The body of the [try] block. *)
Definition handleSubmit_try (H : Host) (form : FormState) : M World unit :=
  run act (TrackButtonClick "create_character_submit" "Submit Create Character") then
  run act (DateNow (clock H)) then
  let characterId := characterId_of (clock H) in
  let imagePath := imagePath_of characterId (f_avatarFile form) in
  let rawCharacterData := rawCharacterData_of form in
  run import_module H "@/lib/data/roleplay/character-record-operation" then
  run import_module H "@/lib/data/local-storage" then
  run createCharacter H characterId rawCharacterData imagePath then
  run (match f_avatarFile form with
       | Some avatarFile => setBlob H imagePath avatarFile
       | None => ret tt
       end) then
  run showToast "Character created successfully!" (Some ToastSuccess) then
  act (SetTimeout 1000).

(** The [catch] block. *)
Definition handleSubmit_catch (e : JsError) : M World unit :=
  run act (LogError "Failed to create character:" e) then
  showToast (if truthy_string (err_message e) then err_message e
             else "Failed to create character") None.

Definition handleSubmit (H : Host) (form : FormState) : M World unit :=
  run act PreventDefault then
  if negb (truthy_string (trim (f_name form))) then
    showToast "Character name is required" None
  else if negb (truthy_string (trim (f_personality form))) then
    showToast "Character personality is required" None
  else
    run act (SetIsLoading true) then
    try_finally
      (try_catch (handleSubmit_try H form) handleSubmit_catch)
      (act (SetIsLoading false)).

(** The new part of the log of a run that started in [w]. *)
Definition new_actions (w w' : World) : list Action := drop (List.length (trace w)) (trace w').

Definition is_record_write (a : Action) : bool :=
  match a with
  | CreateCharacter _ _ => true
  | _ => false
  end.

Definition is_blob_write (a : Action) : bool :=
  match a with
  | SetBlob _ => true
  | _ => false
  end.

(** Every action of the kind [q] in the log has an action of the kind [p]
    before it ([seen]: one was there before the log started). *)
Fixpoint preceded_by (p q : Action -> bool) (seen : bool) (log : list Action) : bool :=
  match log with
  | [] => true
  | a :: rest => (if q a then seen else true) && preceded_by p q (seen || p a) rest
  end.

(** ** [generateCharacterAvatar] and [generateSceneIllustration]
    (utils/image-generation.ts) *)

Definition avatarPrompt_of (characterDescription : string) : string :=
  "Create a high-quality portrait illustration of: " ++ characterDescription
    ++ ". Professional digital art style, detailed facial features, appropriate for a character profile picture. Focus on the character's face and upper body.".

Definition generateCharacterAvatar (P : Platform) (characterDescription apiKey baseUrl : string)
    : M (list Effect) ImageGenerationResult :=
  let avatarPrompt := avatarPrompt_of characterDescription in
  generateImage P
    {| o_prompt := avatarPrompt;
       o_apiKey := apiKey;
       o_baseUrl := baseUrl;
       o_model := Some "dall-e-3";
       o_size := Some S1024x1024;
       o_quality := Some Hd;
       o_n := None |}.

Definition scenePrompt_of (sceneDescription : string) : string :=
  "Illustrate this scene: " ++ sceneDescription
    ++ ". High-quality digital art, detailed environment, atmospheric lighting, cinematic composition.".

Definition generateSceneIllustration (P : Platform) (sceneDescription apiKey baseUrl : string)
    : M (list Effect) ImageGenerationResult :=
  let scenePrompt := scenePrompt_of sceneDescription in
  generateImage P
    {| o_prompt := scenePrompt;
       o_apiKey := apiKey;
       o_baseUrl := baseUrl;
       o_model := Some "dall-e-3";
       o_size := Some S1792x1024;
       o_quality := Some Hd;
       o_n := None |}.

(** ** [imageUrlToFile] (utils/image-generation.ts) *)

(** A [Blob]: content type and bytes. *)
Record BlobData : Type := mkBlob {
  blob_type : string;
  blob_bytes : list N
}.

(** The response to a download: its status and what [response.blob()]
    settles to. *)
Record MediaResponse : Type := mkMediaResponse {
  media_status : Z;
  media_blob : Completion BlobData
}.

(** The network behind [fetch(imageUrl)], by the argument that [fetch] is
    given. *)
Definition Media : Type := JsVal -> Completion MediaResponse.

(** What the image generation modal does to the outside world, apart from
    the request of [generateImage]: downloads, the props it calls and the
    console. *)
Inductive ModalCall : Type :=
| Download (imageUrl : JsVal)
| OnImageGenerated (imageFile : File)
| OnClose
| ConsoleErrorCall (label : string) (e : JsError).

(** [filename] is [None] when the argument is left out. *)
Definition imageUrlToFile (D : Media) (imageUrl : JsVal) (filename : option string)
    : M (list ModalCall) File :=
  let filename := default "generated-image.png" filename in
  let* response := (run emit (Download imageUrl) then lift (D imageUrl)) in
  let* blob := lift (media_blob response) in
  ret {| file_name := filename; file_type := blob_type blob; file_bytes := blob_bytes blob |}.

(** ** The toast of a component *)

Record Toast : Type := mkToast {
  isVisible : bool;
  toast_message : JsVal;
  toast_type : ToastType
}.

(** ** The image generation modal (components/ImageGenerationModal.tsx) *)

Module ImageGenerationModal.

(** The three sizes that the modal offers. *)
Inductive ModalSize : Type := Square | Portrait | Landscape.

Definition size_of (z : ModalSize) : ImageSize :=
  match z with
  | Square => S1024x1024
  | Portrait => S1024x1792
  | Landscape => S1792x1024
  end.

(** The state of the component, the local storage, and the two logs. *)
Record World : Type := mkWorld {
  prompt : string;
  generatedImageUrl : JsVal;
  isGenerating : bool;
  imageSize : ModalSize;
  toast : Toast;
  localStorage : gmap string string;
  api : list Effect;
  calls : list ModalCall
}.

Definition setToast (t : Toast) : M World unit :=
  fun w => (Normal tt,
            {| prompt := prompt w; generatedImageUrl := generatedImageUrl w;
               isGenerating := isGenerating w; imageSize := imageSize w; toast := t;
               localStorage := localStorage w; api := api w; calls := calls w |}).

Definition setGeneratedImageUrl (v : JsVal) : M World unit :=
  fun w => (Normal tt,
            {| prompt := prompt w; generatedImageUrl := v;
               isGenerating := isGenerating w; imageSize := imageSize w; toast := toast w;
               localStorage := localStorage w; api := api w; calls := calls w |}).

Definition setIsGenerating (b : bool) : M World unit :=
  fun w => (Normal tt,
            {| prompt := prompt w; generatedImageUrl := generatedImageUrl w;
               isGenerating := b; imageSize := imageSize w; toast := toast w;
               localStorage := localStorage w; api := api w; calls := calls w |}).

(** [showToast(message, type)]; the type is ["error"] when left out. *)
Definition showToast (message : JsVal) (type : option ToastType) : M World unit :=
  setToast {| isVisible := true; toast_message := message;
              toast_type := default ToastError type |}.

(** [localStorage.getItem(key) || ""] *)
Definition getItem_or_empty (key : string) : M World string :=
  fun w => (Normal (match localStorage w !! key with
                    | Some v => if truthy_string v then v else ""
                    | None => ""
                    end), w).

(** A run of [generateImage], on the log of its effects. *)
Definition call_api {A : Type} (m : M (list Effect) A) : M World A :=
  fun w =>
    match m (api w) with
    | (c, log) =>
        (c, {| prompt := prompt w; generatedImageUrl := generatedImageUrl w;
               isGenerating := isGenerating w; imageSize := imageSize w; toast := toast w;
               localStorage := localStorage w; api := log; calls := calls w |})
    end.

(** A run on the log of the calls. *)
Definition call_out {A : Type} (m : M (list ModalCall) A) : M World A :=
  fun w =>
    match m (calls w) with
    | (c, log) =>
        (c, {| prompt := prompt w; generatedImageUrl := generatedImageUrl w;
               isGenerating := isGenerating w; imageSize := imageSize w; toast := toast w;
               localStorage := localStorage w; api := api w; calls := log |})
    end.

(** [result.error || "Failed to generate image"] *)
Definition error_or_default (result : ImageGenerationResult) : JsVal :=
  match error result with
  | Some e => if truthy e then e else VStr "Failed to generate image"
  | None => VStr "Failed to generate image"
  end.

(** The body of the [try] block of [handleGenerate]; [prompt] and
    [imageSize] are the state that the handler was created with. *)
Definition handleGenerate_try (P : Platform) (prompt : string) (imageSize : ModalSize)
    : M World unit :=
  let* apiKey := getItem_or_empty "openaiApiKey" in
  let* baseUrl := getItem_or_empty "openaiBaseUrl" in
  if negb (truthy_string apiKey) || negb (truthy_string baseUrl) then
    run showToast (VStr "Please configure your CloudGPT API settings first") None then
    setIsGenerating false
  else
    let* result :=
      call_api (generateImage P
                  {| o_prompt := trim prompt;
                     o_apiKey := apiKey;
                     o_baseUrl := baseUrl;
                     o_model := None;
                     o_size := Some (size_of imageSize);
                     o_quality := Some Hd;
                     o_n := None |}) in
    match success result, imageUrl result with
    | true, Some url =>
        if truthy url then
          run setGeneratedImageUrl url then
          showToast (VStr "Image generated successfully!") (Some ToastSuccess)
        else showToast (error_or_default result) None
    | _, _ => showToast (error_or_default result) None
    end.

(** The [catch] block of [handleGenerate]. *)
Definition handleGenerate_catch (e : JsError) : M World unit :=
  run call_out (emit (ConsoleErrorCall "Image generation error:" e)) then
  showToast (VStr (if truthy_string (err_message e) then err_message e
                   else "Failed to generate image")) None.

Definition handleGenerate (P : Platform) : M World unit :=
  fun w0 =>
    (if negb (truthy_string (trim (prompt w0))) then
       showToast (VStr "Please enter an image description") None
     else
       run setIsGenerating true then
       run setGeneratedImageUrl (VStr "") then
       try_finally (try_catch (handleGenerate_try P (prompt w0) (imageSize w0))
                              handleGenerate_catch)
                   (setIsGenerating false)) w0.

Definition handleUseImage (D : Media) : M World unit :=
  fun w0 =>
    (if negb (truthy (generatedImageUrl w0)) then
       showToast (VStr "No image to use") None
     else
       try_catch
         (let* imageFile :=
            call_out (imageUrlToFile D (generatedImageUrl w0) (Some "generated-avatar.png")) in
          run call_out (emit (OnImageGenerated imageFile)) then
          call_out (emit OnClose))
         (fun e =>
            run call_out (emit (ConsoleErrorCall "Error processing image:" e)) then
            showToast (VStr "Failed to process generated image") None)) w0.

End ImageGenerationModal.

(** ** The avatar of the create character modal
    (components/CreateCharacterModal.tsx) *)

(** The form with the preview of its avatar. *)
Record CreateModal : Type := mkCreateModal {
  cm_form : FormState;
  cm_avatarPreview : string
}.

Definition setAvatarFile (file : option File) (st : CreateModal) : CreateModal :=
  {| cm_form :=
       {| f_name := f_name (cm_form st);
          f_personality := f_personality (cm_form st);
          f_scenario := f_scenario (cm_form st);
          f_firstMessage := f_firstMessage (cm_form st);
          f_creatorComment := f_creatorComment (cm_form st);
          f_description := f_description (cm_form st);
          f_avatarFile := file |};
     cm_avatarPreview := cm_avatarPreview st |}.

Definition setAvatarPreview (preview : string) (st : CreateModal) : CreateModal :=
  {| cm_form := cm_form st; cm_avatarPreview := preview |}.

(** The preview: a [FileReader] reads the file as a data URL, and its
    [onloadend] sets the preview.  [readAsDataURL] is the data URL of a
    file, a primitive of the platform. *)
Definition createPreview (readAsDataURL : File -> string) (file : File) (st : CreateModal)
    : CreateModal :=
  setAvatarPreview (readAsDataURL file) st.

(** [handleAvatarUpload]; [files] is [e.target.files]. *)
Definition handleAvatarUpload (readAsDataURL : File -> string) (files : list File)
    (st : CreateModal) : M World CreateModal :=
  match files with
  | file :: _ =>
      if negb (String.prefix "image/" (file_type file)) then
        run showToast "Please upload an image file" None then ret st
      else
        ret (createPreview readAsDataURL file (setAvatarFile (Some file) st))
  | [] => ret st
  end.

Definition handleImageGenerated (readAsDataURL : File -> string) (imageFile : File)
    (st : CreateModal) : M World CreateModal :=
  let st := createPreview readAsDataURL imageFile (setAvatarFile (Some imageFile) st) in
  run showToast "Avatar generated successfully!" (Some ToastSuccess) then ret st.

(** ** The chat image generator (components/ChatImageGenerator.tsx) *)

Module ChatImageGenerator.

(** The state of the component; [isGenerating] is a prop. *)
Record State : Type := mkState {
  showPromptInput : bool;
  imagePrompt : string
}.

(** The log holds the arguments of the calls of [onImageGenerate]. *)
Definition handleGenerate (st : State) : M (list string) State :=
  if truthy_string (trim (imagePrompt st)) then
    run emit (trim (imagePrompt st)) then
    ret {| showPromptInput := false; imagePrompt := "" |}
  else ret st.

(** The [onKeyPress] of the input. *)
Definition onKeyPress (key : string) (shiftKey : bool) (st : State) : M (list string) State :=
  if String.eqb key "Enter" && negb shiftKey then handleGenerate st else ret st.

(** The generate button is disabled when the prompt is blank or a
    generation is running; a disabled button gets no click. *)
Definition generateButton_disabled (isGenerating : bool) (st : State) : bool :=
  negb (truthy_string (trim (imagePrompt st))) || isGenerating.

Definition clickGenerate (isGenerating : bool) (st : State) : M (list string) State :=
  if generateButton_disabled isGenerating st then ret st else handleGenerate st.

End ChatImageGenerator.

(** ** Vocabulary of the statements *)

(** [k] slashes. *)
Fixpoint slashes (k : nat) : string :=
  match k with
  | O => EmptyString
  | S k' => String "/" (slashes k')
  end.

(** The request that [generateImage] issues for [options]. *)
Definition request_of (P : Platform) (options : ImageGenerationOptions) : Request :=
  generation_request P (endpoint_of (o_baseUrl options)) (o_apiKey options)
    (request_payload (default "dall-e-3" (o_model options)) (o_prompt options)
       (default (1 # 1)%Q (o_n options)) (default S1024x1024 (o_size options))
       (default Standard (o_quality options))).

(** [options] with the value of each default written out. *)
Definition with_defaults (options : ImageGenerationOptions) : ImageGenerationOptions :=
  {| o_prompt := o_prompt options;
     o_apiKey := o_apiKey options;
     o_baseUrl := o_baseUrl options;
     o_model := Some (default "dall-e-3" (o_model options));
     o_size := Some (default S1024x1024 (o_size options));
     o_quality := Some (default Standard (o_quality options));
     o_n := Some (default (1 # 1)%Q (o_n options)) |}.

(** The body has the documented shape [{ data: [ {...}, ... ] }]: an
    object whose [data] is a list that is empty or starts with an object,
    or is not there. *)
Definition result_list_shape (body : JsVal) : bool :=
  match body with
  | VObj fields =>
      match own_property "data" fields with
      | VUndefined | VNull | VArr [] | VArr (VObj _ :: _) => true
      | _ => false
      end
  | _ => false
  end.

(** The first result item of a body of that shape. *)
Definition first_result_item (body : JsVal) : option (list (string * JsVal)) :=
  match body with
  | VObj fields =>
      match own_property "data" fields with
      | VArr (VObj item :: _) => Some item
      | _ => None
      end
  | _ => None
  end.

(** The result list of the body holds at least one item with a field [p]
    that is set (the words of the specification). *)
Definition spec_contains_item_with (p : string) (body : JsVal) : bool :=
  match body with
  | VObj fields =>
      match own_property "data" fields with
      | VArr items =>
          existsb (fun item => match item with
                               | VObj item_fields => truthy (own_property p item_fields)
                               | _ => false
                               end) items
      | _ => false
      end
  | _ => false
  end.

(** [v.p] for a [v] other than [null] and [undefined]: the own property
    of an object, and [undefined] for a value that is not an object. *)
Definition member (v : JsVal) (p : string) : JsVal :=
  match v with
  | VObj fields => own_property p fields
  | _ => VUndefined
  end.

(** The first result item of a body, the one value that decides the
    outcome: the [data] of [null] cannot be read; a list has its first
    element, a string its first character, an object with a [length]
    greater than 0 its member [0]; everything else has no item. *)
Definition first_item (P : Platform) (body : JsVal) : Completion (option JsVal) :=
  if nullish body then Throw (TypeError_read body "data")
  else
    match member body "data" with
    | VArr (item :: _) => Normal (Some item)
    | VStr (String c _) => Normal (Some (VStr (String c EmptyString)))
    | VObj fields =>
        match gt_0 P (own_property "length" fields) with
        | Throw e => Throw e
        | Normal true => Normal (Some (own_property "0" fields))
        | Normal false => Normal None
        end
    | _ => Normal None
    end.

(** What the [try] block returns is a success with a URL, a success with
    inline data, or a failure with a message. *)
Definition result_shape (r : ImageGenerationResult) : Prop :=
  (exists v, r = {| success := true; imageUrl := Some v; imageData := None; error := None |})
  \/ (exists v, r = {| success := true; imageUrl := None; imageData := Some v; error := None |})
  \/ (exists msg, r = failure msg).

(** A character of the base64 alphabet. *)
Definition b64_char (c : ascii) : bool :=
  match sextet_of_char c with
  | Some _ => true
  | None => false
  end.

(** What the decoder makes of the encoding of [bytes]: the encoding is
    [body] followed by the padding [pad], and the bit buffer of [body]
    reads back as [bytes]. *)
Definition decodes_to (bytes : list Byte.byte) (body pad : list ascii) : Prop :=
  base64_encode_chars bytes = (body ++ pad)%list
  /\ (pad = [] \/ pad = ["="%char] \/ pad = ["="%char; "="%char])
  /\ (List.length (body ++ pad)%list mod 4 = 0)%nat
  /\ (List.length body mod 4 <> 1)%nat
  /\ Forall (fun c => b64_char c = true) body
  /\ exists bits : list bool,
       bit_buffer body = Some bits /\ octets bits = map ascii_of_byte bytes.

(** The world after [handleSubmit]. *)
Definition submit (H : Host) (form : FormState) (w : World) : World :=
  snd (handleSubmit H form w).

(** The record that a submission stores. *)
Definition record_of (now : Z) (form : FormState) : CharacterRecord :=
  {| rec_id := characterId_of now;
     rec_raw := rawCharacterData_of form;
     rec_avatar := imagePath_of (characterId_of now) (f_avatarFile form) |}.

(** The number of requests in a log. *)
Fixpoint count_fetches (log : list Effect) : nat :=
  match log with
  | [] => O
  | Fetch _ :: rest => S (count_fetches rest)
  | ConsoleError _ _ :: rest => count_fetches rest
  end.

(** The three required fields are there. *)
Definition fields_present (options : ImageGenerationOptions) : bool :=
  truthy_string (trim (o_prompt options)) && truthy_string (trim (o_apiKey options))
  && truthy_string (trim (o_baseUrl options)).

(** The message that the [catch] block reports for [e]. *)
Definition caught_message (e : JsError) : JsVal :=
  VStr (if truthy_string (err_message e) then err_message e else "Failed to generate image").

(** The [try] block of [generateImage] for [options], after the
    destructuring. *)
Definition try_block (P : Platform) (options : ImageGenerationOptions)
    : M (list Effect) ImageGenerationResult :=
  generateImage_try P (o_prompt options) (o_apiKey options) (o_baseUrl options)
    (default "dall-e-3" (o_model options)) (default S1024x1024 (o_size options))
    (default Standard (o_quality options)) (default (1 # 1)%Q (o_n options)).

(** The last character of [s] is a slash. *)
Fixpoint ends_with_slash (s : string) : bool :=
  match s with
  | EmptyString => false
  | String c EmptyString => Ascii.eqb c "/"
  | String _ r => ends_with_slash r
  end.

(** The request of a wrapper: the fixed model and quality, one image. *)
Definition wrapper_request (P : Platform) (prompt apiKey baseUrl size : string) : Request :=
  {| req_url := endpoint_of baseUrl;
     req_method := "POST";
     req_headers := [ ("Content-Type", "application/json");
                      ("Authorization", "Bearer " ++ apiKey) ];
     req_body :=
       JSON_stringify P
         (VObj [ ("model", VStr "dall-e-3");
                 ("prompt", VStr prompt);
                 ("n", VNum (1 # 1));
                 ("size", VStr size);
                 ("quality", VStr "hd");
                 ("response_format", VStr "url") ]) |}.

(** The characters of [s] without the ASCII whitespace. *)
Definition without_whitespace (s : string) : list ascii :=
  filter (fun c => is_ascii_whitespace c = false) (list_ascii_of_string s).

(** The reference encoding without its padding. *)
Definition base64_encode_unpadded (bytes : list Byte.byte) : string :=
  string_of_list_ascii
    (List.filter (fun c => negb (Ascii.eqb c "=")) (base64_encode_chars bytes)).

(** The file that [base64ToFile] makes of [bytes]. *)
Definition png_file (filename : option string) (bytes : list Byte.byte) : File :=
  {| file_name := default "generated-image.png" filename;
     file_type := "image/png";
     file_bytes := map Byte.to_N bytes |}.

(** The number of toasts that a log shows. *)
Fixpoint count_toasts (log : list Action) : nat :=
  match log with
  | [] => O
  | ShowToast _ _ :: rest => S (count_toasts rest)
  | _ :: rest => count_toasts rest
  end.

(** The loading flag as the log leaves it: the argument of the last
    [setIsLoading], when there is one. *)
Fixpoint loading_after (flag : option bool) (log : list Action) : option bool :=
  match log with
  | [] => flag
  | SetIsLoading b :: rest => loading_after (Some b) rest
  | _ :: rest => loading_after flag rest
  end.

(** The required fields of the form are there. *)
Definition form_valid (form : FormState) : bool :=
  truthy_string (trim (f_name form)) && truthy_string (trim (f_personality form)).

(** The message of the toast that the [catch] block of [handleSubmit]
    shows for [e]. *)
Definition submit_error_message (e : JsError) : string :=
  if truthy_string (err_message e) then err_message e else "Failed to create character".

(** The log of a submission up to the record write. *)
Definition actions_to_record_write (H : Host) (form : FormState) : list Action :=
  [PreventDefault; SetIsLoading true;
   TrackButtonClick "create_character_submit" "Submit Create Character";
   DateNow (clock H);
   DynamicImport "@/lib/data/roleplay/character-record-operation";
   DynamicImport "@/lib/data/local-storage";
   CreateCharacter (characterId_of (clock H))
     (imagePath_of (characterId_of (clock H)) (f_avatarFile form))].

(** The log of the [catch] and [finally] blocks for the error [e]. *)
Definition actions_of_failure (e : JsError) : list Action :=
  [LogError "Failed to create character:" e;
   ShowToast (submit_error_message e) ToastError;
   SetIsLoading false].

(** The options that the modal passes to [generateImage]. *)
Definition modal_options (prompt apiKey baseUrl : string)
    (imageSize : ImageGenerationModal.ModalSize) : ImageGenerationOptions :=
  {| o_prompt := trim prompt;
     o_apiKey := apiKey;
     o_baseUrl := baseUrl;
     o_model := None;
     o_size := Some (ImageGenerationModal.size_of imageSize);
     o_quality := Some Hd;
     o_n := None |}.

(** An error toast with the message [message]. *)
Definition error_toast (message : JsVal) : Toast :=
  {| isVisible := true; toast_message := message; toast_type := ToastError |}.

(** The world of the modal after a run that ends with the toast [t], the
    shown URL [url] and the request log [log]. *)
Definition modal_after (w : ImageGenerationModal.World) (url : JsVal) (t : Toast)
    (log : list Effect) : ImageGenerationModal.World :=
  {| ImageGenerationModal.prompt := ImageGenerationModal.prompt w;
     ImageGenerationModal.generatedImageUrl := url;
     ImageGenerationModal.isGenerating := false;
     ImageGenerationModal.imageSize := ImageGenerationModal.imageSize w;
     ImageGenerationModal.toast := t;
     ImageGenerationModal.localStorage := ImageGenerationModal.localStorage w;
     ImageGenerationModal.api := log;
     ImageGenerationModal.calls := ImageGenerationModal.calls w |}.

(** The file that the modal hands over for a downloaded blob. *)
Definition generated_avatar (blob : BlobData) : File :=
  {| file_name := "generated-avatar.png";
     file_type := blob_type blob;
     file_bytes := blob_bytes blob |}.

(** The avatar of the form is a file of an image type, or there is none. *)
Definition avatar_is_image (st : CreateModal) : Prop :=
  match f_avatarFile (cm_form st) with
  | Some file => String.prefix "image/" (file_type file) = true
  | None => True
  end.

(** ** Sample inputs *)

(** A platform whose network answers every request with [response]. *)
Definition answering (response : Response) : Platform :=
  {| network := fun _ => Normal response;
     JSON_stringify := fun _ => "{}";
     coerced_gt_0 := fun _ => Normal false |}.

Definition sample_options : ImageGenerationOptions :=
  mkOptions "a red fox" "cgpt_sk_test" "https://meridianlabsapp.website/v1/" None None None None.

Definition blank_prompt_options : ImageGenerationOptions :=
  mkOptions "   " "cgpt_sk_test" "https://meridianlabsapp.website/v1" None None None None.

(** A success body whose second item, not its first, has a URL. *)
Definition url_in_second_item : JsVal :=
  VObj [ ("data", VArr [ VObj []; VObj [ ("url", VStr "https://img.example/1.png") ] ]) ].

(** A success body whose first item has both fields. *)
Definition both_fields_body : JsVal :=
  VObj [ ("data", VArr [ VObj [ ("b64_json", VStr "TWFu");
                                ("url", VStr "https://img.example/1.png") ] ]) ].

(** A host on which nothing fails, with the clock at [t]. *)
Definition quiet_host (t : Z) : Host :=
  {| clock := t;
     import_outcome := fun _ => Normal tt;
     record_store_outcome := Normal tt;
     blob_store_outcome := Normal tt |}.

(** A host whose blob store rejects the write. *)
Definition failing_blob_host (t : Z) : Host :=
  {| clock := t;
     import_outcome := fun _ => Normal tt;
     record_store_outcome := Normal tt;
     blob_store_outcome := Throw (mkError "QuotaExceededError" "The quota has been exceeded.") |}.

Definition portrait : File :=
  {| file_name := "portrait.png"; file_type := "image/png";
     file_bytes := [137; 80; 78; 71]%N |}.

Definition alice_form : FormState :=
  {| f_name := "Alice"; f_personality := "Curious and kind"; f_scenario := "";
     f_firstMessage := ""; f_creatorComment := ""; f_description := "";
     f_avatarFile := Some portrait |}.

Definition bob_form : FormState :=
  {| f_name := "Bob"; f_personality := "Gruff"; f_scenario := "";
     f_firstMessage := ""; f_creatorComment := ""; f_description := "";
     f_avatarFile := None |}.

Definition blank_name_form : FormState :=
  {| f_name := "  "; f_personality := "Gruff"; f_scenario := "";
     f_firstMessage := ""; f_creatorComment := ""; f_description := "";
     f_avatarFile := Some portrait |}.

Definition empty_world : World := {| records := ∅; blobs := ∅; trace := [] |}.

(** A platform whose network is unreachable. *)
Definition unreachable : Platform :=
  {| network := fun _ => Throw (mkError "TypeError" "Failed to fetch");
     JSON_stringify := fun _ => "{}";
     coerced_gt_0 := fun _ => Normal false |}.

(** An error response with a message of the server. *)
Definition unauthorized : Response :=
  mkResponse 401 (Normal (VObj [ ("error", VObj [ ("message", VStr "Invalid API key") ]) ])).

(** An error response whose [error] is a string, not an object. *)
Definition invalid_token : Response :=
  mkResponse 401 (Normal (VObj [ ("error", VStr "Invalid token") ])).

(** A success body whose result list holds [null]. *)
Definition null_item_body : JsVal := VObj [ ("data", VArr [ VNull ]) ].

(** A success body with inline data only. *)
Definition inline_only_body : JsVal :=
  VObj [ ("data", VArr [ VObj [ ("b64_json", VStr "TWFu") ] ]) ].

(** A host whose record store fails. *)
Definition failing_record_host (t : Z) : Host :=
  {| clock := t;
     import_outcome := fun _ => Normal tt;
     record_store_outcome := Throw (mkError "AbortError" "The transaction was aborted.");
     blob_store_outcome := Normal tt |}.

(** The modal with a prompt, and the credentials in the local storage. *)
Definition sample_modal (apiKey baseUrl : string) : ImageGenerationModal.World :=
  {| ImageGenerationModal.prompt := " a red fox ";
     ImageGenerationModal.generatedImageUrl := VStr "";
     ImageGenerationModal.isGenerating := false;
     ImageGenerationModal.imageSize := ImageGenerationModal.Portrait;
     ImageGenerationModal.toast :=
       {| isVisible := false; toast_message := VStr ""; toast_type := ToastError |};
     ImageGenerationModal.localStorage :=
       <[ "openaiApiKey" := apiKey ]> (<[ "openaiBaseUrl" := baseUrl ]> ∅);
     ImageGenerationModal.api := [];
     ImageGenerationModal.calls := [] |}.

(** The modal after a generation that gave a URL. *)
Definition modal_with_url : ImageGenerationModal.World :=
  {| ImageGenerationModal.prompt := "a red fox";
     ImageGenerationModal.generatedImageUrl := VStr "https://img.example/1.png";
     ImageGenerationModal.isGenerating := false;
     ImageGenerationModal.imageSize := ImageGenerationModal.Square;
     ImageGenerationModal.toast :=
       {| isVisible := false; toast_message := VStr ""; toast_type := ToastError |};
     ImageGenerationModal.localStorage := ∅;
     ImageGenerationModal.api := [];
     ImageGenerationModal.calls := [] |}.

Definition fox_blob : BlobData := {| blob_type := "image/png"; blob_bytes := [137; 80; 78; 71]%N |}.

(** A download that answers with [fox_blob], with the status 404. *)
Definition serving : Media := fun _ => Normal (mkMediaResponse 404 (Normal fox_blob)).

(** A download that fails. *)
Definition offline : Media := fun _ => Throw (mkError "TypeError" "Failed to fetch").

Definition alice_modal : CreateModal := {| cm_form := bob_form; cm_avatarPreview := "" |}.

Definition chat_state : ChatImageGenerator.State :=
  {| ChatImageGenerator.showPromptInput := true;
     ChatImageGenerator.imagePrompt := " a castle " |}.

(** * Properties *)

(** ** Strings *)

Lemma truthy_string_false (s : string) : truthy_string s = false <-> s = "".
Proof. destruct s; simpl; split; congruence. Qed.

Lemma truthy_string_true (s : string) : truthy_string s = true <-> s <> "".
Proof. destruct s; simpl; split; congruence. Qed.

(** The presence check [!s || !s.trim()] of [generateImage]. *)
Lemma missing_iff (s : string) :
  negb (truthy_string s) || negb (truthy_string (trim s)) = true <-> trim s = "".
Proof.
  split.
  - intros H. apply orb_true_iff in H as [H | H].
    + apply negb_true_iff, truthy_string_false in H. now subst.
    + now apply negb_true_iff, truthy_string_false in H.
  - intros H. rewrite H. apply orb_true_r.
Qed.

Lemma present_iff (s : string) :
  negb (truthy_string s) || negb (truthy_string (trim s)) = false <-> trim s <> "".
Proof.
  rewrite <- missing_iff. destruct (negb _ || negb _); split; congruence.
Qed.

Lemma run_to_end_cons (c d : ascii) (r : string) :
  run_to_end c (String d r) = Ascii.eqb d c && (negb (truthy_string r) || run_to_end c r).
Proof. destruct r; simpl; [ now rewrite andb_true_r | reflexivity ]. Qed.

Lemma run_to_end_slashes (k : nat) : run_to_end "/" (slashes (S k)) = true.
Proof.
  induction k as [| k IH]; [ reflexivity | ].
  change (slashes (S (S k))) with (String "/" (slashes (S k))).
  rewrite run_to_end_cons, IH. reflexivity.
Qed.

(** Slashes appended to a string that is not empty do not change whether
    it is a run of slashes. *)
Lemma run_to_end_app_slashes (c : ascii) (r : string) (k : nat) :
  run_to_end "/" (String c r ++ slashes k) = run_to_end "/" (String c r).
Proof.
  revert c. induction r as [| d r IH]; intros c.
  - destruct k as [| k]; [ reflexivity | ].
    change (String c "" ++ slashes (S k)) with (String c (slashes (S k))).
    rewrite run_to_end_cons, run_to_end_slashes. simpl.
    now rewrite andb_true_r.
  - change (String c (String d r) ++ slashes k) with (String c (String d r ++ slashes k)).
    rewrite !run_to_end_cons with (d := c), IH. reflexivity.
Qed.

Lemma strip_trailing_slashes_app (s : string) (k : nat) :
  strip_trailing_slashes (s ++ slashes k) = strip_trailing_slashes s.
Proof.
  induction s as [| c r IH].
  - destruct k as [| k]; [ reflexivity | ].
    change ("" ++ slashes (S k)) with (String "/" (slashes k)).
    cbn [strip_trailing_slashes].
    change (String "/" (slashes k)) with (slashes (S k)).
    now rewrite run_to_end_slashes.
  - change (String c r ++ slashes k) with (String c (r ++ slashes k)).
    cbn [strip_trailing_slashes].
    change (String c (r ++ slashes k)) with (String c r ++ slashes k).
    rewrite run_to_end_app_slashes, IH. reflexivity.
Qed.

(** C7.  Base URLs that differ only in the number of slashes at their end
    give the same generation endpoint: for every string [base] and all
    numbers [m] and [n] of slashes appended to it, [endpoint_of] is the
    same string. *)
Theorem endpoint_ignores_trailing_slashes (base : string) (m n : nat) :
  endpoint_of (base ++ slashes m) = endpoint_of (base ++ slashes n).
Proof.
  unfold endpoint_of. now rewrite !strip_trailing_slashes_app.
Qed.

(** ** [generateImage] *)

Section GenerateImage.

Variable P : Platform.

(** The statements after the [fetch] leave the log as it is. *)
Lemma read_response_log (response : Response) (log : list Effect) :
  snd (read_response P response log) = log.
Proof.
  unfold read_response, bind, lift, ret.
  repeat (match goal with
          | |- context [match ?c with _ => _ end] => destruct c
          end; simpl; try reflexivity).
Qed.

Lemma read_response_shape (response : Response) (log log' : list Effect)
    (r : ImageGenerationResult) :
  read_response P response log = (Normal r, log') -> result_shape r.
Proof.
  unfold read_response, bind, lift, ret, result_shape.
  repeat (match goal with
          | |- context [match ?c with _ => _ end] => destruct c
          end; simpl; try discriminate);
    intros [= <- _]; eauto.
Qed.

Lemma generateImage_try_shape (prompt apiKey baseUrl model : string) (size : ImageSize)
    (quality : ImageQuality) (n : Q) (log log' : list Effect) (r : ImageGenerationResult) :
  generateImage_try P prompt apiKey baseUrl model size quality n log = (Normal r, log') ->
  result_shape r.
Proof.
  unfold generateImage_try.
  repeat (match goal with
          | |- context [if ?c then _ else _] => destruct c
          end; [ unfold ret, result_shape; intros [= <- _]; eauto | ]).
  unfold bind, fetch, emit, lift. simpl.
  destruct (network P _) as [response | e]; [ | discriminate ].
  apply read_response_shape.
Qed.
(** When the three required fields are there, the run is the [fetch] and
    what follows it, under the [catch]. *)
Lemma generateImage_present (options : ImageGenerationOptions) (log : list Effect) :
  trim (o_prompt options) <> "" -> trim (o_apiKey options) <> "" ->
  trim (o_baseUrl options) <> "" ->
  generateImage P options log =
    try_catch (let* response := fetch P (request_of P options) in read_response P response)
              generateImage_catch log.
Proof.
  intros Hp Hk Hb. apply present_iff in Hp, Hk, Hb.
  unfold generateImage, try_catch, generateImage_try.
  rewrite Hp, Hk, Hb. reflexivity.
Qed.

(** With the required fields there, exactly one request is issued: the log
    grows by the [Fetch], and by a [console.error] when the run throws. *)
Lemma generateImage_single_fetch (options : ImageGenerationOptions) (log : list Effect) :
  trim (o_prompt options) <> "" -> trim (o_apiKey options) <> "" ->
  trim (o_baseUrl options) <> "" ->
  exists rest : list Effect,
    snd (generateImage P options log) = (log ++ Fetch (request_of P options) :: rest)%list
    /\ Forall (fun e => match e with Fetch _ => False | ConsoleError _ _ => True end) rest.
Proof.
  intros Hp Hk Hb. rewrite generateImage_present by assumption.
  unfold try_catch, bind, fetch, emit, lift. simpl.
  destruct (network P (request_of P options)) as [response | e].
  - pose proof (read_response_log response (log ++ [Fetch (request_of P options)])) as Hlog.
    destruct (read_response P response _) as [[r | e] log'] eqn:E; simpl in Hlog; subst log'.
    + exists []. simpl. split; [ reflexivity | constructor ].
    + exists [ConsoleError "Image generation error:" e].
      unfold generateImage_catch, bind, console_error, emit, ret. simpl.
      rewrite <- app_assoc. split; [ reflexivity | repeat constructor ].
  - exists [ConsoleError "Image generation error:" e].
    unfold generateImage_catch, bind, console_error, emit, ret. simpl.
    rewrite <- app_assoc. split; [ reflexivity | repeat constructor ].
Qed.

(** C2.  [generateImage] never raises: for every platform (whatever the
    network and [response.json()] do, throwing included), every options
    record and every log, the run completes normally with a result of the
    [ImageGenerationResult] union: a success with a URL, a success with
    inline data, or [{success: false, error}].  On failure the result is
    the latter: an error [e] raised anywhere in the [try] block is logged
    and becomes [{success: false, error: e.message}] (["Failed to generate
    image"] when the message is empty); so a rejected [fetch] and an
    unreadable body of a successful response give that result, a status
    that is no success gives a failure, and so does a missing field,
    without anything being logged. *)
Theorem generateImage_never_raises (options : ImageGenerationOptions) (log : list Effect) :
  exists (r : ImageGenerationResult) (log' : list Effect),
    generateImage P options log = (Normal r, log')
    /\ result_shape r
    /\ match try_block P options log with
       | (Normal r0, log0) => r = r0 /\ log' = log0
       | (Throw e, log0) =>
           r = failure (caught_message e)
           /\ log' = (log0 ++ [ConsoleError "Image generation error:" e])%list
       end
    /\ (if fields_present options then
          match network P (request_of P options) with
          | Throw e => r = failure (caught_message e)
          | Normal response =>
              if ok response then
                match json response with
                | Throw e => r = failure (caught_message e)
                | Normal _ => success r = true \/ exists msg : JsVal, r = failure msg
                end
              else exists msg : JsVal, r = failure msg
          end
        else exists msg : JsVal, r = failure msg /\ log' = log).
Proof.
  assert (Hrun : exists r log',
             generateImage P options log = (Normal r, log')
             /\ result_shape r
             /\ match try_block P options log with
                | (Normal r0, log0) => r = r0 /\ log' = log0
                | (Throw e, log0) =>
                    r = failure (caught_message e)
                    /\ log' = (log0 ++ [ConsoleError "Image generation error:" e])%list
                end).
  { unfold generateImage, try_catch, try_block.
    destruct (generateImage_try P _ _ _ _ _ _ _ log) as [[r | e] log0] eqn:E.
    - exists r, log0. repeat split. eapply generateImage_try_shape; eassumption.
    - unfold generateImage_catch, bind, console_error, emit, ret, caught_message. cbn [fst snd].
      eexists _, _. repeat split. right; right. eexists. reflexivity. }
  destruct Hrun as (r & log' & Hrun & Hshape & Htry).
  exists r, log'. split; [ exact Hrun | ]. split; [ exact Hshape | ]. split; [ exact Htry | ].
  unfold fields_present.
  destruct (truthy_string (trim (o_prompt options))) eqn:Ep;
    [ destruct (truthy_string (trim (o_apiKey options))) eqn:Ek;
      [ destruct (truthy_string (trim (o_baseUrl options))) eqn:Eb | ] | ]; cbn [andb].
  - apply truthy_string_true in Ep, Ek, Eb.
    rewrite generateImage_present in Hrun by assumption.
    cbv [try_catch bind fetch emit lift] in Hrun.
    destruct (network P (request_of P options)) as [response | e].
    + unfold read_response in Hrun. destruct (ok response); cbn [negb] in Hrun.
      * cbv [bind lift] in Hrun.
        destruct (json response) as [body | e].
        -- destruct Hshape as [(v & ->) | [(v & ->) | (msg & ->)]];
             [ left; reflexivity | left; reflexivity | right; eexists; reflexivity ].
        -- cbv [generateImage_catch bind console_error emit ret] in Hrun.
           injection Hrun as <- _. reflexivity.
      * cbv [bind lift ret] in Hrun.
        destruct (error_message_of _) as [m | e].
        -- injection Hrun as <- _. eexists. reflexivity.
        -- cbv [generateImage_catch bind console_error emit ret] in Hrun.
           injection Hrun as <- _. eexists. reflexivity.
    + cbv [generateImage_catch bind console_error emit ret] in Hrun.
      injection Hrun as <- _. reflexivity.
  - apply truthy_string_true, present_iff in Ep, Ek. apply truthy_string_false, missing_iff in Eb.
    unfold generateImage, try_catch, generateImage_try in Hrun. rewrite Ep, Ek, Eb in Hrun.
    injection Hrun as <- <-. eexists. split; reflexivity.
  - apply truthy_string_true, present_iff in Ep. apply truthy_string_false, missing_iff in Ek.
    unfold generateImage, try_catch, generateImage_try in Hrun. rewrite Ep, Ek in Hrun.
    injection Hrun as <- <-. eexists. split; reflexivity.
  - apply truthy_string_false, missing_iff in Ep.
    unfold generateImage, try_catch, generateImage_try in Hrun. rewrite Ep in Hrun.
    injection Hrun as <- <-. eexists. split; reflexivity.
Qed.

(** C3.  When the prompt, the API key or the base URL is empty or only
    whitespace, [generateImage] returns [{success: false, error: "<field>
    is required"}] for the first of the three that is missing (the prompt
    before the API key, the API key before the base URL; the fields are
    called "Image prompt", "API key" and "API base URL"), and leaves the
    log as it was: no request is issued. *)
Theorem generateImage_missing_field (options : ImageGenerationOptions) (log : list Effect) :
  trim (o_prompt options) = "" \/ trim (o_apiKey options) = ""
    \/ trim (o_baseUrl options) = "" ->
  exists field : string,
    (trim (o_prompt options) = "" /\ field = "Image prompt"
     \/ trim (o_prompt options) <> "" /\ trim (o_apiKey options) = "" /\ field = "API key"
     \/ trim (o_prompt options) <> "" /\ trim (o_apiKey options) <> ""
        /\ trim (o_baseUrl options) = "" /\ field = "API base URL")
    /\ generateImage P options log = (Normal (failure (VStr (field ++ " is required"))), log).
Proof.
  intros H. unfold generateImage, try_catch, generateImage_try.
  destruct (negb (truthy_string (o_prompt options)) || _) eqn:Ep.
  { apply missing_iff in Ep. exists "Image prompt". split; [ left; auto | reflexivity ]. }
  apply present_iff in Ep.
  destruct (negb (truthy_string (o_apiKey options)) || _) eqn:Ek.
  { apply missing_iff in Ek. exists "API key". split; [ right; left; auto | reflexivity ]. }
  apply present_iff in Ek.
  destruct (negb (truthy_string (o_baseUrl options)) || _) eqn:Eb.
  { apply missing_iff in Eb. exists "API base URL".
    split; [ right; right; auto | reflexivity ]. }
  apply present_iff in Eb. tauto.
Qed.

(** C10.  Leaving out [model], [size], [quality] or [n] is the same as
    passing ["dall-e-3"], ["1024x1024"], ["standard"] and [1]: the run and
    its result are the same as with the defaults written out, and when
    all four are left out the request that is issued carries exactly these
    values. *)
Theorem generateImage_defaults (prompt apiKey baseUrl : string) (log : list Effect) :
  trim prompt <> "" -> trim apiKey <> "" -> trim baseUrl <> "" ->
  let omitted := mkOptions prompt apiKey baseUrl None None None None in
  (forall options : ImageGenerationOptions,
      generateImage P options log = generateImage P (with_defaults options) log)
  /\ generateImage P omitted log =
       generateImage P (mkOptions prompt apiKey baseUrl (Some "dall-e-3") (Some S1024x1024)
                          (Some Standard) (Some (1 # 1)%Q)) log
  /\ exists rest : list Effect,
       snd (generateImage P omitted log) =
         (log ++ Fetch {| req_url := endpoint_of baseUrl;
                          req_method := "POST";
                          req_headers := [ ("Content-Type", "application/json");
                                           ("Authorization", ("Bearer " ++ apiKey)%string) ];
                          req_body :=
                            JSON_stringify P
                              (VObj [ ("model", VStr "dall-e-3");
                                      ("prompt", VStr (trim prompt));
                                      ("n", VNum (1 # 1));
                                      ("size", VStr "1024x1024");
                                      ("quality", VStr "standard");
                                      ("response_format", VStr "url") ]) |} :: rest)%list.
Proof.
  intros Hp Hk Hb omitted. split; [ | split ].
  - intros options. reflexivity.
  - reflexivity.
  - destruct (generateImage_single_fetch omitted log Hp Hk Hb) as (rest & Hlog & _).
    exists rest. exact Hlog.
Qed.

(** [n > 0] for the length of a list. *)
Lemma gt_0_length (k : nat) :
  gt_0 P (VNum (inject_Z (Z.of_nat k))) = Normal (match k with O => false | S _ => true end).
Proof.
  unfold gt_0. destruct (Qlt_le_dec 0 (inject_Z (Z.of_nat k))) as [Hlt | Hle];
    unfold Qlt, Qle, inject_Z in *; simpl in *; destruct k; simpl in *; try reflexivity; lia.
Qed.

(** The two chains of the branch condition on a body of the documented
    shape: the field of the first item, when there is one. *)
Lemma first_item_chain_shape (body : JsVal) (p : string) :
  result_list_shape body = true ->
  exists v : JsVal,
    first_item_chain P body p = Normal v
    /\ match first_result_item body with
       | Some item => v = own_property p item /\ first_item_prop body p = Normal v
       | None => truthy v = false
       end.
Proof.
  unfold result_list_shape, first_item_chain, first_item_prop, first_result_item.
  destruct body as [ | | | | | | fields]; try discriminate.
  cbn [get_prop].
  destruct (own_property "data" fields) as [ | | | | | items | ]; try discriminate.
  - intros _. exists VUndefined. split; reflexivity.
  - intros _. exists VNull. split; reflexivity.
  - destruct items as [| first rest].
    + intros _. exists (VBool false). cbn [truthy negb get_length].
      rewrite gt_0_length. split; reflexivity.
    + destruct first as [ | | | | | | item]; try discriminate.
      intros _. exists (own_property p item). cbn [truthy negb get_length].
      rewrite gt_0_length. cbn [List.length get_index0 get_prop].
      repeat split; reflexivity.
Qed.

(** The two chains of the branch condition, and the reads that follow
    them, on any body. *)
Lemma first_item_chain_any (body : JsVal) (p : string) :
  match first_item P body with
  | Throw e => first_item_chain P body p = Throw e
  | Normal None =>
      exists v : JsVal, first_item_chain P body p = Normal v /\ truthy v = false
  | Normal (Some item) =>
      if nullish item then first_item_chain P body p = Throw (TypeError_read item p)
      else first_item_chain P body p = Normal (member item p)
           /\ first_item_prop body p = Normal (member item p)
  end.
Proof.
  unfold first_item, first_item_chain, first_item_prop.
  destruct body as [ | | b | q | s | items | fields]; cbn [nullish get_prop member];
    try reflexivity; try (eexists; split; reflexivity).
  destruct (own_property "data" fields) as [ | | b | q | s | items | dfields];
    cbn [truthy negb get_length];
    try (eexists; split; reflexivity).
  - destruct b; cbn [negb gt_0]; eexists; split; reflexivity.
  - destruct (negb (Qeq_bool q 0)) eqn:Eq; cbn [negb gt_0];
      [ | eexists; split; [ reflexivity | ] ].
    + eexists; split; reflexivity.
    + cbn [truthy]. exact Eq.
  - destruct s as [| c s]; cbn [truthy_string negb]; [ eexists; split; reflexivity | ].
    rewrite (gt_0_length (String.length (String c s))).
    cbn [String.length get_index0 nullish get_prop member].
    split; reflexivity.
  - rewrite gt_0_length. destruct items as [| item rest]; cbn [List.length get_index0].
    + eexists; split; reflexivity.
    + destruct item; cbn [nullish get_prop member]; try reflexivity; split; reflexivity.
  - destruct (gt_0 P (own_property "length" dfields)) as [[] | e]; [ | | reflexivity ].
    + cbn [get_index0]. destruct (own_property "0" dfields); cbn [nullish get_prop member];
        try reflexivity; split; reflexivity.
    + eexists; split; reflexivity.
Qed.

(** C4, as amended.  For every successful response whose body was parsed,
    whatever the body is, the outcome is decided on the first result item
    alone.  When that item is not [null]: when its [url] is set the result
    is [{success: true, imageUrl}] with that URL; else when its [b64_json]
    is set the result is [{success: true, imageData}]; else the result is
    [{success: false, error: "No image data in response"}].  When there is
    no first item (no result list, an empty one, a body of another shape)
    the result is that same failure.  When the body or the first item is
    [null] the read raises, and the result is the failure with the message
    of that error, which is logged.  A success carries exactly one of the
    two fields. *)
Theorem generateImage_first_item_precedence (options : ImageGenerationOptions)
    (log : list Effect) (response : Response) (body : JsVal) :
  trim (o_prompt options) <> "" -> trim (o_apiKey options) <> "" ->
  trim (o_baseUrl options) <> "" ->
  network P (request_of P options) = Normal response ->
  ok response = true ->
  json response = Normal body ->
  let issued := Fetch (request_of P options) in
  let no_image := failure (VStr "No image data in response") in
  let caught (e : JsError) :=
    (Normal (failure (caught_message e)),
     (log ++ [issued; ConsoleError "Image generation error:" e])%list) in
  generateImage P options log =
    match first_item P body with
    | Throw e => caught e
    | Normal None => (Normal no_image, (log ++ [issued])%list)
    | Normal (Some item) =>
        if nullish item then caught (TypeError_read item "url")
        else
          (Normal
             (if truthy (member item "url") then
                {| success := true; imageUrl := Some (member item "url");
                   imageData := None; error := None |}
              else if truthy (member item "b64_json") then
                {| success := true; imageUrl := None;
                   imageData := Some (member item "b64_json"); error := None |}
              else no_image),
           (log ++ [issued])%list)
    end.
Proof.
  intros Hp Hk Hb Hnet Hok Hjson issued no_image caught. subst issued no_image caught.
  rewrite generateImage_present by assumption.
  unfold try_catch, bind, fetch, emit, lift. cbn [fst snd]. rewrite Hnet.
  unfold read_response, bind, lift, ret. rewrite Hok, Hjson. cbn [negb].
  pose proof (first_item_chain_any body "url") as Hu.
  pose proof (first_item_chain_any body "b64_json") as Hd.
  unfold generateImage_catch, bind, console_error, emit, ret, caught_message.
  destruct (first_item P body) as [[item |] | e].
  - destruct (nullish item).
    + rewrite Hu. cbn [fst snd]. now rewrite <- app_assoc.
    + destruct Hu as [-> ->], Hd as [-> ->].
      destruct (truthy (member item "url")); [ reflexivity | ].
      destruct (truthy (member item "b64_json")); reflexivity.
  - destruct Hu as (u & -> & ->), Hd as (d & -> & ->). reflexivity.
  - rewrite Hu. cbn [fst snd]. now rewrite <- app_assoc.
Qed.

End GenerateImage.

(** ** [base64ToFile] *)

Lemma append_cons (c : ascii) (a b : string) : String c a ++ b = String c (a ++ b).
Proof. reflexivity. Qed.

Lemma string_app_assoc (a b c : string) : (a ++ b) ++ c = a ++ (b ++ c).
Proof.
  induction a as [| x a IH]; [ reflexivity | ].
  now rewrite !append_cons, IH.
Qed.

Lemma drop_prefix_app (p s : string) : drop_prefix p (p ++ s) = Some s.
Proof.
  induction p as [| a p IH]; [ now destruct s | ].
  rewrite append_cons. cbn [drop_prefix]. now rewrite Ascii.eqb_refl.
Qed.

Lemma skip_word_chars_app (t rest : string) :
  forallb is_word_char (list_ascii_of_string t) = true ->
  skip_word_chars (t ++ String ";" rest) = String ";" rest.
Proof.
  induction t as [| c t IH]; [ reflexivity | ].
  rewrite append_cons. cbn [list_ascii_of_string forallb skip_word_chars].
  intros H. apply andb_true_iff in H as [Hc Ht]. rewrite Hc. auto.
Qed.

(** A recognized prefix is removed, whatever follows it. *)
Lemma strip_recognized_prefix (type payload : string) :
  recognized_type type = true ->
  strip_data_url_prefix (data_url_prefix type ++ payload) = payload.
Proof.
  unfold recognized_type, data_url_prefix, strip_data_url_prefix.
  intros H. apply andb_true_iff in H as [Hne Hw].
  rewrite !string_app_assoc, drop_prefix_app.
  destruct type as [| c t]; [ discriminate | ].
  cbn [list_ascii_of_string forallb] in Hw. apply andb_true_iff in Hw as [Hc Ht].
  rewrite append_cons. cbv iota beta. rewrite Hc.
  change (";base64," ++ payload) with (String ";" ("base64," ++ payload)).
  rewrite skip_word_chars_app by assumption.
  change (String ";" ("base64," ++ payload)) with (";base64," ++ payload).
  now rewrite drop_prefix_app.
Qed.

(** The characters of an encoding are no whitespace and no colon. *)
Lemma b64_char_facts (c : ascii) :
  b64_char c = true \/ c = "="%char ->
  is_ascii_whitespace c = false /\ c <> ":"%char.
Proof.
  destruct c as [[] [] [] [] [] [] [] []]; vm_compute; intuition congruence.
Qed.
Lemma b64_char_not_pad (c : ascii) : b64_char c = true -> Ascii.eqb c "=" = false.
Proof.
  destruct c as [[] [] [] [] [] [] [] []]; vm_compute; congruence.
Qed.

(** The character of a sextet puts the six bits of the sextet into the buffer. *)
Lemma bit_buffer_encoded (b5 b4 b3 b2 b1 b0 : bool) (rest : list ascii) :
  bit_buffer (char_of_sextet (sextet_of_bits b5 b4 b3 b2 b1 b0) :: rest)
  = option_map (fun bits => b5 :: b4 :: b3 :: b2 :: b1 :: b0 :: bits) (bit_buffer rest).
Proof.
  cbn [bit_buffer].
  destruct b5, b4, b3, b2, b1, b0; destruct (bit_buffer rest); reflexivity.
Qed.
Lemma b64_char_encoded (b5 b4 b3 b2 b1 b0 : bool) :
  b64_char (char_of_sextet (sextet_of_bits b5 b4 b3 b2 b1 b0)) = true.
Proof. destruct b5, b4, b3, b2, b1, b0; reflexivity. Qed.

(** Induction on a list, three elements at a time. *)
Lemma triples_ind {A : Type} (Q : list A -> Prop) :
  Q [] -> (forall a, Q [a]) -> (forall a b, Q [a; b]) ->
  (forall a b c l, Q l -> Q (a :: b :: c :: l)) ->
  forall l, Q l.
Proof.
  intros H0 H1 H2 H3. fix IH 1.
  intros [| a [| b [| c l]]]; [ exact H0 | apply H1 | apply H2 | apply H3, IH ].
Qed.

Lemma mod4_step (n : nat) : (S (S (S (S n))) mod 4 = n mod 4)%nat.
Proof. replace (S (S (S (S n)))) with (n + 1 * 4)%nat by lia. apply Nat.Div0.mod_add. Qed.

(** Every encoding is a body of alphabet characters and a padding, of a
    length that the decoder accepts, and its bits read back as the bytes. *)
Lemma encoding_decodes (bytes : list Byte.byte) : exists body pad, decodes_to bytes body pad.
Proof.
  induction bytes as [| a | a b | a b c rest IH] using triples_ind.
  - exists [], []. unfold decodes_to. simpl. repeat split; auto. exists []. auto.
  - exists (encode_bits (bits_of_octet (ascii_of_byte a))), ["="%char; "="%char].
    unfold decodes_to. cbn [base64_encode_chars map].
    destruct (ascii_of_byte a) as [a0 a1 a2 a3 a4 a5 a6 a7].
    cbn [bits_of_octet encode_bits app].
    split; [ reflexivity | ].
    split; [ auto | ]. split; [ reflexivity | ]. split; [ simpl; lia | ].
    split; [ repeat constructor; apply b64_char_encoded | ].
    rewrite !bit_buffer_encoded. cbn [bit_buffer option_map]. eexists. split; reflexivity.
  - exists (encode_bits (bits_of_octet (ascii_of_byte a) ++ bits_of_octet (ascii_of_byte b))),
      ["="%char].
    unfold decodes_to. cbn [base64_encode_chars map].
    destruct (ascii_of_byte a) as [a0 a1 a2 a3 a4 a5 a6 a7].
    destruct (ascii_of_byte b) as [b0 b1 b2 b3 b4 b5 b6 b7].
    cbn [bits_of_octet encode_bits app].
    split; [ reflexivity | ].
    split; [ auto | ]. split; [ reflexivity | ]. split; [ simpl; lia | ].
    split; [ repeat constructor; apply b64_char_encoded | ].
    rewrite !bit_buffer_encoded. cbn [bit_buffer option_map]. eexists. split; reflexivity.
  - destruct IH as (body & pad & Henc & Hpad & Hlen & Hbody & Hchars & bits & Hbits & Hoct).
    exists (encode_bits (bits_of_octet (ascii_of_byte a) ++ bits_of_octet (ascii_of_byte b)
                           ++ bits_of_octet (ascii_of_byte c)) ++ body)%list, pad.
    unfold decodes_to. cbn [base64_encode_chars map]. rewrite Henc, <- Hoct.
    destruct (ascii_of_byte a) as [a0 a1 a2 a3 a4 a5 a6 a7].
    destruct (ascii_of_byte b) as [b0 b1 b2 b3 b4 b5 b6 b7].
    destruct (ascii_of_byte c) as [c0 c1 c2 c3 c4 c5 c6 c7].
    cbn [bits_of_octet encode_bits app].
    split; [ reflexivity | ]. split; [ assumption | ].
    split; [ cbn [app List.length]; now rewrite mod4_step | ].
    split; [ cbn [List.length]; now rewrite mod4_step | ].
    split; [ repeat constructor; try apply b64_char_encoded; assumption | ].
    rewrite !bit_buffer_encoded, Hbits. cbn [option_map]. eexists. split; reflexivity.
Qed.

Lemma filter_no_whitespace (l : list ascii) :
  Forall (fun c => b64_char c = true \/ c = "="%char) l ->
  filter (fun c => is_ascii_whitespace c = false) l = l.
Proof.
  induction 1 as [| c l Hc _ IH]; [ reflexivity | ].
  rewrite filter_cons_True by (now apply b64_char_facts). now rewrite IH.
Qed.

(** The padding of an encoding is what the decoder removes. *)
Lemma remove_padding_encoded (body pad : list ascii) :
  Forall (fun c => b64_char c = true) body ->
  pad = [] \/ pad = ["="%char] \/ pad = ["="%char; "="%char] ->
  remove_padding (body ++ pad) = body.
Proof.
  intros Hbody Hpad. unfold remove_padding. rewrite rev_app_distr.
  assert (Hlast : match rev body with
                  | c :: _ => Ascii.eqb c "=" = false
                  | [] => True
                  end).
  { destruct (rev body) as [| c r] eqn:E; [ exact I | ].
    apply b64_char_not_pad. rewrite Forall_forall in Hbody. apply Hbody.
    apply list_elem_of_In, in_rev. rewrite E. now left. }
  destruct Hpad as [-> | [-> | ->]]; cbn [rev app Ascii.eqb Bool.eqb].
  - rewrite app_nil_r. destruct (rev body) as [| c r]; [ reflexivity | ].
    cbn [app]. now rewrite Hlast.
  - rewrite <- (rev_involutive body) at 2.
    destruct (rev body) as [| c r]; [ reflexivity | ]. now rewrite Hlast.
  - apply rev_involutive.
Qed.

(** [atob] of an encoding is the binary string of the bytes. *)
Lemma atob_encoded (bytes : list Byte.byte) :
  atob (base64_encode bytes) = Normal (string_of_list_ascii (map ascii_of_byte bytes)).
Proof.
  destruct (encoding_decodes bytes)
    as (body & pad & Henc & Hpad & Hlen & Hbody & Hchars & bits & Hbits & Hoct).
  unfold atob, base64_encode.
  rewrite list_ascii_of_string_of_list_ascii, Henc.
  rewrite filter_no_whitespace.
  2:{ apply Forall_app. split.
      - eapply Forall_impl; [ exact Hchars | ]. intros c Hc. now left.
      - destruct Hpad as [-> | [-> | ->]]; repeat constructor; now right. }
  rewrite Hlen. cbn [Nat.eqb]. rewrite remove_padding_encoded by assumption.
  destruct (Nat.eqb_spec (List.length body mod 4) 1) as [E | _]; [ contradiction | ].
  now rewrite Hbits, Hoct.
Qed.

Lemma drop_prefix_no_colon (s : string) :
  Forall (fun c => c <> ":"%char) (list_ascii_of_string s) ->
  drop_prefix "data:image/" s = None.
Proof.
  intros H.
  destruct s as [| c1 [| c2 [| c3 [| c4 [| c5 s]]]]]; cbn [drop_prefix];
    repeat (match goal with
            | |- context [Ascii.eqb ?a ?b] => destruct (Ascii.eqb_spec a b)
            end);
    try reflexivity.
  subst. cbn [list_ascii_of_string] in H.
  do 4 (apply Forall_cons in H as [_ H]). apply Forall_cons in H as [H _]. congruence.
Qed.

(** An encoding does not start with a prefix: it holds no colon. *)
Lemma strip_no_prefix (bytes : list Byte.byte) :
  strip_data_url_prefix (base64_encode bytes) = base64_encode bytes.
Proof.
  unfold strip_data_url_prefix. rewrite drop_prefix_no_colon; [ reflexivity | ].
  unfold base64_encode. rewrite list_ascii_of_string_of_list_ascii.
  destruct (encoding_decodes bytes) as (body & pad & -> & Hpad & _ & _ & Hchars & _).
  apply Forall_app. split.
  - eapply Forall_impl; [ exact Hchars | ]. intros c Hc. apply b64_char_facts. now left.
  - destruct Hpad as [-> | [-> | ->]]; repeat constructor; discriminate.
Qed.

Lemma get_string_of_list_ascii (l : list ascii) (i : nat) :
  String.get i (string_of_list_ascii l) = l !! i.
Proof.
  revert i. induction l as [| c l IH]; intros [| i]; cbn; auto.
Qed.

Lemma length_string_of_list_ascii (l : list ascii) :
  String.length (string_of_list_ascii l) = List.length l.
Proof. induction l as [| c l IH]; cbn; auto. Qed.

(** The loop writes [g i] at every index [i] of the array. *)
Lemma fill_loop (g : nat -> N) (vals pre : list N) :
  (forall j v, vals !! j = Some v -> g (List.length pre + j)%nat = v) ->
  foldl (fun (bytes : list N) (i : nat) => <[ i := g i ]> bytes)
        (pre ++ replicate (List.length vals) 0%N)%list
        (seq (List.length pre) (List.length vals))
  = (pre ++ vals)%list.
Proof.
  revert pre. induction vals as [| v vals IH]; intros pre Hg.
  - reflexivity.
  - cbn [List.length replicate seq foldl].
    replace (<[ List.length pre := g (List.length pre) ]> (pre ++ 0%N :: replicate (List.length vals) 0%N)%list)
      with ((pre ++ [v]) ++ replicate (List.length vals) 0%N)%list.
    + replace (S (List.length pre)) with (List.length (pre ++ [v])%list)
        by (rewrite length_app; simpl; lia).
      rewrite IH.
      * now rewrite <- app_assoc.
      * intros j w Hj. rewrite length_app. simpl.
        replace (List.length pre + 1 + j)%nat with (List.length pre + S j)%nat by lia.
        apply Hg. exact Hj.
    + rewrite <- app_assoc, insert_app_r_alt by lia.
      rewrite Nat.sub_diag. cbn [app].
      specialize (Hg 0%nat v eq_refl). rewrite Nat.add_0_r in Hg.
      now rewrite Hg.
Qed.

(** The array is filled with the codes of the characters, in order. *)
Lemma fill_bytes_binary (l : list ascii) :
  fill_bytes (string_of_list_ascii l) = map N_of_ascii l.
Proof.
  unfold fill_bytes. rewrite length_string_of_list_ascii.
  rewrite <- (length_map N_of_ascii l).
  apply (fill_loop _ (map N_of_ascii l) []).
  intros j v Hj. simpl. unfold charCodeAt. rewrite get_string_of_list_ascii.
  change (map N_of_ascii l) with (N_of_ascii <$> l) in Hj.
  rewrite list_lookup_fmap in Hj.
  destruct (l !! j) as [c |]; [ | discriminate ].
  injection Hj as <-. simpl. apply N.mod_small, N_ascii_bounded.
Qed.

Lemma N_of_ascii_of_byte (b : Byte.byte) : N_of_ascii (ascii_of_byte b) = Byte.to_N b.
Proof.
  rewrite ascii_of_byte_via_N. apply N_ascii_embedding.
  pose proof (Byte.to_N_bounded b). lia.
Qed.

(** C8.  Round trip with the reference encoder: for every byte sequence,
    [base64ToFile] of its base64 encoding, with or without a recognized
    [data:image/<type>;base64,] prefix in front, returns a file that
    holds exactly these bytes, with the content type ["image/png"] and the
    given file name (["generated-image.png"] when none is given). *)
Theorem base64ToFile_roundtrip (bytes : list Byte.byte) (type : string)
    (filename : option string) :
  recognized_type type = true ->
  let asset := {| file_name := default "generated-image.png" filename;
                  file_type := "image/png";
                  file_bytes := map Byte.to_N bytes |} in
  base64ToFile (data_url_prefix type ++ base64_encode bytes) filename = Normal asset
  /\ base64ToFile (base64_encode bytes) filename = Normal asset.
Proof.
  intros Htype asset. unfold base64ToFile.
  rewrite strip_recognized_prefix by assumption. rewrite strip_no_prefix.
  rewrite atob_encoded, fill_bytes_binary, map_map.
  rewrite (map_ext _ Byte.to_N N_of_ascii_of_byte). split; reflexivity.
Qed.

(** ** [handleSubmit] *)

(** Unfold a run of [handleSubmit] down to the stores and the log. *)
Ltac unfold_submit :=
  unfold submit, handleSubmit, handleSubmit_try, handleSubmit_catch, try_finally, try_catch,
    import_module, createCharacter, setBlob, showToast, bind, act, lift, ret, throw;
  cbn [records blobs trace fst snd default from_option id negb].

(** Read the fields of the worlds that the run goes through. *)
Ltac normalize_world :=
  repeat (cbn [records blobs trace fst snd default from_option id negb app]; rewrite <- ?app_assoc).

(** What a run appends to the log is its new part. *)
Lemma drop_own_trace (w : World) (l : list Action) :
  drop (List.length (trace w)) (trace w ++ l) = l.
Proof. apply drop_app_length. Qed.

(** C6.  A submission whose name or personality is empty after trimming
    is rejected before anything else is done: the run shows the error
    toast of the missing field and returns; the record store and the blob
    store are as they were, and the log holds nothing but
    [preventDefault] and the toast (no clock reading, so no id; no record
    write; no blob write). *)
Theorem handleSubmit_rejects_blank (H : Host) (form : FormState) (w : World) :
  trim (f_name form) = "" \/ trim (f_personality form) = "" ->
  exists message : string,
    (message = "Character name is required" \/ message = "Character personality is required")
    /\ handleSubmit H form w =
         (Normal tt,
          {| records := records w; blobs := blobs w;
             trace := (trace w ++ [PreventDefault; ShowToast message ToastError])%list |}).
Proof.
  intros Hblank. unfold_submit.
  destruct (truthy_string (trim (f_name form))) eqn:En; normalize_world.
  - destruct Hblank as [Hn | Hp]; [ rewrite Hn in En; discriminate | ].
    rewrite Hp. cbn [truthy_string]. normalize_world. eexists. split; [ right; reflexivity | reflexivity ].
  - eexists. split; [ left; reflexivity | reflexivity ].
Qed.

(** A valid submission on a host where nothing fails, with an id that is
    not in the store yet: the record is stored, then the avatar when there
    is one, and the success toast is shown. *)
Lemma handleSubmit_success (t : Z) (form : FormState) (w : World) :
  trim (f_name form) <> "" -> trim (f_personality form) <> "" ->
  get_character (characterId_of t) w = None ->
  handleSubmit (quiet_host t) form w =
    (Normal tt,
     {| records := <[ characterId_of t := record_of t form ]> (records w);
        blobs := match f_avatarFile form with
                 | Some avatarFile =>
                     <[ imagePath_of (characterId_of t) (f_avatarFile form) := avatarFile ]> (blobs w)
                 | None => blobs w
                 end;
        trace := (trace w ++
                  [PreventDefault; SetIsLoading true;
                   TrackButtonClick "create_character_submit" "Submit Create Character";
                   DateNow t;
                   DynamicImport "@/lib/data/roleplay/character-record-operation";
                   DynamicImport "@/lib/data/local-storage";
                   CreateCharacter (characterId_of t)
                     (imagePath_of (characterId_of t) (f_avatarFile form))]
                  ++ match f_avatarFile form with
                     | Some _ => [SetBlob (imagePath_of (characterId_of t) (f_avatarFile form))]
                     | None => []
                     end
                  ++ [ShowToast "Character created successfully!" ToastSuccess;
                      SetTimeout 1000; SetIsLoading false])%list |}).
Proof.
  intros Hn Hp Hfresh. apply truthy_string_true in Hn, Hp.
  unfold get_character in Hfresh. unfold record_of. unfold_submit. rewrite Hn, Hp.
  unfold quiet_host. cbn [clock import_outcome record_store_outcome blob_store_outcome].
  normalize_world. rewrite Hfresh.
  destruct (f_avatarFile form) as [avatarFile |]; normalize_world; reflexivity.
Qed.

(** C1, as amended.  In every invocation with valid fields and an avatar
    file, whatever fails: every blob write of the invocation has the record
    write of the invocation before it (the record is written first), and
    when the blob write is issued it is under the key [<id>.png], the
    record of the invocation is already stored under its id, and its avatar
    key is that same key. *)
Theorem record_write_precedes_blob_write (H : Host) (form : FormState) (w : World)
    (avatarFile : File) :
  trim (f_name form) <> "" -> trim (f_personality form) <> "" ->
  f_avatarFile form = Some avatarFile ->
  let log := new_actions w (submit H form w) in
  preceded_by is_record_write is_blob_write false log = true
  /\ (existsb is_blob_write log = true ->
      In (SetBlob (characterId_of (clock H) ++ ".png")) log
      /\ get_character (characterId_of (clock H)) (submit H form w)
         = Some (record_of (clock H) form)
      /\ rec_avatar (record_of (clock H) form) = characterId_of (clock H) ++ ".png").
Proof.
  intros Hn Hp Hfile. apply truthy_string_true in Hn, Hp.
  unfold new_actions, get_character, record_of. unfold_submit. rewrite Hn, Hp, Hfile.
  cbn [imagePath_of].
  destruct (import_outcome H "@/lib/data/roleplay/character-record-operation")
    as [[] | e0]; normalize_world.
  2:{ rewrite drop_own_trace. split; [ reflexivity | discriminate ]. }
  destruct (import_outcome H "@/lib/data/local-storage") as [[] | e0]; normalize_world.
  2:{ rewrite drop_own_trace. split; [ reflexivity | discriminate ]. }
  destruct (records w !! characterId_of (clock H)) as [old |] eqn:Hold; normalize_world.
  { rewrite drop_own_trace. split; [ reflexivity | discriminate ]. }
  destruct (record_store_outcome H) as [[] | e1]; normalize_world.
  2:{ rewrite drop_own_trace. split; [ reflexivity | discriminate ]. }
  destruct (blob_store_outcome H) as [[] | e2]; normalize_world;
    rewrite drop_own_trace; (split; [ reflexivity | intros _ ]);
    (split; [ cbn; tauto | split; [ apply lookup_insert_eq | reflexivity ] ]).
Qed.

(** Ids are as distinct as the clock readings they are made of. *)
Lemma characterId_of_inj (t1 t2 : Z) : characterId_of t1 = characterId_of t2 -> t1 = t2.
Proof.
  unfold characterId_of. intros E. apply String.app_inj in E. now apply pretty_Z_inj in E.
Qed.

(** C9, as amended.  Two back-to-back creations with distinct names,
    valid fields and distinct clock readings, on a host where nothing fails
    and from a store that holds neither id: the two ids are distinct, and
    each of the two distinct records is retrieved under its own id. *)
Theorem distinct_readings_distinct_records (t1 t2 : Z) (form1 form2 : FormState) (w : World) :
  f_name form1 <> f_name form2 ->
  t1 <> t2 ->
  trim (f_name form1) <> "" -> trim (f_personality form1) <> "" ->
  trim (f_name form2) <> "" -> trim (f_personality form2) <> "" ->
  get_character (characterId_of t1) w = None ->
  get_character (characterId_of t2) w = None ->
  let w2 := submit (quiet_host t2) form2 (submit (quiet_host t1) form1 w) in
  characterId_of t1 <> characterId_of t2
  /\ get_character (characterId_of t1) w2 = Some (record_of t1 form1)
  /\ get_character (characterId_of t2) w2 = Some (record_of t2 form2)
  /\ record_of t1 form1 <> record_of t2 form2.
Proof.
  intros _ Ht Hn1 Hp1 Hn2 Hp2 Hfresh1 Hfresh2 w2.
  assert (Hid : characterId_of t1 <> characterId_of t2).
  { intros E. now apply characterId_of_inj in E. }
  subst w2. unfold submit.
  rewrite (handleSubmit_success t1 form1 w) by assumption. cbn [snd].
  rewrite handleSubmit_success; try assumption.
  2:{ unfold get_character in *. cbn [records]. now rewrite lookup_insert_ne. }
  unfold get_character. cbn [snd records].
  split; [ exact Hid | ]. split; [ | split ].
  - rewrite lookup_insert_ne by congruence. apply lookup_insert_eq.
  - apply lookup_insert_eq.
  - intros E. apply (f_equal rec_id) in E. exact (Hid E).
Qed.

(** C5, as amended.  In the payload of every submission the character
    book is [null]: the workflow builds no book and no [entries] field.
    So every record that a submission stores carries the payload of the
    form, and has no book. *)
Theorem character_book_is_null (H : Host) (form : FormState) (w : World) :
  CharaCard.character_book (CharaCard.data (rawCharacterData_of form)) = None
  /\ forall (id : string) (r : CharacterRecord),
       get_character id w = None ->
       get_character id (submit H form w) = Some r ->
       rec_raw r = rawCharacterData_of form
       /\ CharaCard.character_book (CharaCard.data (rec_raw r)) = None.
Proof.
  split; [ reflexivity | ].
  intros id r. unfold get_character. intros Hfresh. unfold_submit.
  destruct (truthy_string (trim (f_name form))) eqn:Hn; normalize_world; [ | congruence ].
  destruct (truthy_string (trim (f_personality form))) eqn:Hp; normalize_world; [ | congruence ].
  destruct (import_outcome H "@/lib/data/roleplay/character-record-operation")
    as [[] | e0]; normalize_world; [ | congruence ].
  destruct (import_outcome H "@/lib/data/local-storage") as [[] | e0]; normalize_world;
    [ | congruence ].
  destruct (records w !! characterId_of (clock H)) as [old |] eqn:Hold; normalize_world;
    [ congruence | ].
  assert (Hstored : <[ characterId_of (clock H) :=
                        {| rec_id := characterId_of (clock H);
                           rec_raw := rawCharacterData_of form;
                           rec_avatar := imagePath_of (characterId_of (clock H))
                                           (f_avatarFile form) |} ]> (records w) !! id = Some r ->
                    rec_raw r = rawCharacterData_of form
                    /\ CharaCard.character_book (CharaCard.data (rec_raw r)) = None).
  { intros Hr. destruct (decide (characterId_of (clock H) = id)) as [<- | Hne].
    2:{ rewrite lookup_insert_ne in Hr by assumption. congruence. }
    rewrite lookup_insert_eq in Hr. injection Hr as <-. split; reflexivity. }
  destruct (record_store_outcome H) as [[] | e1]; normalize_world; [ | congruence ].
  destruct (f_avatarFile form) as [avatarFile |] eqn:Hfile; normalize_world;
    [ | exact Hstored ].
  destruct (blob_store_outcome H) as [[] | e2]; normalize_world; exact Hstored.
Qed.

(** ** Concrete runs *)

(** C1, as stated, fails.  Alice is created with a portrait at the clock
    reading 1700000000000.  Both writes happen, and the record write is not
    preceded by a blob write; when the blob store rejects the write, the
    record stays stored with the avatar key [char_1700000000000.png], and
    no blob is under that key. *)
Lemma record_written_before_blob :
  let log := new_actions empty_world (submit (quiet_host 1700000000000) alice_form empty_world) in
  let w := submit (failing_blob_host 1700000000000) alice_form empty_world in
  existsb is_record_write log = true
  /\ existsb is_blob_write log = true
  /\ preceded_by is_blob_write is_record_write false log = false
  /\ get_character "char_1700000000000" w = Some (record_of 1700000000000 alice_form)
  /\ rec_avatar (record_of 1700000000000 alice_form) = "char_1700000000000.png"
  /\ blobs w !! "char_1700000000000.png" = None.
Proof. vm_compute. repeat split; reflexivity. Qed.

(** The amended C1 at the creation of Alice with her portrait. *)
Lemma record_write_precedes_blob_write_witness :
  trim (f_name alice_form) <> ""
  /\ trim (f_personality alice_form) <> ""
  /\ f_avatarFile alice_form = Some portrait
  /\ (let log := new_actions empty_world (submit (quiet_host 1700000000000) alice_form empty_world) in
      preceded_by is_record_write is_blob_write false log = true
      /\ (existsb is_blob_write log = true ->
          In (SetBlob (characterId_of (clock (quiet_host 1700000000000)) ++ ".png")) log
          /\ get_character (characterId_of (clock (quiet_host 1700000000000)))
                (submit (quiet_host 1700000000000) alice_form empty_world)
             = Some (record_of (clock (quiet_host 1700000000000)) alice_form)
          /\ rec_avatar (record_of (clock (quiet_host 1700000000000)) alice_form)
             = characterId_of (clock (quiet_host 1700000000000)) ++ ".png")).
Proof.
  assert (Hn : trim (f_name alice_form) <> "") by (vm_compute; discriminate).
  assert (Hp : trim (f_personality alice_form) <> "") by (vm_compute; discriminate).
  assert (Hf : f_avatarFile alice_form = Some portrait) by reflexivity.
  exact (conj Hn (conj Hp (conj Hf
           (record_write_precedes_blob_write (quiet_host 1700000000000) alice_form
              empty_world portrait Hn Hp Hf)))).
Defined.

(** C6 at a form whose name is two spaces. *)
Lemma handleSubmit_rejects_blank_witness :
  (trim (f_name blank_name_form) = "" \/ trim (f_personality blank_name_form) = "")
  /\ exists message : string,
      (message = "Character name is required"
       \/ message = "Character personality is required")
      /\ handleSubmit (quiet_host 1700000000000) blank_name_form empty_world =
           (Normal tt,
            {| records := records empty_world; blobs := blobs empty_world;
               trace := (trace empty_world
                         ++ [PreventDefault; ShowToast message ToastError])%list |}).
Proof.
  assert (Hblank : trim (f_name blank_name_form) = ""
                   \/ trim (f_personality blank_name_form) = "") by (left; reflexivity).
  exact (conj Hblank
           (handleSubmit_rejects_blank (quiet_host 1700000000000) blank_name_form
              empty_world Hblank)).
Defined.

(** C9, as stated, fails.  Alice and Bob are created back to back at the
    same clock reading: both creations use the id [char_1700000000000],
    and afterwards the store holds one record, the one of Alice. *)
Lemma same_reading_same_id :
  let w1 := submit (quiet_host 1700000000000) alice_form empty_world in
  let w2 := submit (quiet_host 1700000000000) bob_form w1 in
  f_name alice_form <> f_name bob_form
  /\ In (CreateCharacter "char_1700000000000" "char_1700000000000.png")
        (new_actions empty_world w1)
  /\ In (CreateCharacter "char_1700000000000" "default-avatar.png") (new_actions w1 w2)
  /\ records w2 = {[ "char_1700000000000" := record_of 1700000000000 alice_form ]}.
Proof.
  split; [ discriminate | ]. split; [ vm_compute; tauto | ]. split; [ vm_compute; tauto | ].
  vm_compute. reflexivity.
Qed.

(** The amended C9 at Alice and Bob, one millisecond apart. *)
Lemma distinct_readings_distinct_records_witness :
  f_name alice_form <> f_name bob_form
  /\ 1700000000000%Z <> 1700000000001%Z
  /\ trim (f_name alice_form) <> "" /\ trim (f_personality alice_form) <> ""
  /\ trim (f_name bob_form) <> "" /\ trim (f_personality bob_form) <> ""
  /\ get_character (characterId_of 1700000000000) empty_world = None
  /\ get_character (characterId_of 1700000000001) empty_world = None
  /\ (let w2 := submit (quiet_host 1700000000001) bob_form
                  (submit (quiet_host 1700000000000) alice_form empty_world) in
      characterId_of 1700000000000 <> characterId_of 1700000000001
      /\ get_character (characterId_of 1700000000000) w2
         = Some (record_of 1700000000000 alice_form)
      /\ get_character (characterId_of 1700000000001) w2
         = Some (record_of 1700000000001 bob_form)
      /\ record_of 1700000000000 alice_form <> record_of 1700000000001 bob_form).
Proof.
  assert (Hnames : f_name alice_form <> f_name bob_form) by discriminate.
  assert (Ht : 1700000000000%Z <> 1700000000001%Z) by discriminate.
  assert (Hn1 : trim (f_name alice_form) <> "") by (vm_compute; discriminate).
  assert (Hp1 : trim (f_personality alice_form) <> "") by (vm_compute; discriminate).
  assert (Hn2 : trim (f_name bob_form) <> "") by (vm_compute; discriminate).
  assert (Hp2 : trim (f_personality bob_form) <> "") by (vm_compute; discriminate).
  assert (Hf1 : get_character (characterId_of 1700000000000) empty_world = None)
    by reflexivity.
  assert (Hf2 : get_character (characterId_of 1700000000001) empty_world = None)
    by reflexivity.
  exact (conj Hnames (conj Ht (conj Hn1 (conj Hp1 (conj Hn2 (conj Hp2 (conj Hf1 (conj Hf2
           (distinct_readings_distinct_records 1700000000000 1700000000001 alice_form
              bob_form empty_world Hnames Ht Hn1 Hp1 Hn2 Hp2 Hf1 Hf2))))))))).
Defined.

(** C4, as stated, fails.  The body of a successful response has a URL
    in its second item and none in its first: the result is the failure
    ["No image data in response"], not the URL.  And a body whose result
    list holds [null], which has no item with a URL or with inline data,
    does not give ["No image data in response"]: the read of the item
    raises, and the result carries the message of that error, which is
    logged; so does the body [null]. *)
Lemma original_precedence_fails :
  let url_later := answering (mkResponse 200 (Normal url_in_second_item)) in
  let null_item := answering (mkResponse 200 (Normal null_item_body)) in
  let null_body := answering (mkResponse 200 (Normal VNull)) in
  spec_contains_item_with "url" url_in_second_item = true
  /\ fst (generateImage url_later sample_options []) =
       Normal (failure (VStr "No image data in response"))
  /\ spec_contains_item_with "url" null_item_body = false
  /\ spec_contains_item_with "b64_json" null_item_body = false
  /\ generateImage null_item sample_options [] =
       (Normal (failure (VStr "Cannot read properties of null (reading 'url')")),
        [Fetch (request_of null_item sample_options);
         ConsoleError "Image generation error:" (TypeError_read VNull "url")])
  /\ fst (generateImage null_body sample_options []) =
       Normal (failure (VStr "Cannot read properties of null (reading 'data')")).
Proof. vm_compute. repeat split; reflexivity. Qed.

(** The amended C4 at a body whose first item has both fields: the URL
    wins. *)
Lemma generateImage_first_item_precedence_witness :
  let response := mkResponse 200 (Normal both_fields_body) in
  let P := answering response in
  trim (o_prompt sample_options) <> ""
  /\ trim (o_apiKey sample_options) <> ""
  /\ trim (o_baseUrl sample_options) <> ""
  /\ network P (request_of P sample_options) = Normal response
  /\ ok response = true
  /\ json response = Normal both_fields_body
  /\ generateImage P sample_options [] =
       (Normal {| success := true; imageUrl := Some (VStr "https://img.example/1.png");
                  imageData := None; error := None |},
        [Fetch (request_of P sample_options)]).
Proof.
  intros response P.
  assert (Hp : trim (o_prompt sample_options) <> "") by (vm_compute; discriminate).
  assert (Hk : trim (o_apiKey sample_options) <> "") by (vm_compute; discriminate).
  assert (Hb : trim (o_baseUrl sample_options) <> "") by (vm_compute; discriminate).
  assert (Hnet : network P (request_of P sample_options) = Normal response) by reflexivity.
  assert (Hok : ok response = true) by reflexivity.
  assert (Hjson : json response = Normal both_fields_body) by reflexivity.
  exact (conj Hp (conj Hk (conj Hb (conj Hnet (conj Hok (conj Hjson
           (generateImage_first_item_precedence P sample_options [] response
              both_fields_body Hp Hk Hb Hnet Hok Hjson))))))).
Defined.

(** C3 at a prompt of three spaces. *)
Lemma generateImage_missing_field_witness :
  let P := answering (mkResponse 200 (Normal both_fields_body)) in
  (trim (o_prompt blank_prompt_options) = "" \/ trim (o_apiKey blank_prompt_options) = ""
   \/ trim (o_baseUrl blank_prompt_options) = "")
  /\ exists field : string,
      (trim (o_prompt blank_prompt_options) = "" /\ field = "Image prompt"
       \/ trim (o_prompt blank_prompt_options) <> ""
          /\ trim (o_apiKey blank_prompt_options) = "" /\ field = "API key"
       \/ trim (o_prompt blank_prompt_options) <> ""
          /\ trim (o_apiKey blank_prompt_options) <> ""
          /\ trim (o_baseUrl blank_prompt_options) = "" /\ field = "API base URL")
      /\ generateImage P blank_prompt_options [] =
           (Normal (failure (VStr (field ++ " is required"))), []).
Proof.
  intros P.
  assert (Hblank : trim (o_prompt blank_prompt_options) = ""
                   \/ trim (o_apiKey blank_prompt_options) = ""
                   \/ trim (o_baseUrl blank_prompt_options) = "") by (left; reflexivity).
  exact (conj Hblank (generateImage_missing_field P blank_prompt_options [] Hblank)).
Defined.

(** C5, as stated, fails.  Alice is created at the clock reading
    1700000000000: the record that is stored has no character book, so
    there is no book in it whose entries were set to the empty sequence. *)
Lemma alice_has_no_character_book :
  let w := submit (quiet_host 1700000000000) alice_form empty_world in
  let payload := rec_raw (record_of 1700000000000 alice_form) in
  get_character "char_1700000000000" w = Some (record_of 1700000000000 alice_form)
  /\ CharaCard.character_book (CharaCard.data payload) = None
  /\ ~ (exists book : CharaCard.CharacterBook,
          CharaCard.character_book (CharaCard.data payload) = Some book
          /\ CharaCard.entries book = []).
Proof.
  split; [ vm_compute; reflexivity | ]. split; [ reflexivity | ].
  intros (book & Hbook & _). discriminate.
Qed.

(** C10 at a request with the optional fields left out. *)
Lemma generateImage_defaults_witness :
  let P := answering (mkResponse 200 (Normal both_fields_body)) in
  trim "a red fox" <> "" /\ trim "cgpt_sk_test" <> "" /\ trim "https://api.example/v1/" <> ""
  /\ (let omitted :=
        mkOptions "a red fox" "cgpt_sk_test" "https://api.example/v1/" None None None None in
      (forall options : ImageGenerationOptions,
          generateImage P options [] = generateImage P (with_defaults options) [])
      /\ generateImage P omitted [] =
           generateImage P (mkOptions "a red fox" "cgpt_sk_test" "https://api.example/v1/"
                              (Some "dall-e-3") (Some S1024x1024) (Some Standard)
                              (Some (1 # 1)%Q)) []
      /\ exists rest : list Effect,
           snd (generateImage P omitted []) =
             ([] ++ Fetch {| req_url := endpoint_of "https://api.example/v1/";
                             req_method := "POST";
                             req_headers :=
                               [ ("Content-Type", "application/json");
                                 ("Authorization", ("Bearer " ++ "cgpt_sk_test")%string) ];
                             req_body :=
                               JSON_stringify P
                                 (VObj [ ("model", VStr "dall-e-3");
                                         ("prompt", VStr (trim "a red fox"));
                                         ("n", VNum (1 # 1));
                                         ("size", VStr "1024x1024");
                                         ("quality", VStr "standard");
                                         ("response_format", VStr "url") ]) |} :: rest)%list).
Proof.
  intros P.
  assert (Hp : trim "a red fox" <> "") by (vm_compute; discriminate).
  assert (Hk : trim "cgpt_sk_test" <> "") by (vm_compute; discriminate).
  assert (Hb : trim "https://api.example/v1/" <> "") by (vm_compute; discriminate).
  exact (conj Hp (conj Hk (conj Hb
           (generateImage_defaults P "a red fox" "cgpt_sk_test" "https://api.example/v1/" []
              Hp Hk Hb)))).
Defined.

(** C8 at four bytes and the type [png]. *)
Lemma base64ToFile_roundtrip_witness :
  recognized_type "png" = true
  /\ (let asset := {| file_name := default "generated-image.png" (Some "fox.png");
                      file_type := "image/png";
                      file_bytes := map Byte.to_N [Byte.x4d; Byte.x61; Byte.x6e; Byte.xff] |} in
      base64ToFile (data_url_prefix "png"
                      ++ base64_encode [Byte.x4d; Byte.x61; Byte.x6e; Byte.xff])
                   (Some "fox.png") = Normal asset
      /\ base64ToFile (base64_encode [Byte.x4d; Byte.x61; Byte.x6e; Byte.xff])
                      (Some "fox.png") = Normal asset).
Proof.
  assert (Htype : recognized_type "png" = true) by reflexivity.
  exact (conj Htype
           (base64ToFile_roundtrip [Byte.x4d; Byte.x61; Byte.x6e; Byte.xff] "png"
              (Some "fox.png") Htype)).
Defined.

(** ** More on [generateImage] *)

Section GenerateImageMore.

Variable P : Platform.

Lemma count_fetches_app (l1 l2 : list Effect) :
  count_fetches (l1 ++ l2) = (count_fetches l1 + count_fetches l2)%nat.
Proof.
  induction l1 as [| [r | label e] l1 IH]; simpl; [ reflexivity | | ]; now rewrite IH.
Qed.

Lemma count_fetches_none (l : list Effect) :
  Forall (fun e => match e with Fetch _ => False | ConsoleError _ _ => True end) l ->
  count_fetches l = O.
Proof.
  induction 1 as [| [r | label e] l Hx _ IH]; simpl; [ reflexivity | contradiction | exact IH ].
Qed.

(** X1.  generateImage issues at most one HTTP request per call and never
    retries: exactly one when prompt, API key and base URL are all non-
    blank after trimming, none otherwise. *)
Theorem generateImage_request_count (options : ImageGenerationOptions) (log : list Effect) :
  exists new : list Effect,
    snd (generateImage P options log) = (log ++ new)%list
    /\ count_fetches new = if fields_present options then 1%nat else 0%nat.
Proof.
  unfold fields_present.
  destruct (truthy_string (trim (o_prompt options))) eqn:Ep;
    [ destruct (truthy_string (trim (o_apiKey options))) eqn:Ek;
      [ destruct (truthy_string (trim (o_baseUrl options))) eqn:Eb | ] | ]; cbn [andb].
  - apply truthy_string_true in Ep, Ek, Eb.
    destruct (generateImage_single_fetch P options log Ep Ek Eb) as (rest & Hlog & Hrest).
    exists (Fetch (request_of P options) :: rest). split; [ exact Hlog | ].
    cbn [count_fetches]. now rewrite count_fetches_none.
  - exists []. rewrite app_nil_r. split; [ | reflexivity ].
    apply truthy_string_true, present_iff in Ep, Ek. apply truthy_string_false, missing_iff in Eb.
    unfold generateImage, try_catch, generateImage_try. now rewrite Ep, Ek, Eb.
  - exists []. rewrite app_nil_r. split; [ | reflexivity ].
    apply truthy_string_true, present_iff in Ep. apply truthy_string_false, missing_iff in Ek.
    unfold generateImage, try_catch, generateImage_try. now rewrite Ep, Ek.
  - exists []. rewrite app_nil_r. split; [ | reflexivity ].
    apply truthy_string_false, missing_iff in Ep.
    unfold generateImage, try_catch, generateImage_try. now rewrite Ep.
Qed.

(** X2.  When fetch rejects, or response.json() of a successful response
    rejects, with an error e, generateImage returns {success:false, error:
    e.message} ("Failed to generate image" when the message is empty),
    after one request and one console.error. *)
Theorem generateImage_converts_exceptions (options : ImageGenerationOptions)
    (log : list Effect) (e : JsError) :
  trim (o_prompt options) <> "" -> trim (o_apiKey options) <> "" ->
  trim (o_baseUrl options) <> "" ->
  network P (request_of P options) = Throw e
  \/ (exists response : Response,
        network P (request_of P options) = Normal response
        /\ ok response = true /\ json response = Throw e) ->
  generateImage P options log =
    (Normal (failure (caught_message e)),
     (log ++ [Fetch (request_of P options); ConsoleError "Image generation error:" e])%list).
Proof.
  intros Hp Hk Hb Hthrow. rewrite generateImage_present by assumption.
  unfold try_catch, bind, fetch, emit, lift, caught_message. cbn [fst snd].
  destruct Hthrow as [-> | (response & -> & Hok & Hjson)].
  - unfold generateImage_catch, bind, console_error, emit, ret. cbn [fst snd].
    now rewrite <- app_assoc.
  - unfold read_response, bind, lift. rewrite Hok, Hjson. cbn [negb].
    unfold generateImage_catch, bind, console_error, emit, ret. cbn [fst snd].
    now rewrite <- app_assoc.
Qed.

(** X3.  For a non-success status whose body cannot be parsed, or is any
    value other than null without a usable error.message (the body or its
    error is not an object, error or message is absent, or the message is
    falsy), generateImage returns {success:false, error: "API request
    failed with status <status>"}, and logs nothing to the console. *)
Theorem generateImage_status_message (options : ImageGenerationOptions) (log : list Effect)
    (response : Response) :
  trim (o_prompt options) <> "" -> trim (o_apiKey options) <> "" ->
  trim (o_baseUrl options) <> "" ->
  network P (request_of P options) = Normal response ->
  ok response = false ->
  (exists e, json response = Throw e)
  \/ (exists body,
        json response = Normal body
        /\ nullish body = false
        /\ truthy (member (member body "error") "message") = false) ->
  generateImage P options log =
    (Normal (failure (VStr ("API request failed with status " ++ pretty (status response)))),
     (log ++ [Fetch (request_of P options)])%list).
Proof.
  intros Hp Hk Hb Hnet Hok Hbody. rewrite generateImage_present by assumption.
  unfold try_catch, bind, fetch, emit, lift. cbn [fst snd]. rewrite Hnet.
  unfold read_response, bind, lift, ret, error_message_of. rewrite Hok. cbn [negb].
  destruct Hbody as [(e & ->) | (body & -> & Hnn & Hmsg)].
  - reflexivity.
  - destruct body as [ | | b | q | s | items | fields]; try discriminate;
      cbn [get_prop nullish truthy]; try reflexivity.
    cbn [member] in Hmsg.
    destruct (own_property "error" fields) as [ | | b | q | s | items | efields];
      cbn [get_prop nullish truthy member] in *; try reflexivity.
    now rewrite Hmsg.
Qed.

(** X4.  For a non-success status whose body is { error: { message } }
    with a non-empty message, generateImage returns that message as the
    error. *)
Theorem generateImage_server_message (options : ImageGenerationOptions) (log : list Effect)
    (response : Response) (fields error_fields : list (string * JsVal)) :
  trim (o_prompt options) <> "" -> trim (o_apiKey options) <> "" ->
  trim (o_baseUrl options) <> "" ->
  network P (request_of P options) = Normal response ->
  ok response = false ->
  json response = Normal (VObj fields) ->
  own_property "error" fields = VObj error_fields ->
  truthy (own_property "message" error_fields) = true ->
  generateImage P options log =
    (Normal (failure (own_property "message" error_fields)),
     (log ++ [Fetch (request_of P options)])%list).
Proof.
  intros Hp Hk Hb Hnet Hok Hjson Herr Hmsg. rewrite generateImage_present by assumption.
  unfold try_catch, bind, fetch, emit, lift. cbn [fst snd]. rewrite Hnet.
  unfold read_response, bind, lift, ret, error_message_of. rewrite Hok, Hjson. cbn [negb].
  cbn [get_prop]. rewrite Herr. cbn [nullish get_prop]. now rewrite Hmsg.
Qed.

(** X5.  generateImage reports success only when the three required fields
    were present, a request was issued, the response had a success status
    and its body was parsed; the log then holds that one request and no
    console.error. *)
Theorem generateImage_success_sound (options : ImageGenerationOptions)
    (log log' : list Effect) (r : ImageGenerationResult) :
  generateImage P options log = (Normal r, log') ->
  success r = true ->
  fields_present options = true
  /\ exists (response : Response) (body : JsVal),
       network P (request_of P options) = Normal response
       /\ ok response = true
       /\ json response = Normal body
       /\ log' = (log ++ [Fetch (request_of P options)])%list.
Proof.
  intros Hrun Hsuccess. unfold fields_present.
  destruct (truthy_string (trim (o_prompt options))) eqn:Ep.
  2:{ apply truthy_string_false, missing_iff in Ep.
      unfold generateImage, try_catch, generateImage_try in Hrun. rewrite Ep in Hrun.
      injection Hrun as <- _. discriminate. }
  destruct (truthy_string (trim (o_apiKey options))) eqn:Ek.
  2:{ apply truthy_string_true, present_iff in Ep. apply truthy_string_false, missing_iff in Ek.
      unfold generateImage, try_catch, generateImage_try in Hrun. rewrite Ep, Ek in Hrun.
      injection Hrun as <- _. discriminate. }
  destruct (truthy_string (trim (o_baseUrl options))) eqn:Eb.
  2:{ apply truthy_string_true, present_iff in Ep, Ek.
      apply truthy_string_false, missing_iff in Eb.
      unfold generateImage, try_catch, generateImage_try in Hrun. rewrite Ep, Ek, Eb in Hrun.
      injection Hrun as <- _. discriminate. }
  split; [ reflexivity | ].
  apply truthy_string_true in Ep, Ek, Eb.
  rewrite generateImage_present in Hrun by assumption.
  cbv [try_catch bind fetch emit lift] in Hrun.
  destruct (network P (request_of P options)) as [response | e].
  2:{ unfold generateImage_catch, bind, console_error, emit, ret in Hrun.
      injection Hrun as <- _. discriminate. }
  pose proof (read_response_log P response (log ++ [Fetch (request_of P options)])) as Hlog.
  destruct (read_response P response _) as [[r' | e] l'] eqn:Eread; cbn [snd] in Hlog; subst l';
    cbv beta iota in Hrun.
  2:{ unfold generateImage_catch, bind, console_error, emit, ret in Hrun. cbv beta iota in Hrun.
      injection Hrun as <- _. discriminate. }
  injection Hrun as -> <-.
  unfold read_response in Eread.
  destruct (ok response) eqn:Hok; cbn [negb] in Eread.
  2:{ unfold bind, lift, ret in Eread.
      destruct (error_message_of _); [ | discriminate ].
      injection Eread as <- . discriminate. }
  unfold bind, lift in Eread.
  destruct (json response) as [body | e] eqn:Hjson; [ | discriminate ].
  exists response, body. auto.
Qed.

End GenerateImageMore.


(** ** More on strings *)

Lemma trimEnd_app_clean (s t : string) :
  trimEnd t = t -> t <> "" -> trimEnd (s ++ t) = s ++ t.
Proof.
  intros Ht Hne. induction s as [| c s IH]; [ exact Ht | ].
  rewrite append_cons. cbn [trimEnd]. rewrite IH.
  destruct (s ++ t) eqn:E; [ | reflexivity ].
  destruct s; [ now elim Hne | discriminate ].
Qed.

Lemma trimStart_starts_clean (s : string) :
  match trimStart s with
  | String c _ => is_white_space c = false
  | EmptyString => True
  end.
Proof.
  induction s as [| c s IH]; [ exact I | ].
  cbn [trimStart]. destruct (is_white_space c) eqn:E; [ exact IH | exact E ].
Qed.

Lemma trimEnd_idem (s : string) : trimEnd (trimEnd s) = trimEnd s.
Proof.
  induction s as [| c s IH]; [ reflexivity | ].
  cbn [trimEnd]. destruct (trimEnd s) as [| d r] eqn:E.
  - destruct (is_white_space c) eqn:Ec; [ reflexivity | ].
    cbn [trimEnd]. now rewrite Ec.
  - cbn [trimEnd]. cbn [trimEnd] in IH. rewrite IH. reflexivity.
Qed.

Lemma trimStart_trimEnd_clean (s : string) :
  match s with
  | String c _ => is_white_space c = false
  | EmptyString => True
  end ->
  trimStart (trimEnd s) = trimEnd s.
Proof.
  destruct s as [| c r]; [ reflexivity | ].
  intros Hc. cbn [trimEnd].
  destruct (trimEnd r); [ rewrite Hc | ]; cbn [trimStart]; now rewrite Hc.
Qed.

(** Trimming twice is trimming once. *)
Lemma trim_idem (s : string) : trim (trim s) = trim s.
Proof.
  unfold trim.
  rewrite trimStart_trimEnd_clean by apply trimStart_starts_clean.
  apply trimEnd_idem.
Qed.

Lemma trim_avatarPrompt (d : string) : trim (avatarPrompt_of d) = avatarPrompt_of d.
Proof.
  unfold trim, avatarPrompt_of. rewrite append_cons. cbn [trimStart].
  replace (is_white_space "C") with false by reflexivity.
  rewrite <- append_cons.
  apply trimEnd_app_clean.
  - apply trimEnd_app_clean; [ reflexivity | discriminate ].
  - destruct d; discriminate.
Qed.

Lemma trim_scenePrompt (d : string) : trim (scenePrompt_of d) = scenePrompt_of d.
Proof.
  unfold trim, scenePrompt_of. rewrite append_cons. cbn [trimStart].
  replace (is_white_space "I") with false by reflexivity.
  rewrite <- append_cons.
  apply trimEnd_app_clean.
  - apply trimEnd_app_clean; [ reflexivity | discriminate ].
  - destruct d; discriminate.
Qed.

Lemma run_to_end_inv (s : string) :
  run_to_end "/" s = true -> exists k : nat, s = slashes (S k).
Proof.
  induction s as [| c r IH]; [ discriminate | ].
  rewrite run_to_end_cons. intros H. apply andb_true_iff in H as [Hc Hr].
  apply Ascii.eqb_eq in Hc. subst c.
  destruct r as [| d r]; [ exists O; reflexivity | ].
  cbn [truthy_string negb orb] in Hr. destruct (IH Hr) as [k ->].
  exists (S k). reflexivity.
Qed.

(** X6.  The endpoint is <stem>/images/generations, where the base URL is
    the stem followed by slashes only and the stem does not end in a
    slash: nothing but the slashes at the end is removed. *)
Theorem endpoint_of_stem (baseUrl : string) :
  exists (stem : string) (k : nat),
    baseUrl = stem ++ slashes k
    /\ ends_with_slash stem = false
    /\ endpoint_of baseUrl = stem ++ "/images/generations".
Proof.
  exists (strip_trailing_slashes baseUrl).
  enough (exists k, baseUrl = strip_trailing_slashes baseUrl ++ slashes k
                    /\ ends_with_slash (strip_trailing_slashes baseUrl) = false)
    as (k & H1 & H2) by (exists k; auto).
  induction baseUrl as [| c r IH]; [ exists O; split; reflexivity | ].
  cbn [strip_trailing_slashes].
  destruct (run_to_end "/" (String c r)) eqn:E.
  - destruct (run_to_end_inv _ E) as [k Hk]. exists (S k). split; [ exact Hk | reflexivity ].
  - destruct IH as (k & Hr & Hend). exists k. split.
    + rewrite append_cons. now rewrite <- Hr.
    + destruct (strip_trailing_slashes r) as [| d r'] eqn:Es; [ | exact Hend ].
      cbn [ends_with_slash]. destruct (Ascii.eqb_spec c "/") as [-> | Hne]; [ | reflexivity ].
      rewrite Hr in E. change ("" ++ slashes k) with (slashes k) in E.
      change (String "/" (slashes k)) with (slashes (S k)) in E.
      now rewrite run_to_end_slashes in E.
Qed.

(** ** The wrappers *)

Section Wrappers.

Variable P : Platform.

(** X7.  With a non-blank API key and base URL, generateCharacterAvatar
    issues exactly one request for every description, the empty one
    included (the templated prompt is never blank and is sent unchanged),
    with model dall-e-3, size 1024x1024, quality hd and n = 1. *)
Theorem generateCharacterAvatar_request (characterDescription apiKey baseUrl : string)
    (log : list Effect) :
  trim apiKey <> "" -> trim baseUrl <> "" ->
  exists rest : list Effect,
    snd (generateCharacterAvatar P characterDescription apiKey baseUrl log) =
      (log ++ Fetch (wrapper_request P (avatarPrompt_of characterDescription) apiKey baseUrl
                       "1024x1024") :: rest)%list
    /\ count_fetches rest = O.
Proof.
  intros Hk Hb. unfold generateCharacterAvatar.
  destruct (generateImage_single_fetch P
              {| o_prompt := avatarPrompt_of characterDescription; o_apiKey := apiKey;
                 o_baseUrl := baseUrl; o_model := Some "dall-e-3"; o_size := Some S1024x1024;
                 o_quality := Some Hd; o_n := None |} log) as (rest & Hlog & Hrest);
    cbn [o_prompt o_apiKey o_baseUrl]; try assumption.
  { rewrite trim_avatarPrompt. unfold avatarPrompt_of. rewrite append_cons. discriminate. }
  exists rest. split; [ | now apply count_fetches_none ].
  rewrite Hlog. unfold request_of, generation_request, request_payload, wrapper_request.
  cbn [o_prompt o_apiKey o_baseUrl o_model o_size o_quality o_n default from_option id
       size_literal quality_literal].
  now rewrite trim_avatarPrompt.
Qed.

(** X8.  With a non-blank API key and base URL, generateSceneIllustration
    issues exactly one request for every description, the empty one
    included, with the templated prompt, model dall-e-3, size 1792x1024,
    quality hd and n = 1. *)
Theorem generateSceneIllustration_request (sceneDescription apiKey baseUrl : string)
    (log : list Effect) :
  trim apiKey <> "" -> trim baseUrl <> "" ->
  exists rest : list Effect,
    snd (generateSceneIllustration P sceneDescription apiKey baseUrl log) =
      (log ++ Fetch (wrapper_request P (scenePrompt_of sceneDescription) apiKey baseUrl
                       "1792x1024") :: rest)%list
    /\ count_fetches rest = O.
Proof.
  intros Hk Hb. unfold generateSceneIllustration.
  destruct (generateImage_single_fetch P
              {| o_prompt := scenePrompt_of sceneDescription; o_apiKey := apiKey;
                 o_baseUrl := baseUrl; o_model := Some "dall-e-3"; o_size := Some S1792x1024;
                 o_quality := Some Hd; o_n := None |} log) as (rest & Hlog & Hrest);
    cbn [o_prompt o_apiKey o_baseUrl]; try assumption.
  { rewrite trim_scenePrompt. unfold scenePrompt_of. rewrite append_cons. discriminate. }
  exists rest. split; [ | now apply count_fetches_none ].
  rewrite Hlog. unfold request_of, generation_request, request_payload, wrapper_request.
  cbn [o_prompt o_apiKey o_baseUrl o_model o_size o_quality o_n default from_option id
       size_literal quality_literal].
  now rewrite trim_scenePrompt.
Qed.

End Wrappers.


(** ** More on [base64ToFile] *)

Lemma in_remove_padding (c : ascii) (data : list ascii) :
  In c data -> c <> "="%char -> In c (remove_padding data).
Proof.
  intros Hin Hne. unfold remove_padding.
  destruct (rev data) as [| last r] eqn:E; [ exact Hin | ].
  assert (Hdata : data = (rev r ++ [last])%list).
  { rewrite <- (rev_involutive data), E. reflexivity. }
  destruct (Ascii.eqb_spec last "=") as [-> | _]; [ | exact Hin ].
  assert (Hr : In c (rev r)).
  { rewrite Hdata in Hin. apply in_app_or in Hin as [H | [H | []]]; [ exact H | congruence ]. }
  destruct r as [| before r']; [ exact Hr | ].
  destruct (Ascii.eqb_spec before "=") as [-> | _]; [ | exact Hr ].
  cbn [rev] in Hr. apply in_app_or in Hr as [H | [H | []]]; [ exact H | congruence ].
Qed.

Lemma bit_buffer_invalid (c : ascii) (data : list ascii) :
  In c data -> b64_char c = false -> bit_buffer data = None.
Proof.
  unfold b64_char. induction data as [| d data IH]; [ intros [] | ].
  intros [-> | Hin] Hc; cbn [bit_buffer].
  - destruct (sextet_of_char c); [ discriminate | reflexivity ].
  - rewrite (IH Hin Hc). now destruct (sextet_of_char d).
Qed.

(** [atob] rejects a string that holds a character outside the alphabet
    that is neither whitespace nor the padding sign. *)
Lemma atob_invalid (s : string) (c : ascii) :
  In c (list_ascii_of_string s) ->
  b64_char c = false -> c <> "="%char -> is_ascii_whitespace c = false ->
  atob s = Throw InvalidCharacterError.
Proof.
  intros Hin Hc Hpad Hws. unfold atob.
  set (data := filter _ (list_ascii_of_string s)).
  assert (Hdata : In c data).
  { apply list_elem_of_In, list_elem_of_filter. split; [ exact Hws | now apply list_elem_of_In ]. }
  set (data' := if (List.length data mod 4 =? 0)%nat then remove_padding data else data).
  assert (Hdata' : In c data').
  { subst data'. destruct (_ =? _)%nat; [ now apply in_remove_padding | exact Hdata ]. }
  destruct (_ =? 1)%nat; [ reflexivity | ].
  now rewrite (bit_buffer_invalid c data').
Qed.

(** X9.  base64ToFile is not total: when what is left after the prefix is
    removed holds a character that is not in the base64 alphabet, not '='
    and not ASCII whitespace, it raises InvalidCharacterError. *)
Theorem base64ToFile_rejects_invalid_character (base64Data : string)
    (filename : option string) (c : ascii) :
  In c (list_ascii_of_string (strip_data_url_prefix base64Data)) ->
  b64_char c = false -> c <> "="%char -> is_ascii_whitespace c = false ->
  base64ToFile base64Data filename = Throw InvalidCharacterError.
Proof.
  intros Hin Hc Hpad Hws. unfold base64ToFile.
  now rewrite (atob_invalid _ c).
Qed.

Lemma list_ascii_of_string_app (a b : string) :
  list_ascii_of_string (a ++ b) = (list_ascii_of_string a ++ list_ascii_of_string b)%list.
Proof.
  induction a as [| c a IH]; [ reflexivity | ].
  rewrite append_cons. cbn [list_ascii_of_string app]. now rewrite IH.
Qed.

Lemma drop_prefix_Some (p u rest : string) : drop_prefix p u = Some rest -> u = p ++ rest.
Proof.
  revert u. induction p as [| a p IH]; intros u H.
  - cbn [drop_prefix] in H. now injection H as ->.
  - destruct u as [| b u]; [ discriminate | ]. cbn [drop_prefix] in H.
    destruct (Ascii.eqb_spec a b) as [-> | _]; [ | discriminate ].
    rewrite append_cons. f_equal. now apply IH.
Qed.

(** The run of word characters that is skipped ends at the first
    character that is none. *)
Lemma skip_word_chars_split (t tail : string) :
  forallb is_word_char (list_ascii_of_string t) = false ->
  exists (x : ascii) (t' : string),
    is_word_char x = false
    /\ skip_word_chars (t ++ tail) = String x (t' ++ tail).
Proof.
  induction t as [| c t IH]; [ discriminate | ].
  cbn [list_ascii_of_string forallb]. rewrite append_cons. cbn [skip_word_chars].
  destruct (is_word_char c) eqn:Ec.
  - cbn [andb]. exact IH.
  - intros _. exists c, t. split; [ exact Ec | reflexivity ].
Qed.

(** What is left of a data URL with a type that is not recognized holds a
    colon or a comma. *)
Lemma unrecognized_type_leaves_mark (type payload : string) :
  recognized_type type = false ->
  In ":"%char (list_ascii_of_string (strip_data_url_prefix (data_url_prefix type ++ payload)))
  \/ In ","%char (list_ascii_of_string (strip_data_url_prefix (data_url_prefix type ++ payload))).
Proof.
  intros Htype. unfold data_url_prefix, strip_data_url_prefix.
  rewrite !string_app_assoc, drop_prefix_app.
  assert (Hcolon : In ":"%char (list_ascii_of_string
                                  ("data:image/" ++ type ++ ";base64," ++ payload))).
  { rewrite list_ascii_of_string_app. apply in_or_app. left. cbn. tauto. }
  destruct type as [| c t].
  { change ("" ++ ";base64," ++ payload) with (String ";" ("base64," ++ payload)).
    cbv iota beta. replace (is_word_char ";") with false by reflexivity. now left. }
  rewrite append_cons. cbv iota beta.
  destruct (is_word_char c) eqn:Ec; [ | now left ].
  unfold recognized_type in Htype. cbn [truthy_string list_ascii_of_string forallb andb] in Htype.
  rewrite Ec in Htype. cbn [andb] in Htype.
  destruct (skip_word_chars_split t (";base64," ++ payload) Htype) as (x & t' & Hx & ->).
  destruct (drop_prefix ";base64," (String x (t' ++ ";base64," ++ payload))) as [rest |] eqn:E;
    [ right | now left ].
  apply drop_prefix_Some in E.
  apply (f_equal list_ascii_of_string) in E.
  change (String x (t' ++ ";base64," ++ payload)) with (String x t' ++ ";base64," ++ payload) in E.
  rewrite !list_ascii_of_string_app in E.
  set (A := list_ascii_of_string (String x t')) in E.
  set (R := list_ascii_of_string rest) in *.
  apply (f_equal (fun l : list ascii => l !! (List.length A + 7)%nat)) in E.
  cbv beta in E.
  rewrite (lookup_app_r A) in E by lia.
  replace (List.length A + 7 - List.length A)%nat with 7%nat in E by lia.
  change ((list_ascii_of_string ";base64," ++ list_ascii_of_string payload)%list !! 7%nat)
    with (Some ","%char) in E.
  assert (HA : (1 <= List.length A)%nat) by (subst A; cbn; lia).
  rewrite (lookup_app_r (list_ascii_of_string ";base64,")) in E by (cbn; lia).
  symmetry in E. apply list_elem_of_lookup_2 in E. now apply list_elem_of_In.
Qed.

(** X10.  A data URL whose image type is not a non-empty run of word
    characters (image/svg+xml, for one) always makes base64ToFile raise,
    whatever the payload. *)
Theorem base64ToFile_rejects_unrecognized_type (type payload : string)
    (filename : option string) :
  recognized_type type = false ->
  base64ToFile (data_url_prefix type ++ payload) filename = Throw InvalidCharacterError.
Proof.
  intros Htype. unfold base64ToFile.
  destruct (unrecognized_type_leaves_mark type payload Htype) as [H | H].
  - now rewrite (atob_invalid _ ":"%char).
  - now rewrite (atob_invalid _ ","%char).
Qed.

(** [atob] sees its argument without the whitespace. *)
Lemma atob_of_encoding (s : string) (bytes : list Byte.byte) :
  without_whitespace s = base64_encode_chars bytes ->
  atob s = Normal (string_of_list_ascii (map ascii_of_byte bytes)).
Proof.
  intros Hs. unfold without_whitespace in Hs.
  destruct (encoding_decodes bytes)
    as (body & pad & Henc & Hpad & Hlen & Hbody & Hchars & bits & Hbits & Hoct).
  unfold atob. rewrite Hs, Henc, Hlen. cbn [Nat.eqb].
  rewrite remove_padding_encoded by assumption.
  destruct (Nat.eqb_spec (List.length body mod 4) 1) as [E | _]; [ contradiction | ].
  now rewrite Hbits, Hoct.
Qed.

Lemma encoding_chars (bytes : list Byte.byte) :
  Forall (fun c => b64_char c = true \/ c = "="%char) (base64_encode_chars bytes).
Proof.
  destruct (encoding_decodes bytes) as (body & pad & -> & Hpad & _ & _ & Hchars & _).
  apply Forall_app. split.
  - eapply Forall_impl; [ exact Hchars | ]. intros c Hc. now left.
  - destruct Hpad as [-> | [-> | ->]]; repeat constructor; now right.
Qed.

(** X11.  ASCII whitespace anywhere in the payload is ignored: a string
    that is the base64 encoding of some bytes once its whitespace is
    removed is converted to a file with exactly these bytes. *)
Theorem base64ToFile_ignores_whitespace (s : string) (bytes : list Byte.byte)
    (filename : option string) :
  without_whitespace s = base64_encode_chars bytes ->
  base64ToFile s filename = Normal (png_file filename bytes).
Proof.
  intros Hs. unfold base64ToFile, png_file.
  assert (Hstrip : strip_data_url_prefix s = s).
  { unfold strip_data_url_prefix. rewrite drop_prefix_no_colon; [ reflexivity | ].
    apply Forall_forall. intros c Hc ->.
    assert (Hc' : ":"%char ∈ without_whitespace s).
    { apply list_elem_of_filter. split; [ reflexivity | exact Hc ]. }
    rewrite Hs in Hc'. pose proof (encoding_chars bytes) as Hall.
    rewrite Forall_forall in Hall. destruct (Hall _ Hc') as [H | H]; discriminate. }
  rewrite Hstrip, (atob_of_encoding s bytes Hs), fill_bytes_binary, map_map.
  now rewrite (map_ext _ Byte.to_N N_of_ascii_of_byte).
Qed.

Lemma filter_padding (body pad : list ascii) :
  Forall (fun c => b64_char c = true) body ->
  pad = [] \/ pad = ["="%char] \/ pad = ["="%char; "="%char] ->
  List.filter (fun c => negb (Ascii.eqb c "=")) (body ++ pad) = body.
Proof.
  intros Hbody Hpad. rewrite List.filter_app.
  replace (List.filter _ pad) with (@nil ascii)
    by (destruct Hpad as [-> | [-> | ->]]; reflexivity).
  rewrite app_nil_r.
  induction Hbody as [| c body Hc _ IH]; [ reflexivity | ].
  cbn [List.filter]. rewrite (b64_char_not_pad c Hc). cbn [negb]. now rewrite IH.
Qed.

(** X12.  The padding is optional: the base64 encoding of any bytes with
    its '=' signs left out is converted to a file with exactly these
    bytes. *)
Theorem base64ToFile_accepts_unpadded (bytes : list Byte.byte) (filename : option string) :
  base64ToFile (base64_encode_unpadded bytes) filename = Normal (png_file filename bytes).
Proof.
  destruct (encoding_decodes bytes)
    as (body & pad & Henc & Hpad & Hlen & Hbody & Hchars & bits & Hbits & Hoct).
  unfold base64ToFile, png_file, base64_encode_unpadded.
  rewrite Henc, filter_padding by assumption.
  assert (Hstrip : strip_data_url_prefix (string_of_list_ascii body) = string_of_list_ascii body).
  { unfold strip_data_url_prefix. rewrite drop_prefix_no_colon; [ reflexivity | ].
    rewrite list_ascii_of_string_of_list_ascii.
    eapply Forall_impl; [ exact Hchars | ]. intros c Hc. apply b64_char_facts. now left. }
  rewrite Hstrip. unfold atob. rewrite list_ascii_of_string_of_list_ascii.
  rewrite filter_no_whitespace
    by (eapply Forall_impl; [ exact Hchars | ]; intros c Hc; now left).
  replace (if (List.length body mod 4 =? 0)%nat then remove_padding body else body) with body.
  2:{ destruct (_ =? 0)%nat; [ | reflexivity ].
      rewrite <- (app_nil_r body) at 2. symmetry. apply remove_padding_encoded; auto. }
  destruct (Nat.eqb_spec (List.length body mod 4) 1) as [E | _]; [ contradiction | ].
  rewrite Hbits, Hoct, fill_bytes_binary, map_map.
  now rewrite (map_ext _ Byte.to_N N_of_ascii_of_byte).
Qed.


(** ** More on [handleSubmit] *)

(** X13.  A valid submission with an avatar file, when nothing fails and
    the id is new, stores the file under <id>.png and the record under the
    id with that avatar key, leaves every other blob and record as it was,
    shows the success toast and schedules the close. *)
Theorem handleSubmit_stores_avatar (t : Z) (form : FormState) (w : World) (avatarFile : File) :
  trim (f_name form) <> "" -> trim (f_personality form) <> "" ->
  f_avatarFile form = Some avatarFile ->
  get_character (characterId_of t) w = None ->
  let w' := submit (quiet_host t) form w in
  let key := characterId_of t ++ ".png" in
  blobs w' !! key = Some avatarFile
  /\ get_character (characterId_of t) w' = Some (record_of t form)
  /\ rec_avatar (record_of t form) = key
  /\ (forall k : string, k <> key -> blobs w' !! k = blobs w !! k)
  /\ (forall id : string, id <> characterId_of t -> get_character id w' = get_character id w)
  /\ In (ShowToast "Character created successfully!" ToastSuccess) (new_actions w w')
  /\ In (SetTimeout 1000) (new_actions w w').
Proof.
  intros Hn Hp Hfile Hfresh w' key. subst w' key. unfold submit, new_actions.
  rewrite handleSubmit_success by assumption. cbn [snd records blobs trace].
  unfold get_character, record_of. cbn [records]. rewrite Hfile. cbn [imagePath_of rec_avatar].
  rewrite drop_own_trace.
  repeat split.
  - apply lookup_insert_eq.
  - apply lookup_insert_eq.
  - intros k Hk. now apply lookup_insert_ne.
  - intros id Hid. now apply lookup_insert_ne.
  - cbn. tauto.
  - cbn. tauto.
Qed.

(** X14.  A submission without an avatar file never writes a blob,
    whatever fails: the blob store is unchanged, setBlob is not called,
    and a record that it newly stores has the avatar key default-
    avatar.png. *)
Theorem handleSubmit_without_avatar (H : Host) (form : FormState) (w : World) :
  f_avatarFile form = None ->
  let w' := submit H form w in
  blobs w' = blobs w
  /\ existsb is_blob_write (new_actions w w') = false
  /\ (forall (id : string) (r : CharacterRecord),
        get_character id w = None -> get_character id w' = Some r ->
        rec_avatar r = "default-avatar.png").
Proof.
  intros Hfile w'. subst w'. unfold new_actions, get_character. unfold_submit. rewrite Hfile.
  destruct (truthy_string (trim (f_name form))); normalize_world.
  2:{ rewrite drop_own_trace. repeat split. intros id r H0 H1. congruence. }
  destruct (truthy_string (trim (f_personality form))); normalize_world.
  2:{ rewrite drop_own_trace. repeat split. intros id r H0 H1. congruence. }
  destruct (import_outcome H "@/lib/data/roleplay/character-record-operation")
    as [[] | e0]; normalize_world.
  2:{ rewrite drop_own_trace. repeat split. intros id r H0 H1. congruence. }
  destruct (import_outcome H "@/lib/data/local-storage") as [[] | e0]; normalize_world.
  2:{ rewrite drop_own_trace. repeat split. intros id r H0 H1. congruence. }
  destruct (records w !! characterId_of (clock H)) as [old |] eqn:Hold; normalize_world.
  { rewrite drop_own_trace. repeat split. intros id r H0 H1. congruence. }
  destruct (record_store_outcome H) as [[] | e1]; normalize_world.
  2:{ rewrite drop_own_trace. repeat split. intros id r H0 H1. congruence. }
  rewrite drop_own_trace. repeat split.
  intros id r H0 H1.
  destruct (decide (characterId_of (clock H) = id)) as [<- | Hne].
  - rewrite lookup_insert_eq in H1. now injection H1 as <-.
  - rewrite lookup_insert_ne in H1 by assumption. congruence.
Qed.

(** X15.  When the record write fails with an error e, handleSubmit writes
    no blob and no record, logs the error, shows e.message ("Failed to
    create character" when empty) as an error toast, resets the loading
    flag, and neither shows the success toast nor schedules the close. *)
Theorem handleSubmit_record_failure (H : Host) (form : FormState) (w : World) (e : JsError) :
  trim (f_name form) <> "" -> trim (f_personality form) <> "" ->
  import_outcome H "@/lib/data/roleplay/character-record-operation" = Normal tt ->
  import_outcome H "@/lib/data/local-storage" = Normal tt ->
  get_character (characterId_of (clock H)) w = None ->
  record_store_outcome H = Throw e ->
  handleSubmit H form w =
    (Normal tt,
     {| records := records w;
        blobs := blobs w;
        trace := (trace w ++ actions_to_record_write H form ++ actions_of_failure e)%list |}).
Proof.
  intros Hn Hp Hi1 Hi2 Hfresh Hstore. apply truthy_string_true in Hn, Hp.
  unfold get_character in Hfresh. unfold actions_to_record_write, actions_of_failure,
    submit_error_message.
  unfold_submit. rewrite Hn, Hp, Hi1, Hi2. normalize_world.
  rewrite Hfresh, Hstore. normalize_world. reflexivity.
Qed.

(** X16.  When the record write succeeds and the blob write fails with an
    error e, the record stays stored with the avatar key <id>.png while no
    blob is written; the error is logged and shown as an error toast, the
    loading flag is reset and the close is not scheduled. *)
Theorem handleSubmit_blob_failure (H : Host) (form : FormState) (w : World)
    (avatarFile : File) (e : JsError) :
  trim (f_name form) <> "" -> trim (f_personality form) <> "" ->
  f_avatarFile form = Some avatarFile ->
  import_outcome H "@/lib/data/roleplay/character-record-operation" = Normal tt ->
  import_outcome H "@/lib/data/local-storage" = Normal tt ->
  get_character (characterId_of (clock H)) w = None ->
  record_store_outcome H = Normal tt ->
  blob_store_outcome H = Throw e ->
  handleSubmit H form w =
    (Normal tt,
     {| records := <[ characterId_of (clock H) := record_of (clock H) form ]> (records w);
        blobs := blobs w;
        trace := (trace w ++ actions_to_record_write H form
                  ++ SetBlob (characterId_of (clock H) ++ ".png") :: actions_of_failure e)%list |}).
Proof.
  intros Hn Hp Hfile Hi1 Hi2 Hfresh Hrec Hblob. apply truthy_string_true in Hn, Hp.
  unfold get_character in Hfresh. unfold actions_to_record_write, actions_of_failure,
    submit_error_message, record_of.
  unfold_submit. rewrite Hn, Hp, Hi1, Hi2, Hfile. normalize_world.
  rewrite Hfresh, Hrec. normalize_world. rewrite Hblob. normalize_world. reflexivity.
Qed.

(** X17.  Every submission completes without raising and shows exactly one
    toast; a submission that passes the validation leaves the loading flag
    false, one that does not never touches it. *)
Theorem handleSubmit_settles (H : Host) (form : FormState) (w : World) :
  let log := new_actions w (submit H form w) in
  fst (handleSubmit H form w) = Normal tt
  /\ count_toasts log = 1%nat
  /\ loading_after None log = if form_valid form then Some false else None.
Proof.
  unfold new_actions, form_valid. unfold_submit.
  destruct (truthy_string (trim (f_name form))); normalize_world.
  2:{ rewrite drop_own_trace. repeat split. }
  destruct (truthy_string (trim (f_personality form))); normalize_world.
  2:{ rewrite drop_own_trace. repeat split. }
  destruct (import_outcome H "@/lib/data/roleplay/character-record-operation")
    as [[] | e0]; normalize_world.
  2:{ rewrite drop_own_trace. repeat split. }
  destruct (import_outcome H "@/lib/data/local-storage") as [[] | e0]; normalize_world.
  2:{ rewrite drop_own_trace. repeat split. }
  destruct (records w !! characterId_of (clock H)) as [old |] eqn:Hold; normalize_world.
  { rewrite drop_own_trace. repeat split. }
  destruct (record_store_outcome H) as [[] | e1]; normalize_world.
  2:{ rewrite drop_own_trace. repeat split. }
  destruct (f_avatarFile form) as [avatarFile |]; normalize_world.
  2:{ rewrite drop_own_trace. repeat split. }
  destruct (blob_store_outcome H) as [[] | e2]; normalize_world;
    rewrite drop_own_trace; repeat split.
Qed.

Lemma greeting_nonempty (form : FormState) :
  CharaCard.first_mes (CharaCard.data (rawCharacterData_of form)) <> "".
Proof.
  cbn [rawCharacterData_of CharaCard.data CharaCard.first_mes].
  destruct (truthy_string (trim (f_firstMessage form))) eqn:E.
  - now apply truthy_string_true.
  - rewrite append_cons. discriminate.
Qed.

(** X18.  A record that appears in the store through handleSubmit is
    stored under char_<clock reading>, carries that id, has a non-empty
    trimmed name and personality and a non-empty first message, and its
    creatorcomment equals data.creator_notes. *)
Theorem handleSubmit_stored_record_valid (H : Host) (form : FormState) (w : World)
    (id : string) (r : CharacterRecord) :
  get_character id w = None ->
  get_character id (submit H form w) = Some r ->
  let d := CharaCard.data (rec_raw r) in
  id = characterId_of (clock H)
  /\ rec_id r = id
  /\ CharaCard.name d <> "" /\ trim (CharaCard.name d) = CharaCard.name d
  /\ CharaCard.personality d <> "" /\ trim (CharaCard.personality d) = CharaCard.personality d
  /\ CharaCard.first_mes d <> ""
  /\ CharaCard.creatorcomment (rec_raw r) = CharaCard.creator_notes d.
Proof.
  unfold get_character. intros Hfresh. unfold_submit.
  destruct (truthy_string (trim (f_name form))) eqn:Hn; normalize_world; [ | congruence ].
  destruct (truthy_string (trim (f_personality form))) eqn:Hp; normalize_world; [ | congruence ].
  destruct (import_outcome H "@/lib/data/roleplay/character-record-operation")
    as [[] | e0]; normalize_world; [ | congruence ].
  destruct (import_outcome H "@/lib/data/local-storage") as [[] | e0]; normalize_world;
    [ | congruence ].
  destruct (records w !! characterId_of (clock H)) as [old |] eqn:Hold; normalize_world;
    [ congruence | ].
  assert (Hstored : <[ characterId_of (clock H) :=
                        {| rec_id := characterId_of (clock H);
                           rec_raw := rawCharacterData_of form;
                           rec_avatar := imagePath_of (characterId_of (clock H))
                                           (f_avatarFile form) |} ]> (records w) !! id = Some r ->
                    let d := CharaCard.data (rec_raw r) in
                    id = characterId_of (clock H)
                    /\ rec_id r = id
                    /\ CharaCard.name d <> "" /\ trim (CharaCard.name d) = CharaCard.name d
                    /\ CharaCard.personality d <> ""
                    /\ trim (CharaCard.personality d) = CharaCard.personality d
                    /\ CharaCard.first_mes d <> ""
                    /\ CharaCard.creatorcomment (rec_raw r) = CharaCard.creator_notes d).
  { intros Hr. destruct (decide (characterId_of (clock H) = id)) as [<- | Hne].
    2:{ rewrite lookup_insert_ne in Hr by assumption. congruence. }
    rewrite lookup_insert_eq in Hr. injection Hr as <-.
    cbn [rec_raw rec_id]. repeat split.
    - now apply truthy_string_true.
    - apply trim_idem.
    - now apply truthy_string_true.
    - apply trim_idem.
    - apply greeting_nonempty. }
  destruct (record_store_outcome H) as [[] | e1]; normalize_world; [ | congruence ].
  destruct (f_avatarFile form) as [avatarFile |] eqn:Hfile; normalize_world;
    [ | exact Hstored ].
  destruct (blob_store_outcome H) as [[] | e2]; normalize_world; exact Hstored.
Qed.


(** ** The image generation modal *)

Section Modal.

Import ImageGenerationModal.

Variable P : Platform.

Ltac unfold_modal :=
  unfold handleGenerate, handleGenerate_try, handleGenerate_catch, handleUseImage,
    imageUrlToFile, try_finally, try_catch,
    getItem_or_empty, showToast, setToast, setIsGenerating, setGeneratedImageUrl,
    call_api, call_out, bind, emit, lift, ret;
  cbn [prompt generatedImageUrl isGenerating imageSize toast localStorage api calls
       fst snd default from_option id negb].

Ltac modal_step :=
  repeat (cbn [prompt generatedImageUrl isGenerating imageSize toast localStorage api calls
               fst snd default from_option id negb orb andb truthy_string truthy
               success imageUrl imageData error failure error_or_default]).

(** The result of [generateImage] on a body of the documented shape. *)
Lemma generateImage_shaped (options : ImageGenerationOptions) (log : list Effect)
    (response : Response) (body : JsVal) :
  trim (o_prompt options) <> "" -> trim (o_apiKey options) <> "" ->
  trim (o_baseUrl options) <> "" ->
  network P (request_of P options) = Normal response ->
  ok response = true ->
  json response = Normal body ->
  result_list_shape body = true ->
  generateImage P options log =
    (Normal
       match first_result_item body with
       | Some item =>
           if truthy (own_property "url" item) then
             {| success := true; imageUrl := Some (own_property "url" item);
                imageData := None; error := None |}
           else if truthy (own_property "b64_json" item) then
             {| success := true; imageUrl := None;
                imageData := Some (own_property "b64_json" item); error := None |}
           else failure (VStr "No image data in response")
       | None => failure (VStr "No image data in response")
       end,
     (log ++ [Fetch (request_of P options)])%list).
Proof.
  intros Hp Hk Hb Hnet Hok Hjson Hshape.
  rewrite generateImage_present by assumption.
  unfold try_catch, bind, fetch, emit, lift. simpl. rewrite Hnet.
  unfold read_response, bind, lift, ret. rewrite Hok, Hjson. simpl.
  destruct (first_item_chain_shape P body "url" Hshape) as (u & -> & Hu).
  destruct (first_item_chain_shape P body "b64_json" Hshape) as (b & -> & Hb64).
  destruct (first_result_item body) as [item |].
  - destruct Hu as [-> ->], Hb64 as [-> ->].
    destruct (truthy (own_property "url" item)); [ reflexivity | ].
    destruct (truthy (own_property "b64_json" item)); reflexivity.
  - rewrite Hu, Hb64. reflexivity.
Qed.

(** The result of [generateImage] for credentials that are only
    whitespace. *)
Lemma generateImage_blank_credentials (options : ImageGenerationOptions) (log : list Effect) :
  trim (o_prompt options) <> "" ->
  trim (o_apiKey options) = "" \/ trim (o_baseUrl options) = "" ->
  generateImage P options log =
    (Normal (failure (VStr (if truthy_string (trim (o_apiKey options))
                            then "API base URL is required" else "API key is required"))),
     log).
Proof.
  intros Hp Hblank. apply present_iff in Hp.
  destruct (truthy_string (trim (o_apiKey options))) eqn:Ek.
  - apply truthy_string_true in Ek. destruct Hblank as [Hk | Hb]; [ contradiction | ].
    apply present_iff in Ek. apply missing_iff in Hb.
    unfold generateImage, try_catch, generateImage_try. now rewrite Hp, Ek, Hb.
  - apply truthy_string_false, missing_iff in Ek.
    unfold generateImage, try_catch, generateImage_try. now rewrite Hp, Ek.
Qed.

Lemma modal_request (prompt apiKey baseUrl : string) (imageSize : ModalSize) :
  request_of P (modal_options prompt apiKey baseUrl imageSize)
  = wrapper_request P (trim prompt) apiKey baseUrl (size_literal (size_of imageSize)).
Proof.
  unfold request_of, modal_options, generation_request, request_payload, wrapper_request.
  cbn [o_prompt o_apiKey o_baseUrl o_model o_size o_quality o_n default from_option id
       quality_literal].
  now rewrite trim_idem.
Qed.

(** X19.  In the image generation modal, a blank prompt only shows "Please
    enter an image description"; with a prompt but an API key or base URL
    that is absent or empty in localStorage, no request is issued, the
    shown URL is cleared, isGenerating ends false and the toast asks to
    configure the API settings. *)
Theorem handleGenerate_missing_input (w : World) :
  trim (prompt w) = ""
  \/ default "" (localStorage w !! "openaiApiKey") = ""
  \/ default "" (localStorage w !! "openaiBaseUrl") = "" ->
  handleGenerate P w =
    (Normal tt,
     if truthy_string (trim (prompt w)) then
       modal_after w (VStr "")
         (error_toast (VStr "Please configure your CloudGPT API settings first")) (api w)
     else
       {| prompt := prompt w; generatedImageUrl := generatedImageUrl w;
          isGenerating := isGenerating w; imageSize := imageSize w;
          toast := error_toast (VStr "Please enter an image description");
          localStorage := localStorage w; api := api w; calls := calls w |}).
Proof.
  intros Hmissing. unfold modal_after, error_toast. unfold_modal.
  destruct (truthy_string (trim (prompt w))) eqn:Ep; modal_step; [ | reflexivity ].
  destruct Hmissing as [Hp | Hcred]; [ rewrite Hp in Ep; discriminate | ].
  match goal with
  | |- context [negb (truthy_string ?k) || negb (truthy_string ?b)] =>
      assert (Hc : negb (truthy_string k) || negb (truthy_string b) = true)
  end.
  { apply orb_true_iff.
    destruct Hcred as [Hcred | Hcred]; [ left | right ];
      match goal with
      | |- context [localStorage w !! ?key] => destruct (localStorage w !! key) as [[| c v] |]
      end; try reflexivity; discriminate. }
  rewrite Hc. modal_step. reflexivity.
Qed.

(** X20.  Credentials that are non-empty but only whitespace pass the
    modal's own check and are rejected by generateImage: no request is
    issued and the toast shows "API key is required" (or "API base URL is
    required"). *)
Theorem handleGenerate_whitespace_credentials (w : World) (apiKey baseUrl : string) :
  trim (prompt w) <> "" ->
  localStorage w !! "openaiApiKey" = Some apiKey ->
  localStorage w !! "openaiBaseUrl" = Some baseUrl ->
  apiKey <> "" -> baseUrl <> "" ->
  trim apiKey = "" \/ trim baseUrl = "" ->
  handleGenerate P w =
    (Normal tt,
     modal_after w (VStr "")
       (error_toast (VStr (if truthy_string (trim apiKey) then "API base URL is required"
                           else "API key is required")))
       (api w)).
Proof.
  intros Hp Hk Hb Hkne Hbne Hblank. unfold modal_after, error_toast. unfold_modal.
  apply truthy_string_true in Hp as Hp'. rewrite Hp'. modal_step. rewrite Hk, Hb. modal_step.
  apply truthy_string_true in Hkne, Hbne. rewrite Hkne, Hbne. modal_step. rewrite Hkne, Hbne. modal_step.
  assert (Hg := generateImage_blank_credentials
                  (modal_options (prompt w) apiKey baseUrl (imageSize w)) (api w)).
  unfold modal_options in Hg. cbn [o_prompt o_apiKey o_baseUrl] in Hg.
  rewrite trim_idem in Hg. rewrite (Hg Hp Hblank). modal_step.
  destruct (truthy_string (trim apiKey)); reflexivity.
Qed.

(** X21.  When the service answers successfully with inline data
    (b64_json) and no URL, the modal treats the success as a failure: it
    shows the error toast "Failed to generate image" and no image. *)
Theorem handleGenerate_inline_data (w : World) (apiKey baseUrl : string)
    (response : Response) (body : JsVal) (item : list (string * JsVal)) :
  trim (prompt w) <> "" ->
  localStorage w !! "openaiApiKey" = Some apiKey ->
  localStorage w !! "openaiBaseUrl" = Some baseUrl ->
  trim apiKey <> "" -> trim baseUrl <> "" ->
  network P (wrapper_request P (trim (prompt w)) apiKey baseUrl
               (size_literal (size_of (imageSize w)))) = Normal response ->
  ok response = true ->
  json response = Normal body ->
  result_list_shape body = true ->
  first_result_item body = Some item ->
  truthy (own_property "url" item) = false ->
  truthy (own_property "b64_json" item) = true ->
  handleGenerate P w =
    (Normal tt,
     modal_after w (VStr "") (error_toast (VStr "Failed to generate image"))
       (api w ++ [Fetch (wrapper_request P (trim (prompt w)) apiKey baseUrl
                           (size_literal (size_of (imageSize w))))])%list).
Proof.
  intros Hp Hk Hb Hkt Hbt Hnet Hok Hjson Hshape Hitem Hurl Hb64.
  unfold modal_after, error_toast. unfold_modal.
  apply truthy_string_true in Hp as Hp'. rewrite Hp'. modal_step. rewrite Hk, Hb. modal_step.
  assert (Hkne : truthy_string apiKey = true) by (destruct apiKey; [ now elim Hkt | reflexivity ]).
  assert (Hbne : truthy_string baseUrl = true)
    by (destruct baseUrl; [ now elim Hbt | reflexivity ]).
  rewrite Hkne, Hbne. modal_step. rewrite Hkne, Hbne. modal_step.
  rewrite <- modal_request in *.
  assert (Hg := generateImage_shaped
                  (modal_options (prompt w) apiKey baseUrl (imageSize w)) (api w) response body).
  unfold modal_options in Hg, Hnet |- *. cbn [o_prompt o_apiKey o_baseUrl] in Hg.
  rewrite trim_idem in Hg. rewrite (Hg Hp Hkt Hbt Hnet Hok Hjson Hshape).
  rewrite Hitem, Hurl, Hb64. modal_step. reflexivity.
Qed.

(** X22.  When the service answers successfully with a URL in the first
    item, the modal shows that URL and the success toast; the one request
    it issued carries the trimmed prompt, the selected size, quality hd,
    model dall-e-3 and n = 1. *)
Theorem handleGenerate_hosted_url (w : World) (apiKey baseUrl : string)
    (response : Response) (body : JsVal) (item : list (string * JsVal)) :
  trim (prompt w) <> "" ->
  localStorage w !! "openaiApiKey" = Some apiKey ->
  localStorage w !! "openaiBaseUrl" = Some baseUrl ->
  trim apiKey <> "" -> trim baseUrl <> "" ->
  network P (wrapper_request P (trim (prompt w)) apiKey baseUrl
               (size_literal (size_of (imageSize w)))) = Normal response ->
  ok response = true ->
  json response = Normal body ->
  result_list_shape body = true ->
  first_result_item body = Some item ->
  truthy (own_property "url" item) = true ->
  handleGenerate P w =
    (Normal tt,
     modal_after w (own_property "url" item)
       {| isVisible := true; toast_message := VStr "Image generated successfully!";
          toast_type := ToastSuccess |}
       (api w ++ [Fetch (wrapper_request P (trim (prompt w)) apiKey baseUrl
                           (size_literal (size_of (imageSize w))))])%list).
Proof.
  intros Hp Hk Hb Hkt Hbt Hnet Hok Hjson Hshape Hitem Hurl.
  unfold modal_after. unfold_modal.
  apply truthy_string_true in Hp as Hp'. rewrite Hp'. modal_step. rewrite Hk, Hb. modal_step.
  assert (Hkne : truthy_string apiKey = true) by (destruct apiKey; [ now elim Hkt | reflexivity ]).
  assert (Hbne : truthy_string baseUrl = true)
    by (destruct baseUrl; [ now elim Hbt | reflexivity ]).
  rewrite Hkne, Hbne. modal_step. rewrite Hkne, Hbne. modal_step.
  rewrite <- modal_request in *.
  assert (Hg := generateImage_shaped
                  (modal_options (prompt w) apiKey baseUrl (imageSize w)) (api w) response body).
  unfold modal_options in Hg, Hnet |- *. cbn [o_prompt o_apiKey o_baseUrl] in Hg.
  rewrite trim_idem in Hg. rewrite (Hg Hp Hkt Hbt Hnet Hok Hjson Hshape).
  rewrite Hitem, Hurl. modal_step. rewrite Hurl. modal_step. reflexivity.
Qed.

(** X23.  Every run of the modal's handleGenerate completes without
    raising and ends with a visible toast; prompt, size and localStorage
    are unchanged; after a non-blank prompt isGenerating is false and the
    shown URL is empty or a truthy value, after a blank prompt both are as
    before. *)
Theorem handleGenerate_settles (w : World) :
  let w' := snd (handleGenerate P w) in
  fst (handleGenerate P w) = Normal tt
  /\ isVisible (toast w') = true
  /\ prompt w' = prompt w /\ imageSize w' = imageSize w /\ localStorage w' = localStorage w
  /\ if truthy_string (trim (prompt w)) then
       isGenerating w' = false
       /\ (generatedImageUrl w' = VStr "" \/ truthy (generatedImageUrl w') = true)
     else
       isGenerating w' = isGenerating w /\ generatedImageUrl w' = generatedImageUrl w.
Proof.
  unfold_modal.
  destruct (truthy_string (trim (prompt w))); modal_step; [ | repeat split ].
  destruct (negb _ || negb _); modal_step; [ repeat split; auto | ].
  destruct (generateImage P _ (api w)) as [[r | e] log]; modal_step; [ | repeat split; auto ].
  destruct (success r); modal_step; [ | repeat split; auto ].
  destruct (imageUrl r) as [url |]; modal_step; [ | repeat split; auto ].
  destruct (truthy url) eqn:Hurl; modal_step; repeat split; auto.
Qed.

Section UseImage.

Variable D : Media.

(** The run of [handleUseImage] when the download succeeds. *)
Lemma handleUseImage_success_run (w : World) (response : MediaResponse) (blob : BlobData) :
  truthy (generatedImageUrl w) = true ->
  D (generatedImageUrl w) = Normal response ->
  media_blob response = Normal blob ->
  handleUseImage D w =
    (Normal tt,
     {| prompt := prompt w; generatedImageUrl := generatedImageUrl w;
        isGenerating := isGenerating w; imageSize := imageSize w; toast := toast w;
        localStorage := localStorage w; api := api w;
        calls := (calls w ++ [Download (generatedImageUrl w);
                              OnImageGenerated (generated_avatar blob);
                              OnClose])%list |}).
Proof.
  intros Hurl Hnet Hblob. unfold generated_avatar. unfold_modal.
  rewrite Hurl. modal_step. rewrite Hnet. modal_step. rewrite Hblob. modal_step.
  now rewrite <- !app_assoc.
Qed.

(** X24.  With a generated URL whose download answers with a blob,
    whatever the HTTP status, handleUseImage calls onImageGenerated with a
    file named generated-avatar.png that has the blob's type and bytes,
    then onClose, and shows no toast. *)
Theorem handleUseImage_hands_over (w : World) (response : MediaResponse) (blob : BlobData) :
  truthy (generatedImageUrl w) = true ->
  D (generatedImageUrl w) = Normal response ->
  media_blob response = Normal blob ->
  handleUseImage D w =
    (Normal tt,
     {| prompt := prompt w; generatedImageUrl := generatedImageUrl w;
        isGenerating := isGenerating w; imageSize := imageSize w; toast := toast w;
        localStorage := localStorage w; api := api w;
        calls := (calls w ++ [Download (generatedImageUrl w);
                              OnImageGenerated {| file_name := "generated-avatar.png";
                                                  file_type := blob_type blob;
                                                  file_bytes := blob_bytes blob |};
                              OnClose])%list |}).
Proof. exact (handleUseImage_success_run w response blob). Qed.

(** X25.  When the download or response.blob() fails, handleUseImage calls
    neither onImageGenerated nor onClose, logs the error and shows "Failed
    to process generated image" (not the error's own message). *)
Theorem handleUseImage_download_failure (w : World) (e : JsError) :
  truthy (generatedImageUrl w) = true ->
  D (generatedImageUrl w) = Throw e
  \/ (exists response, D (generatedImageUrl w) = Normal response
                        /\ media_blob response = Throw e) ->
  handleUseImage D w =
    (Normal tt,
     {| prompt := prompt w; generatedImageUrl := generatedImageUrl w;
        isGenerating := isGenerating w; imageSize := imageSize w;
        toast := error_toast (VStr "Failed to process generated image");
        localStorage := localStorage w; api := api w;
        calls := (calls w ++ [Download (generatedImageUrl w);
                              ConsoleErrorCall "Error processing image:" e])%list |}).
Proof.
  intros Hurl Hfail. unfold error_toast. unfold_modal. rewrite Hurl. modal_step.
  destruct Hfail as [-> | (response & -> & ->)]; modal_step; now rewrite <- !app_assoc.
Qed.

End UseImage.

End Modal.


(** ** The avatar of the form *)

Section Avatar.

Variable readAsDataURL : File -> string.

(** X26.  handleAvatarUpload accepts the first selected file only if its
    type starts with image/: then it becomes the avatar with its preview;
    otherwise the form is unchanged and "Please upload an image file" is
    shown; with no file nothing happens. An avatar of an image type stays
    one, and the stores are untouched. *)
Theorem handleAvatarUpload_keeps_images (files : list File) (st : CreateModal) (w : World) :
  exists (st' : CreateModal) (w' : World),
    handleAvatarUpload readAsDataURL files st w = (Normal st', w')
    /\ (avatar_is_image st -> avatar_is_image st')
    /\ records w' = records w /\ blobs w' = blobs w
    /\ match files with
       | file :: _ =>
           if String.prefix "image/" (file_type file) then
             f_avatarFile (cm_form st') = Some file
             /\ cm_avatarPreview st' = readAsDataURL file
             /\ w' = w
           else
             st' = st /\ new_actions w w' = [ShowToast "Please upload an image file" ToastError]
       | [] => st' = st /\ w' = w
       end.
Proof.
  unfold handleAvatarUpload, avatar_is_image, new_actions.
  destruct files as [| file rest].
  - exists st, w. repeat split; auto.
  - destruct (String.prefix "image/" (file_type file)) eqn:Etype; cbn [negb].
    + eexists _, w. split; [ reflexivity | ].
      cbn [createPreview setAvatarPreview setAvatarFile cm_form f_avatarFile cm_avatarPreview].
      repeat split; auto.
    + unfold showToast, bind, act, ret. cbn [default from_option id].
      eexists st, _. split; [ reflexivity | ]. cbn [records blobs trace].
      rewrite drop_own_trace. repeat split; auto.
Qed.

(** X27.  End to end for a generated avatar: the file that handleUseImage
    hands to handleImageGenerated becomes the avatar of the form without a
    check of its type, and a following valid submission stores exactly the
    downloaded bytes, with the type of the response, under <id>.png, the
    avatar key of the new record. *)
Theorem generated_avatar_is_stored (D : Media) (mw : ImageGenerationModal.World)
    (response : MediaResponse) (blob : BlobData) (st : CreateModal) (w : World) (t : Z) :
  truthy (ImageGenerationModal.generatedImageUrl mw) = true ->
  D (ImageGenerationModal.generatedImageUrl mw) = Normal response ->
  media_blob response = Normal blob ->
  trim (f_name (cm_form st)) <> "" -> trim (f_personality (cm_form st)) <> "" ->
  get_character (characterId_of t) w = None ->
  exists (st' : CreateModal) (w' : World),
    In (OnImageGenerated (generated_avatar blob))
       (ImageGenerationModal.calls (snd (ImageGenerationModal.handleUseImage D mw)))
    /\ handleImageGenerated readAsDataURL (generated_avatar blob) st w = (Normal st', w')
    /\ f_avatarFile (cm_form st') = Some (generated_avatar blob)
    /\ blobs (submit (quiet_host t) (cm_form st') w') !! (characterId_of t ++ ".png")
       = Some {| file_name := "generated-avatar.png";
                 file_type := blob_type blob;
                 file_bytes := blob_bytes blob |}
    /\ rec_avatar (record_of t (cm_form st')) = characterId_of t ++ ".png"
    /\ get_character (characterId_of t) (submit (quiet_host t) (cm_form st') w')
       = Some (record_of t (cm_form st')).
Proof.
  intros Hurl Hnet Hblob Hn Hp Hfresh.
  eexists _, _. split; [ | split; [ reflexivity | ] ].
  { rewrite (handleUseImage_success_run D mw response blob Hurl Hnet Hblob).
    cbn [snd ImageGenerationModal.calls]. apply in_or_app. right. cbn. tauto. }
  cbn [createPreview setAvatarPreview setAvatarFile cm_form f_avatarFile].
  split; [ reflexivity | ].
  unfold submit. rewrite handleSubmit_success; cbn [f_name f_personality]; try assumption.
  cbn [snd blobs records f_avatarFile imagePath_of]. unfold get_character, record_of.
  cbn [records f_avatarFile imagePath_of rec_avatar].
  split; [ apply lookup_insert_eq | ]. split; [ reflexivity | apply lookup_insert_eq ].
Qed.

End Avatar.

(** ** The chat image generator *)

(** X28.  The chat image generator calls onImageGenerate only with a
    prompt that is non-empty and trimmed, and then hides and clears the
    input; with a blank prompt it does nothing. *)
Theorem chat_handleGenerate_trimmed (st : ChatImageGenerator.State) (log : list string) :
  let st' := fst (ChatImageGenerator.handleGenerate st log) in
  let log' := snd (ChatImageGenerator.handleGenerate st log) in
  if truthy_string (trim (ChatImageGenerator.imagePrompt st)) then
    exists a : string,
      log' = (log ++ [a])%list /\ a = trim (ChatImageGenerator.imagePrompt st)
      /\ a <> "" /\ trim a = a
      /\ st' = Normal {| ChatImageGenerator.showPromptInput := false;
                         ChatImageGenerator.imagePrompt := "" |}
  else log' = log /\ st' = Normal st.
Proof.
  unfold ChatImageGenerator.handleGenerate.
  destruct (truthy_string (trim (ChatImageGenerator.imagePrompt st))) eqn:E.
  - unfold bind, emit, ret. cbn [fst snd]. eexists. split; [ reflexivity | ].
    split; [ reflexivity | ]. split; [ now apply truthy_string_true | ].
    split; [ apply trim_idem | reflexivity ].
  - split; reflexivity.
Qed.

(** X29.  With a non-blank prompt, the Enter key triggers a generation
    whether or not one is running, while the generate button does not
    while one is running; Shift+Enter and other keys do nothing. *)
Theorem chat_enter_ignores_isGenerating (st : ChatImageGenerator.State) (log : list string)
    (isGenerating : bool) :
  trim (ChatImageGenerator.imagePrompt st) <> "" ->
  snd (ChatImageGenerator.onKeyPress "Enter" false st log)
    = (log ++ [trim (ChatImageGenerator.imagePrompt st)])%list
  /\ snd (ChatImageGenerator.clickGenerate true st log) = log
  /\ snd (ChatImageGenerator.clickGenerate false st log)
     = (log ++ [trim (ChatImageGenerator.imagePrompt st)])%list
  /\ snd (ChatImageGenerator.onKeyPress "Enter" true st log) = log
  /\ (forall key : string, key <> "Enter" ->
        ChatImageGenerator.onKeyPress key false st log = (Normal st, log)).
Proof.
  intros Hp. apply truthy_string_true in Hp.
  unfold ChatImageGenerator.onKeyPress, ChatImageGenerator.clickGenerate,
    ChatImageGenerator.generateButton_disabled, ChatImageGenerator.handleGenerate.
  rewrite Hp. cbn [negb orb andb String.eqb Ascii.eqb Bool.eqb].
  unfold bind, emit, ret. cbn [fst snd].
  repeat split.
  intros key Hkey. destruct (String.eqb_spec key "Enter") as [-> | _]; [ now elim Hkey | ].
  reflexivity.
Qed.

(** ** More concrete runs *)

(** Hypotheses at a concrete input are settled by evaluation. *)
Ltac settle :=
  solve [ reflexivity | discriminate | vm_compute; reflexivity | vm_compute; discriminate
        | vm_compute; tauto | left; settle | right; settle | eexists; settle | split; settle ].

(** X2 at a concrete input. *)
Lemma generateImage_converts_exceptions_witness :
  (trim (o_prompt sample_options) ≠ "")
  /\ (trim (o_apiKey sample_options) ≠ "")
  /\ (trim (o_baseUrl sample_options) ≠ "")
  /\ (network unreachable (request_of unreachable sample_options) = Throw {| err_name := "TypeError";
      err_message := "Failed to fetch" |} ∨ (∃ response : Response, network unreachable
      (request_of unreachable sample_options) = Normal response ∧ ok response = true ∧ json
      response = Throw {| err_name := "TypeError"; err_message := "Failed to fetch" |}))
  /\ (generateImage unreachable sample_options [] = (Normal (failure (caught_message {| err_name :=
      "TypeError"; err_message := "Failed to fetch" |})), ([] ++ [Fetch (request_of unreachable
      sample_options); ConsoleError "Image generation error:" {| err_name := "TypeError";
      err_message := "Failed to fetch" |}])%list)).
Proof.
  assert (H0 : trim (o_prompt sample_options) ≠ "") by settle.
  assert (H1 : trim (o_apiKey sample_options) ≠ "") by settle.
  assert (H2 : trim (o_baseUrl sample_options) ≠ "") by settle.
  assert (H3 : network unreachable (request_of unreachable sample_options) = Throw {| err_name :=
            "TypeError"; err_message := "Failed to fetch" |} ∨ (∃ response : Response,
            network unreachable (request_of unreachable sample_options) = Normal response
            ∧ ok response = true ∧ json response = Throw {| err_name := "TypeError";
            err_message := "Failed to fetch" |})) by settle.
  exact (conj H0 (conj H1 (conj H2 (conj H3 (generateImage_converts_exceptions unreachable sample_options [] (mkError "TypeError" "Failed to fetch") H0 H1 H2 H3))))).
Defined.

(** X3 at a concrete input. *)
Lemma generateImage_status_message_witness :
  (trim (o_prompt sample_options) ≠ "")
  /\ (trim (o_apiKey sample_options) ≠ "")
  /\ (trim (o_baseUrl sample_options) ≠ "")
  /\ (network (answering invalid_token) (request_of (answering invalid_token) sample_options)
      = Normal invalid_token)
  /\ (ok invalid_token = false)
  /\ ((∃ e : JsError, json invalid_token = Throw e)
      ∨ (∃ body : JsVal, json invalid_token = Normal body ∧ nullish body = false
           ∧ truthy (member (member body "error") "message") = false))
  /\ (generateImage (answering invalid_token) sample_options [] =
        (Normal (failure (VStr ("API request failed with status "
                                  +:+ pretty (status invalid_token)))),
         ([] ++ [Fetch (request_of (answering invalid_token) sample_options)])%list)).
Proof.
  assert (H0 : trim (o_prompt sample_options) ≠ "") by settle.
  assert (H1 : trim (o_apiKey sample_options) ≠ "") by settle.
  assert (H2 : trim (o_baseUrl sample_options) ≠ "") by settle.
  assert (H3 : network (answering invalid_token)
                 (request_of (answering invalid_token) sample_options)
               = Normal invalid_token) by settle.
  assert (H4 : ok invalid_token = false) by settle.
  assert (H5 : (∃ e : JsError, json invalid_token = Throw e)
               ∨ (∃ body : JsVal, json invalid_token = Normal body ∧ nullish body = false
                    ∧ truthy (member (member body "error") "message") = false)) by settle.
  exact (conj H0 (conj H1 (conj H2 (conj H3 (conj H4 (conj H5 (generateImage_status_message (answering invalid_token) sample_options [] invalid_token H0 H1 H2 H3 H4 H5))))))).
Defined.

(** X4 at a concrete input. *)
Lemma generateImage_server_message_witness :
  (trim (o_prompt sample_options) ≠ "")
  /\ (trim (o_apiKey sample_options) ≠ "")
  /\ (trim (o_baseUrl sample_options) ≠ "")
  /\ (network (answering unauthorized) (request_of (answering unauthorized) sample_options) = Normal
      unauthorized)
  /\ (ok unauthorized = false)
  /\ (json unauthorized = Normal (VObj [("error", VObj [("message", VStr "Invalid API key")])]))
  /\ (own_property "error" [("error", VObj [("message", VStr "Invalid API key")])] = VObj [("message",
      VStr "Invalid API key")])
  /\ (truthy (own_property "message" [("message", VStr "Invalid API key")]) = true)
  /\ (generateImage (answering unauthorized) sample_options [] = (Normal (failure (own_property
      "message" [("message", VStr "Invalid API key")])), ([] ++ [Fetch (request_of (answering
      unauthorized) sample_options)])%list)).
Proof.
  assert (H0 : trim (o_prompt sample_options) ≠ "") by settle.
  assert (H1 : trim (o_apiKey sample_options) ≠ "") by settle.
  assert (H2 : trim (o_baseUrl sample_options) ≠ "") by settle.
  assert (H3 : network (answering unauthorized) (request_of (answering unauthorized) sample_options) =
            Normal unauthorized) by settle.
  assert (H4 : ok unauthorized = false) by settle.
  assert (H5 : json unauthorized = Normal (VObj [("error", VObj [("message", VStr "Invalid API key")])])) by settle.
  assert (H6 : own_property "error" [("error", VObj [("message", VStr "Invalid API key")])] = VObj
            [("message", VStr "Invalid API key")]) by settle.
  assert (H7 : truthy (own_property "message" [("message", VStr "Invalid API key")]) = true) by settle.
  exact (conj H0 (conj H1 (conj H2 (conj H3 (conj H4 (conj H5 (conj H6 (conj H7 (generateImage_server_message (answering unauthorized) sample_options [] unauthorized [ ("error", VObj [
             ("message", VStr "Invalid API key") ]) ] [ ("message", VStr
             "Invalid API key") ] H0 H1 H2 H3 H4 H5 H6 H7))))))))).
Defined.

(** X5 at a concrete input. *)
Lemma generateImage_success_sound_witness :
  (generateImage (answering {| status := 200; json := Normal both_fields_body |}) sample_options []
      = (Normal {| success := true; imageUrl := Some (VStr "https://img.example/1.png");
      imageData := None; error := None |}, [Fetch (request_of (answering {| status := 200; json
      := Normal both_fields_body |}) sample_options)]))
  /\ (success {| success := true; imageUrl := Some (VStr "https://img.example/1.png"); imageData :=
      None; error := None |} = true)
  /\ (fields_present sample_options = true ∧ ∃ (response : Response) (body : JsVal), network
      (answering {| status := 200; json := Normal both_fields_body |}) (request_of (answering {|
      status := 200; json := Normal both_fields_body |}) sample_options) = Normal response ∧ ok
      response = true ∧ json response = Normal body ∧ [Fetch (request_of (answering {| status :=
      200; json := Normal both_fields_body |}) sample_options)] = ([] ++ [Fetch (request_of
      (answering {| status := 200; json := Normal both_fields_body |}) sample_options)])%list).
Proof.
  assert (H0 : generateImage (answering {| status := 200; json := Normal both_fields_body |})
            sample_options [] = (Normal {| success := true; imageUrl := Some (VStr
            "https://img.example/1.png"); imageData := None; error := None |}, [Fetch
            (request_of (answering {| status := 200; json := Normal both_fields_body |})
            sample_options)])) by settle.
  assert (H1 : success {| success := true; imageUrl := Some (VStr "https://img.example/1.png"); imageData
            := None; error := None |} = true) by settle.
  exact (conj H0 (conj H1 (generateImage_success_sound (answering (mkResponse 200 (Normal both_fields_body))) sample_options [] [Fetch
             (request_of (answering (mkResponse 200 (Normal both_fields_body)))
             sample_options)] {| success := true; imageUrl := Some (VStr
             "https://img.example/1.png"); imageData := None; error := None |} H0 H1))).
Defined.

(** X7 at a concrete input. *)
Lemma generateCharacterAvatar_request_witness :
  (trim "cgpt_sk_test" ≠ "")
  /\ (trim "https://api.example/v1/" ≠ "")
  /\ (∃ rest : list Effect, (generateCharacterAvatar (answering {| status := 200; json := Normal
      both_fields_body |}) "a knight in silver armour" "cgpt_sk_test" "https://api.example/v1/"
      []).2 = ([] ++ Fetch (wrapper_request (answering {| status := 200; json := Normal
      both_fields_body |}) (avatarPrompt_of "a knight in silver armour") "cgpt_sk_test"
      "https://api.example/v1/" "1024x1024") :: rest)%list ∧ count_fetches rest = 0).
Proof.
  assert (H0 : trim "cgpt_sk_test" ≠ "") by settle.
  assert (H1 : trim "https://api.example/v1/" ≠ "") by settle.
  exact (conj H0 (conj H1 (generateCharacterAvatar_request (answering (mkResponse 200 (Normal both_fields_body)))
             "a knight in silver armour" "cgpt_sk_test"
             "https://api.example/v1/" [] H0 H1))).
Defined.

(** X8 at a concrete input. *)
Lemma generateSceneIllustration_request_witness :
  (trim "cgpt_sk_test" ≠ "")
  /\ (trim "https://api.example/v1/" ≠ "")
  /\ (∃ rest : list Effect, (generateSceneIllustration (answering {| status := 200; json := Normal
      both_fields_body |}) "" "cgpt_sk_test" "https://api.example/v1/" []).2 = ([] ++ Fetch
      (wrapper_request (answering {| status := 200; json := Normal both_fields_body |})
      (scenePrompt_of "") "cgpt_sk_test" "https://api.example/v1/" "1792x1024") :: rest)%list ∧
      count_fetches rest = 0).
Proof.
  assert (H0 : trim "cgpt_sk_test" ≠ "") by settle.
  assert (H1 : trim "https://api.example/v1/" ≠ "") by settle.
  exact (conj H0 (conj H1 (generateSceneIllustration_request (answering (mkResponse 200 (Normal both_fields_body))) "" "cgpt_sk_test"
             "https://api.example/v1/" [] H0 H1))).
Defined.

(** X9 at a concrete input. *)
Lemma base64ToFile_rejects_invalid_character_witness :
  (In "!"%char (list_ascii_of_string (strip_data_url_prefix "TW!u")))
  /\ (b64_char "!" = false)
  /\ ("!"%char ≠ "="%char)
  /\ (is_ascii_whitespace "!" = false)
  /\ (base64ToFile "TW!u" None = Throw InvalidCharacterError).
Proof.
  assert (H0 : In "!"%char (list_ascii_of_string (strip_data_url_prefix "TW!u"))) by settle.
  assert (H1 : b64_char "!" = false) by settle.
  assert (H2 : "!"%char ≠ "="%char) by settle.
  assert (H3 : is_ascii_whitespace "!" = false) by settle.
  exact (conj H0 (conj H1 (conj H2 (conj H3 (base64ToFile_rejects_invalid_character "TW!u" None "!"%char H0 H1 H2 H3))))).
Defined.

(** X10 at a concrete input. *)
Lemma base64ToFile_rejects_unrecognized_type_witness :
  (recognized_type "svg+xml" = false)
  /\ (base64ToFile (data_url_prefix "svg+xml" +:+ "TWFu") None = Throw InvalidCharacterError).
Proof.
  assert (H0 : recognized_type "svg+xml" = false) by settle.
  exact (conj H0 (base64ToFile_rejects_unrecognized_type "svg+xml" "TWFu" None H0)).
Defined.

(** X11 at a concrete input. *)
Lemma base64ToFile_ignores_whitespace_witness :
  (without_whitespace " TW Fu " = base64_encode_chars [Byte.x4d; Byte.x61; Byte.x6e])
  /\ (base64ToFile " TW Fu " None = Normal (png_file None [Byte.x4d; Byte.x61; Byte.x6e])).
Proof.
  assert (H0 : without_whitespace " TW Fu " = base64_encode_chars [Byte.x4d; Byte.x61; Byte.x6e]) by settle.
  exact (conj H0 (base64ToFile_ignores_whitespace " TW Fu " [Byte.x4d; Byte.x61; Byte.x6e] None H0)).
Defined.

(** X13 at a concrete input. *)
Lemma handleSubmit_stores_avatar_witness :
  (trim (f_name alice_form) ≠ "")
  /\ (trim (f_personality alice_form) ≠ "")
  /\ (f_avatarFile alice_form = Some portrait)
  /\ (get_character (characterId_of 1700000000000) empty_world = None)
  /\ (let w' := submit (quiet_host 1700000000000) alice_form empty_world in let key := characterId_of
      1700000000000 +:+ ".png" in blobs w' !! key = Some portrait ∧ get_character
      (characterId_of 1700000000000) w' = Some (record_of 1700000000000 alice_form) ∧ rec_avatar
      (record_of 1700000000000 alice_form) = key ∧ (∀ k : string, k ≠ key → blobs w' !! k =
      blobs empty_world !! k) ∧ (∀ id : string, id ≠ characterId_of 1700000000000 →
      get_character id w' = get_character id empty_world) ∧ In (ShowToast
      "Character created successfully!" ToastSuccess) (new_actions empty_world w') ∧ In
      (SetTimeout 1000) (new_actions empty_world w')).
Proof.
  assert (H0 : trim (f_name alice_form) ≠ "") by settle.
  assert (H1 : trim (f_personality alice_form) ≠ "") by settle.
  assert (H2 : f_avatarFile alice_form = Some portrait) by settle.
  assert (H3 : get_character (characterId_of 1700000000000) empty_world = None) by settle.
  exact (conj H0 (conj H1 (conj H2 (conj H3 (handleSubmit_stores_avatar 1700000000000%Z alice_form empty_world portrait H0 H1 H2 H3))))).
Defined.

(** X14 at a concrete input. *)
Lemma handleSubmit_without_avatar_witness :
  (f_avatarFile bob_form = None)
  /\ (let w' := submit (failing_record_host 1700000000000) bob_form empty_world in blobs w' = blobs
      empty_world ∧ existsb is_blob_write (new_actions empty_world w') = false ∧ ∀ (id : string)
      (r : CharacterRecord), get_character id empty_world = None → get_character id w' = Some r
      → rec_avatar r = "default-avatar.png").
Proof.
  assert (H0 : f_avatarFile bob_form = None) by settle.
  exact (conj H0 (handleSubmit_without_avatar (failing_record_host 1700000000000) bob_form empty_world H0)).
Defined.

(** X15 at a concrete input. *)
Lemma handleSubmit_record_failure_witness :
  (trim (f_name alice_form) ≠ "")
  /\ (trim (f_personality alice_form) ≠ "")
  /\ (import_outcome (failing_record_host 1700000000000)
      "@/lib/data/roleplay/character-record-operation" = Normal ())
  /\ (import_outcome (failing_record_host 1700000000000) "@/lib/data/local-storage" = Normal ())
  /\ (get_character (characterId_of (clock (failing_record_host 1700000000000))) empty_world = None)
  /\ (record_store_outcome (failing_record_host 1700000000000) = Throw {| err_name := "AbortError";
      err_message := "The transaction was aborted." |})
  /\ (handleSubmit (failing_record_host 1700000000000) alice_form empty_world = (Normal (), {| records
      := records empty_world; blobs := blobs empty_world; trace := trace empty_world ++
      actions_to_record_write (failing_record_host 1700000000000) alice_form ++
      actions_of_failure {| err_name := "AbortError"; err_message :=
      "The transaction was aborted." |} |})).
Proof.
  assert (H0 : trim (f_name alice_form) ≠ "") by settle.
  assert (H1 : trim (f_personality alice_form) ≠ "") by settle.
  assert (H2 : import_outcome (failing_record_host 1700000000000)
            "@/lib/data/roleplay/character-record-operation" = Normal ()) by settle.
  assert (H3 : import_outcome (failing_record_host 1700000000000) "@/lib/data/local-storage" = Normal ()) by settle.
  assert (H4 : get_character (characterId_of (clock (failing_record_host 1700000000000))) empty_world =
            None) by settle.
  assert (H5 : record_store_outcome (failing_record_host 1700000000000) = Throw {| err_name :=
            "AbortError"; err_message := "The transaction was aborted." |}) by settle.
  exact (conj H0 (conj H1 (conj H2 (conj H3 (conj H4 (conj H5 (handleSubmit_record_failure (failing_record_host 1700000000000) alice_form empty_world (mkError "AbortError"
             "The transaction was aborted.") H0 H1 H2 H3 H4 H5))))))).
Defined.

(** X16 at a concrete input. *)
Lemma handleSubmit_blob_failure_witness :
  (trim (f_name alice_form) ≠ "")
  /\ (trim (f_personality alice_form) ≠ "")
  /\ (f_avatarFile alice_form = Some portrait)
  /\ (import_outcome (failing_blob_host 1700000000000)
      "@/lib/data/roleplay/character-record-operation" = Normal ())
  /\ (import_outcome (failing_blob_host 1700000000000) "@/lib/data/local-storage" = Normal ())
  /\ (get_character (characterId_of (clock (failing_blob_host 1700000000000))) empty_world = None)
  /\ (record_store_outcome (failing_blob_host 1700000000000) = Normal ())
  /\ (blob_store_outcome (failing_blob_host 1700000000000) = Throw {| err_name :=
      "QuotaExceededError"; err_message := "The quota has been exceeded." |})
  /\ (handleSubmit (failing_blob_host 1700000000000) alice_form empty_world = (Normal (), {| records
      := <[characterId_of (clock (failing_blob_host 1700000000000)):=record_of (clock
      (failing_blob_host 1700000000000)) alice_form]> (records empty_world); blobs := blobs
      empty_world; trace := trace empty_world ++ actions_to_record_write (failing_blob_host
      1700000000000) alice_form ++ SetBlob (characterId_of (clock (failing_blob_host
      1700000000000)) +:+ ".png") :: actions_of_failure {| err_name := "QuotaExceededError";
      err_message := "The quota has been exceeded." |} |})).
Proof.
  assert (H0 : trim (f_name alice_form) ≠ "") by settle.
  assert (H1 : trim (f_personality alice_form) ≠ "") by settle.
  assert (H2 : f_avatarFile alice_form = Some portrait) by settle.
  assert (H3 : import_outcome (failing_blob_host 1700000000000)
            "@/lib/data/roleplay/character-record-operation" = Normal ()) by settle.
  assert (H4 : import_outcome (failing_blob_host 1700000000000) "@/lib/data/local-storage" = Normal ()) by settle.
  assert (H5 : get_character (characterId_of (clock (failing_blob_host 1700000000000))) empty_world =
            None) by settle.
  assert (H6 : record_store_outcome (failing_blob_host 1700000000000) = Normal ()) by settle.
  assert (H7 : blob_store_outcome (failing_blob_host 1700000000000) = Throw {| err_name :=
            "QuotaExceededError"; err_message := "The quota has been exceeded." |}) by settle.
  exact (conj H0 (conj H1 (conj H2 (conj H3 (conj H4 (conj H5 (conj H6 (conj H7 (handleSubmit_blob_failure (failing_blob_host 1700000000000) alice_form empty_world portrait (mkError
             "QuotaExceededError" "The quota has been exceeded.") H0 H1 H2 H3 H4 H5 H6 H7))))))))).
Defined.

(** X18 at a concrete input. *)
Lemma handleSubmit_stored_record_valid_witness :
  (get_character "char_1700000000000" empty_world = None)
  /\ (get_character "char_1700000000000" (submit (quiet_host 1700000000000) alice_form empty_world) =
      Some (record_of 1700000000000 alice_form))
  /\ (let d := CharaCard.data (rec_raw (record_of 1700000000000 alice_form)) in "char_1700000000000" =
      characterId_of (clock (quiet_host 1700000000000)) ∧ rec_id (record_of 1700000000000
      alice_form) = "char_1700000000000" ∧ CharaCard.name d ≠ "" ∧ trim (CharaCard.name d) =
      CharaCard.name d ∧ CharaCard.personality d ≠ "" ∧ trim (CharaCard.personality d) =
      CharaCard.personality d ∧ CharaCard.first_mes d ≠ "" ∧ CharaCard.creatorcomment (rec_raw
      (record_of 1700000000000 alice_form)) = CharaCard.creator_notes d).
Proof.
  assert (H0 : get_character "char_1700000000000" empty_world = None) by settle.
  assert (H1 : get_character "char_1700000000000" (submit (quiet_host 1700000000000) alice_form
            empty_world) = Some (record_of 1700000000000 alice_form)) by settle.
  exact (conj H0 (conj H1 (handleSubmit_stored_record_valid (quiet_host 1700000000000) alice_form empty_world "char_1700000000000"
             (record_of 1700000000000 alice_form) H0 H1))).
Defined.

(** X19 at a concrete input. *)
Lemma handleGenerate_missing_input_witness :
  (trim (ImageGenerationModal.prompt (sample_modal "" "https://api.example/v1/")) = "" ∨ default ""
      (ImageGenerationModal.localStorage (sample_modal "" "https://api.example/v1/") !!
      "openaiApiKey") = "" ∨ default "" (ImageGenerationModal.localStorage (sample_modal ""
      "https://api.example/v1/") !! "openaiBaseUrl") = "")
  /\ (ImageGenerationModal.handleGenerate (answering {| status := 200; json := Normal both_fields_body
      |}) (sample_modal "" "https://api.example/v1/") = (Normal (), if truthy_string (trim
      (ImageGenerationModal.prompt (sample_modal "" "https://api.example/v1/"))) then
      modal_after (sample_modal "" "https://api.example/v1/") (VStr "") (error_toast (VStr
      "Please configure your CloudGPT API settings first")) (ImageGenerationModal.api
      (sample_modal "" "https://api.example/v1/")) else {| ImageGenerationModal.prompt :=
      ImageGenerationModal.prompt (sample_modal "" "https://api.example/v1/");
      ImageGenerationModal.generatedImageUrl := ImageGenerationModal.generatedImageUrl
      (sample_modal "" "https://api.example/v1/"); ImageGenerationModal.isGenerating :=
      ImageGenerationModal.isGenerating (sample_modal "" "https://api.example/v1/");
      ImageGenerationModal.imageSize := ImageGenerationModal.imageSize (sample_modal ""
      "https://api.example/v1/"); ImageGenerationModal.toast := error_toast (VStr
      "Please enter an image description"); ImageGenerationModal.localStorage :=
      ImageGenerationModal.localStorage (sample_modal "" "https://api.example/v1/");
      ImageGenerationModal.api := ImageGenerationModal.api (sample_modal ""
      "https://api.example/v1/"); ImageGenerationModal.calls := ImageGenerationModal.calls
      (sample_modal "" "https://api.example/v1/") |})).
Proof.
  assert (H0 : trim (ImageGenerationModal.prompt (sample_modal "" "https://api.example/v1/")) = "" ∨
            default "" (ImageGenerationModal.localStorage (sample_modal ""
            "https://api.example/v1/") !! "openaiApiKey") = "" ∨ default ""
            (ImageGenerationModal.localStorage (sample_modal "" "https://api.example/v1/")
            !! "openaiBaseUrl") = "") by settle.
  exact (conj H0 (handleGenerate_missing_input (answering (mkResponse 200 (Normal both_fields_body))) (sample_modal ""
             "https://api.example/v1/") H0)).
Defined.

(** X20 at a concrete input. *)
Lemma handleGenerate_whitespace_credentials_witness :
  (trim (ImageGenerationModal.prompt (sample_modal "  " "https://api.example/v1/")) ≠ "")
  /\ (ImageGenerationModal.localStorage (sample_modal "  " "https://api.example/v1/") !!
      "openaiApiKey" = Some "  ")
  /\ (ImageGenerationModal.localStorage (sample_modal "  " "https://api.example/v1/") !!
      "openaiBaseUrl" = Some "https://api.example/v1/")
  /\ ("  " ≠ "")
  /\ ("https://api.example/v1/" ≠ "")
  /\ (trim "  " = "" ∨ trim "https://api.example/v1/" = "")
  /\ (ImageGenerationModal.handleGenerate (answering {| status := 200; json := Normal both_fields_body
      |}) (sample_modal "  " "https://api.example/v1/") = (Normal (), modal_after (sample_modal
      "  " "https://api.example/v1/") (VStr "") (error_toast (VStr (if truthy_string (trim "  ")
      then "API base URL is required" else "API key is required"))) (ImageGenerationModal.api
      (sample_modal "  " "https://api.example/v1/")))).
Proof.
  assert (H0 : trim (ImageGenerationModal.prompt (sample_modal "  " "https://api.example/v1/")) ≠ "") by settle.
  assert (H1 : ImageGenerationModal.localStorage (sample_modal "  " "https://api.example/v1/") !!
            "openaiApiKey" = Some "  ") by settle.
  assert (H2 : ImageGenerationModal.localStorage (sample_modal "  " "https://api.example/v1/") !!
            "openaiBaseUrl" = Some "https://api.example/v1/") by settle.
  assert (H3 : "  " ≠ "") by settle.
  assert (H4 : "https://api.example/v1/" ≠ "") by settle.
  assert (H5 : trim "  " = "" ∨ trim "https://api.example/v1/" = "") by settle.
  exact (conj H0 (conj H1 (conj H2 (conj H3 (conj H4 (conj H5 (handleGenerate_whitespace_credentials (answering (mkResponse 200 (Normal both_fields_body))) (sample_modal "  "
             "https://api.example/v1/") "  " "https://api.example/v1/" H0 H1 H2 H3 H4 H5))))))).
Defined.

(** X21 at a concrete input. *)
Lemma handleGenerate_inline_data_witness :
  (trim (ImageGenerationModal.prompt (sample_modal "cgpt_sk_test" "https://api.example/v1/")) ≠ "")
  /\ (ImageGenerationModal.localStorage (sample_modal "cgpt_sk_test" "https://api.example/v1/") !!
      "openaiApiKey" = Some "cgpt_sk_test")
  /\ (ImageGenerationModal.localStorage (sample_modal "cgpt_sk_test" "https://api.example/v1/") !!
      "openaiBaseUrl" = Some "https://api.example/v1/")
  /\ (trim "cgpt_sk_test" ≠ "")
  /\ (trim "https://api.example/v1/" ≠ "")
  /\ (network (answering {| status := 200; json := Normal inline_only_body |}) (wrapper_request
      (answering {| status := 200; json := Normal inline_only_body |}) (trim
      (ImageGenerationModal.prompt (sample_modal "cgpt_sk_test" "https://api.example/v1/")))
      "cgpt_sk_test" "https://api.example/v1/" (size_literal (ImageGenerationModal.size_of
      (ImageGenerationModal.imageSize (sample_modal "cgpt_sk_test"
      "https://api.example/v1/"))))) = Normal {| status := 200; json := Normal inline_only_body
      |})
  /\ (ok {| status := 200; json := Normal inline_only_body |} = true)
  /\ (json {| status := 200; json := Normal inline_only_body |} = Normal inline_only_body)
  /\ (result_list_shape inline_only_body = true)
  /\ (first_result_item inline_only_body = Some [("b64_json", VStr "TWFu")])
  /\ (truthy (own_property "url" [("b64_json", VStr "TWFu")]) = false)
  /\ (truthy (own_property "b64_json" [("b64_json", VStr "TWFu")]) = true)
  /\ (ImageGenerationModal.handleGenerate (answering {| status := 200; json := Normal inline_only_body
      |}) (sample_modal "cgpt_sk_test" "https://api.example/v1/") = (Normal (), modal_after
      (sample_modal "cgpt_sk_test" "https://api.example/v1/") (VStr "") (error_toast (VStr
      "Failed to generate image")) (ImageGenerationModal.api (sample_modal "cgpt_sk_test"
      "https://api.example/v1/") ++ [Fetch (wrapper_request (answering {| status := 200; json :=
      Normal inline_only_body |}) (trim (ImageGenerationModal.prompt (sample_modal
      "cgpt_sk_test" "https://api.example/v1/"))) "cgpt_sk_test" "https://api.example/v1/"
      (size_literal (ImageGenerationModal.size_of (ImageGenerationModal.imageSize (sample_modal
      "cgpt_sk_test" "https://api.example/v1/")))))]))).
Proof.
  assert (H0 : trim (ImageGenerationModal.prompt (sample_modal "cgpt_sk_test" "https://api.example/v1/"))
            ≠ "") by settle.
  assert (H1 : ImageGenerationModal.localStorage (sample_modal "cgpt_sk_test" "https://api.example/v1/")
            !! "openaiApiKey" = Some "cgpt_sk_test") by settle.
  assert (H2 : ImageGenerationModal.localStorage (sample_modal "cgpt_sk_test" "https://api.example/v1/")
            !! "openaiBaseUrl" = Some "https://api.example/v1/") by settle.
  assert (H3 : trim "cgpt_sk_test" ≠ "") by settle.
  assert (H4 : trim "https://api.example/v1/" ≠ "") by settle.
  assert (H5 : network (answering {| status := 200; json := Normal inline_only_body |}) (wrapper_request
            (answering {| status := 200; json := Normal inline_only_body |}) (trim
            (ImageGenerationModal.prompt (sample_modal "cgpt_sk_test"
            "https://api.example/v1/"))) "cgpt_sk_test" "https://api.example/v1/"
            (size_literal (ImageGenerationModal.size_of (ImageGenerationModal.imageSize
            (sample_modal "cgpt_sk_test" "https://api.example/v1/"))))) = Normal {| status
            := 200; json := Normal inline_only_body |}) by settle.
  assert (H6 : ok {| status := 200; json := Normal inline_only_body |} = true) by settle.
  assert (H7 : json {| status := 200; json := Normal inline_only_body |} = Normal inline_only_body) by settle.
  assert (H8 : result_list_shape inline_only_body = true) by settle.
  assert (H9 : first_result_item inline_only_body = Some [("b64_json", VStr "TWFu")]) by settle.
  assert (H10 : truthy (own_property "url" [("b64_json", VStr "TWFu")]) = false) by settle.
  assert (H11 : truthy (own_property "b64_json" [("b64_json", VStr "TWFu")]) = true) by settle.
  exact (conj H0 (conj H1 (conj H2 (conj H3 (conj H4 (conj H5 (conj H6 (conj H7 (conj H8 (conj H9 (conj H10 (conj H11 (handleGenerate_inline_data (answering (mkResponse 200 (Normal inline_only_body))) (sample_modal
             "cgpt_sk_test" "https://api.example/v1/") "cgpt_sk_test"
             "https://api.example/v1/" (mkResponse 200 (Normal
             inline_only_body)) inline_only_body [ ("b64_json", VStr "TWFu") ] H0 H1 H2 H3 H4 H5 H6 H7 H8 H9 H10 H11))))))))))))).
Defined.

(** X22 at a concrete input. *)
Lemma handleGenerate_hosted_url_witness :
  (trim (ImageGenerationModal.prompt (sample_modal "cgpt_sk_test" "https://api.example/v1/")) ≠ "")
  /\ (ImageGenerationModal.localStorage (sample_modal "cgpt_sk_test" "https://api.example/v1/") !!
      "openaiApiKey" = Some "cgpt_sk_test")
  /\ (ImageGenerationModal.localStorage (sample_modal "cgpt_sk_test" "https://api.example/v1/") !!
      "openaiBaseUrl" = Some "https://api.example/v1/")
  /\ (trim "cgpt_sk_test" ≠ "")
  /\ (trim "https://api.example/v1/" ≠ "")
  /\ (network (answering {| status := 200; json := Normal both_fields_body |}) (wrapper_request
      (answering {| status := 200; json := Normal both_fields_body |}) (trim
      (ImageGenerationModal.prompt (sample_modal "cgpt_sk_test" "https://api.example/v1/")))
      "cgpt_sk_test" "https://api.example/v1/" (size_literal (ImageGenerationModal.size_of
      (ImageGenerationModal.imageSize (sample_modal "cgpt_sk_test"
      "https://api.example/v1/"))))) = Normal {| status := 200; json := Normal both_fields_body
      |})
  /\ (ok {| status := 200; json := Normal both_fields_body |} = true)
  /\ (json {| status := 200; json := Normal both_fields_body |} = Normal both_fields_body)
  /\ (result_list_shape both_fields_body = true)
  /\ (first_result_item both_fields_body = Some [("b64_json", VStr "TWFu"); ("url", VStr
      "https://img.example/1.png")])
  /\ (truthy (own_property "url" [("b64_json", VStr "TWFu"); ("url", VStr
      "https://img.example/1.png")]) = true)
  /\ (ImageGenerationModal.handleGenerate (answering {| status := 200; json := Normal both_fields_body
      |}) (sample_modal "cgpt_sk_test" "https://api.example/v1/") = (Normal (), modal_after
      (sample_modal "cgpt_sk_test" "https://api.example/v1/") (own_property "url" [("b64_json",
      VStr "TWFu"); ("url", VStr "https://img.example/1.png")]) {| isVisible := true;
      toast_message := VStr "Image generated successfully!"; toast_type := ToastSuccess |}
      (ImageGenerationModal.api (sample_modal "cgpt_sk_test" "https://api.example/v1/") ++
      [Fetch (wrapper_request (answering {| status := 200; json := Normal both_fields_body |})
      (trim (ImageGenerationModal.prompt (sample_modal "cgpt_sk_test"
      "https://api.example/v1/"))) "cgpt_sk_test" "https://api.example/v1/" (size_literal
      (ImageGenerationModal.size_of (ImageGenerationModal.imageSize (sample_modal "cgpt_sk_test"
      "https://api.example/v1/")))))]))).
Proof.
  assert (H0 : trim (ImageGenerationModal.prompt (sample_modal "cgpt_sk_test" "https://api.example/v1/"))
            ≠ "") by settle.
  assert (H1 : ImageGenerationModal.localStorage (sample_modal "cgpt_sk_test" "https://api.example/v1/")
            !! "openaiApiKey" = Some "cgpt_sk_test") by settle.
  assert (H2 : ImageGenerationModal.localStorage (sample_modal "cgpt_sk_test" "https://api.example/v1/")
            !! "openaiBaseUrl" = Some "https://api.example/v1/") by settle.
  assert (H3 : trim "cgpt_sk_test" ≠ "") by settle.
  assert (H4 : trim "https://api.example/v1/" ≠ "") by settle.
  assert (H5 : network (answering {| status := 200; json := Normal both_fields_body |}) (wrapper_request
            (answering {| status := 200; json := Normal both_fields_body |}) (trim
            (ImageGenerationModal.prompt (sample_modal "cgpt_sk_test"
            "https://api.example/v1/"))) "cgpt_sk_test" "https://api.example/v1/"
            (size_literal (ImageGenerationModal.size_of (ImageGenerationModal.imageSize
            (sample_modal "cgpt_sk_test" "https://api.example/v1/"))))) = Normal {| status
            := 200; json := Normal both_fields_body |}) by settle.
  assert (H6 : ok {| status := 200; json := Normal both_fields_body |} = true) by settle.
  assert (H7 : json {| status := 200; json := Normal both_fields_body |} = Normal both_fields_body) by settle.
  assert (H8 : result_list_shape both_fields_body = true) by settle.
  assert (H9 : first_result_item both_fields_body = Some [("b64_json", VStr "TWFu"); ("url", VStr
            "https://img.example/1.png")]) by settle.
  assert (H10 : truthy (own_property "url" [("b64_json", VStr "TWFu"); ("url", VStr
            "https://img.example/1.png")]) = true) by settle.
  exact (conj H0 (conj H1 (conj H2 (conj H3 (conj H4 (conj H5 (conj H6 (conj H7 (conj H8 (conj H9 (conj H10 (handleGenerate_hosted_url (answering (mkResponse 200 (Normal both_fields_body))) (sample_modal
             "cgpt_sk_test" "https://api.example/v1/") "cgpt_sk_test"
             "https://api.example/v1/" (mkResponse 200 (Normal
             both_fields_body)) both_fields_body [ ("b64_json", VStr "TWFu");
             ("url", VStr "https://img.example/1.png") ] H0 H1 H2 H3 H4 H5 H6 H7 H8 H9 H10)))))))))))).
Defined.

(** X24 at a concrete input. *)
Lemma handleUseImage_hands_over_witness :
  (truthy (ImageGenerationModal.generatedImageUrl modal_with_url) = true)
  /\ (serving (ImageGenerationModal.generatedImageUrl modal_with_url) = Normal {| media_status := 404;
      media_blob := Normal fox_blob |})
  /\ (media_blob {| media_status := 404; media_blob := Normal fox_blob |} = Normal fox_blob)
  /\ (ImageGenerationModal.handleUseImage serving modal_with_url = (Normal (), {|
      ImageGenerationModal.prompt := ImageGenerationModal.prompt modal_with_url;
      ImageGenerationModal.generatedImageUrl := ImageGenerationModal.generatedImageUrl
      modal_with_url; ImageGenerationModal.isGenerating := ImageGenerationModal.isGenerating
      modal_with_url; ImageGenerationModal.imageSize := ImageGenerationModal.imageSize
      modal_with_url; ImageGenerationModal.toast := ImageGenerationModal.toast modal_with_url;
      ImageGenerationModal.localStorage := ImageGenerationModal.localStorage modal_with_url;
      ImageGenerationModal.api := ImageGenerationModal.api modal_with_url;
      ImageGenerationModal.calls := ImageGenerationModal.calls modal_with_url ++ [Download
      (ImageGenerationModal.generatedImageUrl modal_with_url); OnImageGenerated {| file_name :=
      "generated-avatar.png"; file_type := blob_type fox_blob; file_bytes := blob_bytes fox_blob
      |}; OnClose] |})).
Proof.
  assert (H0 : truthy (ImageGenerationModal.generatedImageUrl modal_with_url) = true) by settle.
  assert (H1 : serving (ImageGenerationModal.generatedImageUrl modal_with_url) = Normal {| media_status
            := 404; media_blob := Normal fox_blob |}) by settle.
  assert (H2 : media_blob {| media_status := 404; media_blob := Normal fox_blob |} = Normal fox_blob) by settle.
  exact (conj H0 (conj H1 (conj H2 (handleUseImage_hands_over serving modal_with_url (mkMediaResponse 404 (Normal fox_blob)) fox_blob H0 H1 H2)))).
Defined.

(** X25 at a concrete input. *)
Lemma handleUseImage_download_failure_witness :
  (truthy (ImageGenerationModal.generatedImageUrl modal_with_url) = true)
  /\ (offline (ImageGenerationModal.generatedImageUrl modal_with_url) = Throw {| err_name :=
      "TypeError"; err_message := "Failed to fetch" |} ∨ (∃ response : MediaResponse, offline
      (ImageGenerationModal.generatedImageUrl modal_with_url) = Normal response ∧ media_blob
      response = Throw {| err_name := "TypeError"; err_message := "Failed to fetch" |}))
  /\ (ImageGenerationModal.handleUseImage offline modal_with_url = (Normal (), {|
      ImageGenerationModal.prompt := ImageGenerationModal.prompt modal_with_url;
      ImageGenerationModal.generatedImageUrl := ImageGenerationModal.generatedImageUrl
      modal_with_url; ImageGenerationModal.isGenerating := ImageGenerationModal.isGenerating
      modal_with_url; ImageGenerationModal.imageSize := ImageGenerationModal.imageSize
      modal_with_url; ImageGenerationModal.toast := error_toast (VStr
      "Failed to process generated image"); ImageGenerationModal.localStorage :=
      ImageGenerationModal.localStorage modal_with_url; ImageGenerationModal.api :=
      ImageGenerationModal.api modal_with_url; ImageGenerationModal.calls :=
      ImageGenerationModal.calls modal_with_url ++ [Download
      (ImageGenerationModal.generatedImageUrl modal_with_url); ConsoleErrorCall
      "Error processing image:" {| err_name := "TypeError"; err_message := "Failed to fetch" |}]
      |})).
Proof.
  assert (H0 : truthy (ImageGenerationModal.generatedImageUrl modal_with_url) = true) by settle.
  assert (H1 : offline (ImageGenerationModal.generatedImageUrl modal_with_url) = Throw {| err_name :=
            "TypeError"; err_message := "Failed to fetch" |} ∨ (∃ response :
            MediaResponse, offline (ImageGenerationModal.generatedImageUrl modal_with_url)
            = Normal response ∧ media_blob response = Throw {| err_name := "TypeError";
            err_message := "Failed to fetch" |})) by settle.
  exact (conj H0 (conj H1 (handleUseImage_download_failure offline modal_with_url (mkError "TypeError" "Failed to fetch") H0 H1))).
Defined.

(** X27 at a concrete input. *)
Lemma generated_avatar_is_stored_witness :
  (truthy (ImageGenerationModal.generatedImageUrl modal_with_url) = true)
  /\ (serving (ImageGenerationModal.generatedImageUrl modal_with_url) = Normal {| media_status := 404;
      media_blob := Normal fox_blob |})
  /\ (media_blob {| media_status := 404; media_blob := Normal fox_blob |} = Normal fox_blob)
  /\ (trim (f_name (cm_form alice_modal)) ≠ "")
  /\ (trim (f_personality (cm_form alice_modal)) ≠ "")
  /\ (get_character (characterId_of 1700000000000) empty_world = None)
  /\ (∃ (st' : CreateModal) (w' : World), In (OnImageGenerated (generated_avatar fox_blob))
      (ImageGenerationModal.calls (ImageGenerationModal.handleUseImage serving
      modal_with_url).2) ∧ handleImageGenerated (λ _ : File, "data:image/png;base64,iVBORw==")
      (generated_avatar fox_blob) alice_modal empty_world = (Normal st', w') ∧ f_avatarFile
      (cm_form st') = Some (generated_avatar fox_blob) ∧ blobs (submit (quiet_host
      1700000000000) (cm_form st') w') !! (characterId_of 1700000000000 +:+ ".png") = Some {|
      file_name := "generated-avatar.png"; file_type := blob_type fox_blob; file_bytes :=
      blob_bytes fox_blob |} ∧ rec_avatar (record_of 1700000000000 (cm_form st')) =
      characterId_of 1700000000000 +:+ ".png" ∧ get_character (characterId_of 1700000000000)
      (submit (quiet_host 1700000000000) (cm_form st') w') = Some (record_of 1700000000000
      (cm_form st'))).
Proof.
  assert (H0 : truthy (ImageGenerationModal.generatedImageUrl modal_with_url) = true) by settle.
  assert (H1 : serving (ImageGenerationModal.generatedImageUrl modal_with_url) = Normal {| media_status
            := 404; media_blob := Normal fox_blob |}) by settle.
  assert (H2 : media_blob {| media_status := 404; media_blob := Normal fox_blob |} = Normal fox_blob) by settle.
  assert (H3 : trim (f_name (cm_form alice_modal)) ≠ "") by settle.
  assert (H4 : trim (f_personality (cm_form alice_modal)) ≠ "") by settle.
  assert (H5 : get_character (characterId_of 1700000000000) empty_world = None) by settle.
  exact (conj H0 (conj H1 (conj H2 (conj H3 (conj H4 (conj H5 (generated_avatar_is_stored (fun _ : File => "data:image/png;base64,iVBORw==") serving modal_with_url
             (mkMediaResponse 404 (Normal fox_blob)) fox_blob alice_modal
             empty_world 1700000000000%Z H0 H1 H2 H3 H4 H5))))))).
Defined.

(** X29 at a concrete input. *)
Lemma chat_enter_ignores_isGenerating_witness :
  (trim (ChatImageGenerator.imagePrompt chat_state) ≠ "")
  /\ ((ChatImageGenerator.onKeyPress "Enter" false chat_state []).2 = ([] ++ [trim
      (ChatImageGenerator.imagePrompt chat_state)])%list ∧ (ChatImageGenerator.clickGenerate
      true chat_state []).2 = [] ∧ (ChatImageGenerator.clickGenerate false chat_state []).2 =
      ([] ++ [trim (ChatImageGenerator.imagePrompt chat_state)])%list ∧
      (ChatImageGenerator.onKeyPress "Enter" true chat_state []).2 = [] ∧ ∀ key : string, key ≠
      "Enter" → ChatImageGenerator.onKeyPress key false chat_state [] = (Normal chat_state, [])).
Proof.
  assert (H0 : trim (ChatImageGenerator.imagePrompt chat_state) ≠ "") by settle.
  exact (conj H0 (chat_enter_ignores_isGenerating chat_state [] true H0)).
Defined.
